(** * RPIController: a shallow embedding of [userdir/rpi_controleller.py]

    The controller drives one robot host over a single SSH connection
    (paramiko), copies configuration files with scp, keeps the remote
    commands it launched in the dictionary [ssh_stds], and talks to a
    supervisor over XML-RPC.

    Layout of the development:
    - [Py]      : the Python library functions the source calls
                  ([str.format], [os.path.basename], [bytes.decode],
                  insertion-ordered [dict]);
    - [Host]    : the world outside the interpreter (local files, the SSH
                  transport and its channels, the scp log, the supervisor
                  end point), and the monad the methods run in;
    - [Ctl]     : the class [RPIController], method by method;
    - [Life]    : the calls a controller receives, the states it reaches,
                  and the other notions the properties are stated with;
    - [Demo]    : a concrete host, for the examples;
    - [Props]   : lemmas about the methods and the properties of the
                  controller. *)

From Stdlib Require Import Strings.Byte Strings.String Strings.Ascii NArith Lia.
From stdpp Require Import base strings list gmap.

Set Default Proof Using "Type".
Local Open Scope string_scope.
Local Open Scope list_scope.
Local Open Scope nat_scope.

(* ===================================================================== *)
(** ** Python library functions used by the source                        *)
(* ===================================================================== *)

Module Py.

(** Python [str] values are kept as Rocq strings holding their UTF-8
    encoding; [bytes] values are lists of bytes. *)

(** The double quote character, which occurs inside the shell commands. *)
Definition dq : string := String "034"%char EmptyString.

(** The backslash character. *)
Definition bs : string := String "092"%char EmptyString.

(** *** [str.format] with automatically numbered [{}] fields

    [format tpl args] is [tpl.format( *args )] for templates whose only
    replacement fields are [{}]: [{{] and [}}] are the escaped braces, a
    field beyond the last argument raises [IndexError], a lone brace or a
    named field raises [ValueError] (both are [None] here).  Arguments left
    over are ignored, as Python does. *)
Fixpoint format (tpl : string) (args : list string) : option string :=
  match tpl with
  | EmptyString => Some EmptyString
  | String "{" (String "{" rest) => String "{" <$> format rest args
  | String "{" (String "}" rest) =>
      match args with
      | a :: args' => String.append a <$> format rest args'
      | [] => None
      end
  | String "{" _ => None
  | String "}" (String "}" rest) => String "}" <$> format rest args
  | String "}" _ => None
  | String c rest => String c <$> format rest args
  end.

(** *** [os.path.basename] (posixpath): what follows the last ['/'] *)
Fixpoint has_slash (p : string) : bool :=
  match p with
  | EmptyString => false
  | String c r => if Ascii.eqb c "/" then true else has_slash r
  end.

Fixpoint basename (p : string) : string :=
  match p with
  | EmptyString => EmptyString
  | String _ r => if has_slash p then basename r else p
  end.

(** *** [bytes.decode("utf-8")] with the default, strict error handler

    [utf8_valid] accepts exactly the well-formed UTF-8 byte sequences
    (shortest form, no surrogates, nothing above U+10FFFF). *)
Definition in_range (lo hi b : N) : bool := ((lo <=? b) && (b <=? hi))%N.

Definition cont (b : N) : bool := in_range 128 191 b.

Fixpoint utf8_valid (l : list N) : bool :=
  match l with
  | [] => true
  | b0 :: r0 =>
      if (b0 <=? 127)%N then utf8_valid r0
      else if in_range 194 223 b0 then
        match r0 with
        | b1 :: r1 => cont b1 && utf8_valid r1
        | _ => false
        end
      else if in_range 224 239 b0 then
        match r0 with
        | b1 :: b2 :: r2 =>
            (if (b0 =? 224)%N then in_range 160 191 b1
             else if (b0 =? 237)%N then in_range 128 159 b1
             else cont b1)
            && cont b2 && utf8_valid r2
        | _ => false
        end
      else if in_range 240 244 b0 then
        match r0 with
        | b1 :: b2 :: b3 :: r3 =>
            (if (b0 =? 240)%N then in_range 144 191 b1
             else if (b0 =? 244)%N then in_range 128 143 b1
             else cont b1)
            && cont b2 && cont b3 && utf8_valid r3
        | _ => false
        end
      else false
  end.

(** [None] stands for [UnicodeDecodeError]. *)
Definition decode_utf8 (data : list byte) : option string :=
  if utf8_valid (Byte.to_N <$> data)
  then Some (string_of_list_byte data)
  else None.

(** *** [dict] with string keys

    A Python dictionary keeps its keys in insertion order, and [__del__]
    walks [ssh_stds.items()] in that order, so the dictionary is an
    association list.  [dict_set] is [d[k] = v]: an existing key keeps its
    place and gets the new value, a new key goes to the end. *)
Section Dict.
Context {V : Type}.

Definition dict := list (string * V).

Fixpoint dict_get (k : string) (d : dict) : option V :=
  match d with
  | [] => None
  | (k', v) :: d' => if String.eqb k k' then Some v else dict_get k d'
  end.

(** [k in d] *)
Definition dict_mem (k : string) (d : dict) : bool :=
  match dict_get k d with Some _ => true | None => false end.

Fixpoint dict_set (k : string) (v : V) (d : dict) : dict :=
  match d with
  | [] => [(k, v)]
  | (k', v') :: d' =>
      if String.eqb k k' then (k', v) :: d' else (k', v') :: dict_set k v d'
  end.

(** [d.pop(k)] on a dictionary that holds [k]; the first entry of that
    key is dropped. *)
Fixpoint dict_pop (k : string) (d : dict) : dict :=
  match d with
  | [] => []
  | (k', v') :: d' =>
      if String.eqb k k' then d' else (k', v') :: dict_pop k d'
  end.

Definition dict_keys (d : dict) : list string := fst <$> d.
End Dict.

Arguments dict : clear implicits.

End Py.

(* ===================================================================== *)
(** ** The host: files, SSH transport, scp, supervisor                    *)
(* ===================================================================== *)

Module Host.
Import Py.

(** Python exceptions the methods can end with. *)
Inductive exn : Type :=
| AttributeError (name : string)   (* attribute never set, or attribute of [None] *)
| KeyError (key : string)          (* subscript of a dict with a missing key *)
| TypeError                        (* subscript of something that is no mapping *)
| IndexError                       (* [str.format] with too few arguments *)
| FileNotFoundError (path : string)
| SSHException                     (* no connection, or the transport is gone *)
| FileClosed                       (* write to a file object that was closed *)
| SocketClosed                     (* send on a closed channel *)
| Fault                            (* [xmlrpc.client.Fault] or a transport error *)
| UnicodeDecodeError.

(** How a call ends: it returns, it raises, or it waits for the remote
    side (a blocking [recv] on an empty, open channel). *)
Inductive outcome (A : Type) : Type :=
| Ret (a : A)
| Raise (e : exn)
| Block.
Arguments Ret {A} a.
Arguments Raise {A} e.
Arguments Block {A}.

(** A local file: a YAML mapping (as [yaml.safe_load] gives it), or any
    other content. *)
Inductive file : Type :=
| YamlMap (d : dict string)
| OtherFile.

(** One channel of the SSH transport, as [exec_command] opens it.  The
    three file objects of the returned triple wrap this one channel;
    [ch_stdin_closed] is the closed flag of the stdin file object. *)
Record Channel : Type := mkChannel {
  ch_command : string;          (* the command line given to exec_command *)
  ch_pty : bool;                (* get_pty *)
  ch_closed : bool;             (* channel.closed *)
  ch_stdin_closed : bool;       (* stdin file object closed, EOF sent *)
  ch_sent : string;             (* everything written to stdin so far *)
  ch_exit_ready : bool;         (* channel.exit_status_ready() *)
  ch_in_buffer : list byte;     (* output received and not yet read *)
  ch_selectable : bool          (* select() reports the channel readable *)
}.

Definition fresh_channel (cmd : string) (pty : bool) : Channel :=
  mkChannel cmd pty false false EmptyString false [] false.

(** The triple [(stdin, stdout, stderr)] that [exec_command] returns; each
    component names the channel it wraps. *)
Record Stds : Type := mkStds { std_in : nat; std_out : nat; std_err : nat }.

(** Calls on the supervisor's XML-RPC interface. *)
Inductive RpcCall : Type :=
| getProcessInfo (name : string)
| stopProcess (name : string) (wait : bool)
| startProcess (name : string) (wait : bool).

(** A [ServerProxy] object: its identity and the URL it was made for. *)
Record ServerProxy : Type := mkProxy { proxy_id : nat; proxy_url : string }.

(** The attributes of an [RPIController] object.  An attribute that
    [__init__] has not assigned yet is [None] here; [sv_server] is
    [Some None] when it holds Python's [None]. *)
Record RPIController : Type := mkController {
  hostname : option string;
  username : option string;
  password : option string;
  robotname : option string;
  client : option unit;                 (* the paramiko.SSHClient *)
  source_command : option string;
  ssh_stds : option (dict Stds);
  sv_server : option (option ServerProxy);
  sv_service_name : option string
}.

Definition blank : RPIController :=
  mkController None None None None None None None None None.

(** Everything outside the object. *)
Record World : Type := mkWorld {
  fs : gmap string file;                (* local files, by path *)
  environ : gmap string string;         (* os.environ *)
  host_accepts : string → string → string → bool;
                                        (* host, user, password: connect succeeds *)
  transport : bool;                     (* the SSH transport is active *)
  channels : gmap nat Channel;          (* channels opened by exec_command *)
  next_chan : nat;                      (* the next channel exec_command opens *)
  scp_log : list (string * string);     (* files copied: (local, remote), in order *)
  now : string;                         (* datetime.now().strftime('%Y%m%d%H%M%S') *)
  slept : nat;                          (* seconds spent in time.sleep *)
  rpc_log : list (nat * RpcCall);       (* XML-RPC calls issued: (proxy, call) *)
  sv_statename : list (nat * RpcCall) → option string;
                                        (* answer to getProcessInfo after the
                                           calls so far; None is a fault *)
  sv_ack : list (nat * RpcCall) → RpcCall → bool;
                                        (* stopProcess/startProcess returns
                                           (true) or faults (false) *)
  proxies : nat                         (* ServerProxy objects made so far *)
}.

Record State : Type := mkState { self : RPIController; world : World }.

(** The channel behind a file object.  File objects are only made by
    [exec_command], which opens their channel first, so the default is
    never what a method of the controller reads. *)
Definition chan_of (m : gmap nat Channel) (n : nat) : Channel :=
  default (fresh_channel EmptyString false) (m !! n).

Definition chan (w : World) (n : nat) : Channel := chan_of (channels w) n.

(** *** Field updates *)
Definition set_hostname v (o : RPIController) :=
  mkController v (username o) (password o) (robotname o) (client o)
    (source_command o) (ssh_stds o) (sv_server o) (sv_service_name o).
Definition set_username v (o : RPIController) :=
  mkController (hostname o) v (password o) (robotname o) (client o)
    (source_command o) (ssh_stds o) (sv_server o) (sv_service_name o).
Definition set_password v (o : RPIController) :=
  mkController (hostname o) (username o) v (robotname o) (client o)
    (source_command o) (ssh_stds o) (sv_server o) (sv_service_name o).
Definition set_robotname v (o : RPIController) :=
  mkController (hostname o) (username o) (password o) v (client o)
    (source_command o) (ssh_stds o) (sv_server o) (sv_service_name o).
Definition set_client v (o : RPIController) :=
  mkController (hostname o) (username o) (password o) (robotname o) v
    (source_command o) (ssh_stds o) (sv_server o) (sv_service_name o).
Definition set_source_command v (o : RPIController) :=
  mkController (hostname o) (username o) (password o) (robotname o) (client o)
    v (ssh_stds o) (sv_server o) (sv_service_name o).
Definition set_ssh_stds v (o : RPIController) :=
  mkController (hostname o) (username o) (password o) (robotname o) (client o)
    (source_command o) v (sv_server o) (sv_service_name o).
Definition set_sv_server v (o : RPIController) :=
  mkController (hostname o) (username o) (password o) (robotname o) (client o)
    (source_command o) (ssh_stds o) v (sv_service_name o).
Definition set_sv_service_name v (o : RPIController) :=
  mkController (hostname o) (username o) (password o) (robotname o) (client o)
    (source_command o) (ssh_stds o) (sv_server o) v.

Definition set_environ v (w : World) :=
  mkWorld (fs w) v (host_accepts w) (transport w) (channels w) (next_chan w)
    (scp_log w) (now w) (slept w) (rpc_log w) (sv_statename w) (sv_ack w) (proxies w).
Definition set_transport v (w : World) :=
  mkWorld (fs w) (environ w) (host_accepts w) v (channels w) (next_chan w)
    (scp_log w) (now w) (slept w) (rpc_log w) (sv_statename w) (sv_ack w) (proxies w).
Definition set_channels v (w : World) :=
  mkWorld (fs w) (environ w) (host_accepts w) (transport w) v (next_chan w)
    (scp_log w) (now w) (slept w) (rpc_log w) (sv_statename w) (sv_ack w) (proxies w).
Definition set_next_chan v (w : World) :=
  mkWorld (fs w) (environ w) (host_accepts w) (transport w) (channels w) v
    (scp_log w) (now w) (slept w) (rpc_log w) (sv_statename w) (sv_ack w) (proxies w).
Definition set_scp_log v (w : World) :=
  mkWorld (fs w) (environ w) (host_accepts w) (transport w) (channels w) (next_chan w)
    v (now w) (slept w) (rpc_log w) (sv_statename w) (sv_ack w) (proxies w).
Definition set_slept v (w : World) :=
  mkWorld (fs w) (environ w) (host_accepts w) (transport w) (channels w) (next_chan w)
    (scp_log w) (now w) v (rpc_log w) (sv_statename w) (sv_ack w) (proxies w).
Definition set_rpc_log v (w : World) :=
  mkWorld (fs w) (environ w) (host_accepts w) (transport w) (channels w) (next_chan w)
    (scp_log w) (now w) (slept w) v (sv_statename w) (sv_ack w) (proxies w).
Definition set_proxies v (w : World) :=
  mkWorld (fs w) (environ w) (host_accepts w) (transport w) (channels w) (next_chan w)
    (scp_log w) (now w) (slept w) (rpc_log w) (sv_statename w) (sv_ack w) v.

Definition set_ch_closed v (c : Channel) :=
  mkChannel (ch_command c) (ch_pty c) v (ch_stdin_closed c) (ch_sent c)
    (ch_exit_ready c) (ch_in_buffer c) (ch_selectable c).
Definition set_ch_stdin_closed v (c : Channel) :=
  mkChannel (ch_command c) (ch_pty c) (ch_closed c) v (ch_sent c)
    (ch_exit_ready c) (ch_in_buffer c) (ch_selectable c).
Definition set_ch_sent v (c : Channel) :=
  mkChannel (ch_command c) (ch_pty c) (ch_closed c) (ch_stdin_closed c) v
    (ch_exit_ready c) (ch_in_buffer c) (ch_selectable c).
Definition set_ch_in_buffer v (c : Channel) :=
  mkChannel (ch_command c) (ch_pty c) (ch_closed c) (ch_stdin_closed c) (ch_sent c)
    (ch_exit_ready c) v (ch_selectable c).
Definition set_ch_selectable v (c : Channel) :=
  mkChannel (ch_command c) (ch_pty c) (ch_closed c) (ch_stdin_closed c) (ch_sent c)
    (ch_exit_ready c) (ch_in_buffer c) v.

(** Output has arrived on the channel and was not read yet. *)
Definition buffered (c : Channel) : bool :=
  match ch_in_buffer c with [] => false | _ => true end.

(** *** The monad of method bodies

    A computation takes the object and the world and gives an outcome and
    the object and world it leaves behind: what was done before an
    exception stays done. *)
Definition M (A : Type) : Type := State → outcome A * State.

#[global] Instance M_ret : MRet M := λ A a s, (Ret a, s).
#[global] Instance M_bind : MBind M := λ A B f m s,
  match m s with
  | (Ret a, s') => f a s'
  | (Raise e, s') => (Raise e, s')
  | (Block, s') => (Block, s')
  end.

Definition raise {A} (e : exn) : M A := λ s, (Raise e, s).
Definition block {A} : M A := λ s, (Block, s).
Definition get_world : M World := λ s, (Ret (world s), s).
Definition modify_world (f : World → World) : M unit :=
  λ s, (Ret tt, mkState (self s) (f (world s))).
Definition modify_self (f : RPIController → RPIController) : M unit :=
  λ s, (Ret tt, mkState (f (self s)) (world s)).

(** [self.name]: reading an attribute that was never assigned raises. *)
Definition getattr {A} (name : string) (proj : RPIController → option A) : M A :=
  λ s, match proj (self s) with
       | Some v => (Ret v, s)
       | None => (Raise (AttributeError name), s)
       end.

(** [d[k]] *)
Definition getitem {V} (k : string) (d : dict V) : M V :=
  match dict_get k d with
  | Some v => mret v
  | None => raise (KeyError k)
  end.

(** [tpl.format( *args )] *)
Definition fmt (tpl : string) (args : list string) : M string :=
  match format tpl args with
  | Some s => mret s
  | None => raise IndexError
  end.

(** [for x in l: body x] *)
Fixpoint for_each {A} (l : list A) (body : A → M unit) : M unit :=
  match l with
  | [] => mret tt
  | x :: l' => body x ;; for_each l' body
  end.

(** [if x is not None: body x] *)
Definition when_some {A} (x : option A) (body : A → M unit) : M unit :=
  match x with
  | Some v => body v
  | None => mret tt
  end.

(** *** Library calls *)

(** [with open(path, 'r') as f: yaml.safe_load(f)] *)
Definition load_yaml (path : string) : M file :=
  w ← get_world;
  match fs w !! path with
  | Some f => mret f
  | None => raise (FileNotFoundError path)
  end.

(** [setting[k]] on what [yaml.safe_load] gave. *)
Definition setting_item (setting : file) (k : string) : M string :=
  match setting with
  | YamlMap d => getitem k d
  | OtherFile => raise TypeError
  end.

(** [k in setting] *)
Definition setting_has (setting : file) (k : string) : M bool :=
  match setting with
  | YamlMap d => mret (dict_mem k d)
  | OtherFile => raise TypeError
  end.

(** [os.environ[k] = v] *)
Definition setenv (k v : string) : M unit :=
  modify_world (λ w, set_environ (<[k:=v]> (environ w)) w).

(** [time.sleep(n)] *)
Definition sleep (n : nat) : M unit :=
  modify_world (λ w, set_slept (slept w + n) w).

(** [datetime.datetime.now().strftime('%Y%m%d%H%M%S')] *)
Definition strftime_now : M string := w ← get_world; mret (now w).

(** [client.connect(hostname=..., port=22, username=..., password=...)] *)
Definition ssh_connect (host user pass : string) : M unit :=
  w ← get_world;
  if host_accepts w host user pass
  then modify_world (set_transport true)
  else raise SSHException.

(** [client.exec_command(command, get_pty=...)]: a new channel on the
    transport; returns at once with the three file objects. *)
Definition exec_command (command : string) (get_pty : bool) : M Stds :=
  w ← get_world;
  if transport w then
    let n := next_chan w in
    modify_world (λ w, set_next_chan (S n)
                         (set_channels (<[n := fresh_channel command get_pty]> (channels w)) w)) ;;
    mret (mkStds n n n)
  else raise SSHException.

(** [client.close()]: closes the transport and with it every channel. *)
Definition ssh_close : M unit :=
  modify_world (λ w, set_transport false
                       (set_channels (set_ch_closed true <$> channels w) w)).

(** Entering [with scp.SCPClient(client.get_transport()) as scpc] opens
    the scp session. *)
Definition scp_enter : M unit :=
  w ← get_world;
  if transport w then mret tt else raise SSHException.

(** [scpc.put(local, remote)] *)
Definition scp_put (local remote : string) : M unit :=
  w ← get_world;
  if transport w then
    match fs w !! local with
    | Some _ => modify_world (λ w, set_scp_log (scp_log w ++ [(local, remote)]) w)
    | None => raise (FileNotFoundError local)
    end
  else raise SSHException.

Definition update_chan (n : nat) (f : Channel → Channel) : M unit :=
  modify_world (λ w, set_channels (<[n := f (chan w n)]> (channels w)) w).

(** [f.write(data)] on the stdin file object of channel [n] (unbuffered):
    a closed file refuses, empty data sends nothing, a closed channel
    refuses the send. *)
Definition file_write (n : nat) (data : string) : M unit :=
  w ← get_world;
  let c := chan w n in
  if ch_stdin_closed c then raise FileClosed
  else match data with
       | EmptyString => mret tt
       | _ => if ch_closed c then raise SocketClosed
              else update_chan n (λ c, set_ch_sent (ch_sent c +:+ data) c)
       end.

(** [print(s, file=f, end=e)]: writes [s], then [e]. *)
Definition print (s : string) (f : nat) (e : string) : M unit :=
  file_write f s ;; file_write f e.

(** [f.close()] on the stdin file object: marks it closed and shuts the
    write side of the channel. *)
Definition file_close (n : nat) : M unit :=
  update_chan n (set_ch_stdin_closed true).

(** [f.channel.closed], [f.channel.exit_status_ready()],
    [f.channel.recv_ready()] *)
Definition channel_closed (n : nat) : M bool :=
  w ← get_world; mret (ch_closed (chan w n)).
Definition exit_status_ready (n : nat) : M bool :=
  w ← get_world; mret (ch_exit_ready (chan w n)).
Definition recv_ready (n : nat) : M bool :=
  w ← get_world; mret (buffered (chan w n)).

(** [select.select([f.channel], [], [], 0.0)]: a poll; gives the list of
    readable channels among the one it was asked about. *)
Definition select0 (n : nat) : M (list nat) :=
  w ← get_world;
  if ch_selectable (chan w n) then mret [n] else mret [].

(** [f.channel.recv(nbytes)]: up to [nbytes] bytes of what has arrived;
    with nothing there it waits, unless the channel is closed, where it
    returns no bytes. *)
Definition recv (n : nat) (nbytes : nat) : M (list byte) :=
  w ← get_world;
  let c := chan w n in
  match ch_in_buffer c with
  | [] => if ch_closed c then mret [] else block
  | buf =>
      update_chan n (set_ch_in_buffer (drop nbytes buf)) ;;
      mret (take nbytes buf)
  end.

(** [data.decode("utf-8")] *)
Definition decode (data : list byte) : M string :=
  match decode_utf8 data with
  | Some s => mret s
  | None => raise UnicodeDecodeError
  end.

(** [ServerProxy(url)]: a new proxy object; nothing is sent yet. *)
Definition new_ServerProxy (url : string) : M ServerProxy :=
  w ← get_world;
  let p := mkProxy (proxies w) url in
  modify_world (set_proxies (S (proxies w))) ;;
  mret p.

(** [x.supervisor] where [x] is the value of [self.sv_server]. *)
Definition supervisor (x : option ServerProxy) : M ServerProxy :=
  match x with
  | Some p => mret p
  | None => raise (AttributeError "supervisor")
  end.

Definition log_rpc (p : ServerProxy) (c : RpcCall) : M unit :=
  modify_world (λ w, set_rpc_log (rpc_log w ++ [(proxy_id p, c)]) w).

(** [p.supervisor.getProcessInfo(name)['statename']] *)
Definition rpc_statename (p : ServerProxy) (name : string) : M string :=
  w ← get_world;
  log_rpc p (getProcessInfo name) ;;
  match sv_statename w (rpc_log w) with
  | Some st => mret st
  | None => raise Fault
  end.

(** [p.supervisor.stopProcess(name, wait)] and
    [p.supervisor.startProcess(name, wait)] *)
Definition rpc_command (p : ServerProxy) (c : RpcCall) : M unit :=
  w ← get_world;
  log_rpc p c ;;
  if sv_ack w (rpc_log w) c then mret tt else raise Fault.

End Host.

(* ===================================================================== *)
(** ** The class [RPIController]                                          *)
(* ===================================================================== *)

Module Ctl.
Import Py Host.

(** The interrupt character written by [print('\x03', ...)]. *)
Definition ETX : string := String "003"%char EmptyString.

(** [self.ssh_stds[k] = v] *)
Definition ssh_stds_setitem (k : string) (v : Stds) : M unit :=
  d ← getattr "ssh_stds" ssh_stds;
  modify_self (set_ssh_stds (Some (dict_set k v d))).

(** [self.ssh_stds[k]] *)
Definition ssh_stds_getitem (k : string) : M Stds :=
  d ← getattr "ssh_stds" ssh_stds;
  getitem k d.

(** [self.ssh_stds.pop(k)] *)
Definition ssh_stds_pop (k : string) : M Stds :=
  d ← getattr "ssh_stds" ssh_stds;
  v ← getitem k d;
  modify_self (set_ssh_stds (Some (dict_pop k d))) ;;
  mret v.

(** [k in self.ssh_stds] *)
Definition ssh_stds_contains (k : string) : M bool :=
  d ← getattr "ssh_stds" ssh_stds;
  mret (dict_mem k d).

(** The string constants of the source. *)
Definition source_command_template : string :=
  "source /home/{}/.ros_rc && source /home/{}/catkin_ws/devel/setup.bash".

Definition make_shell_template : string :=
  "echo -e 'trap " +:+ bs +:+ dq +:+ "trap - SIGTERM && kill -- -\$\$" +:+ bs +:+ dq
  +:+ " SIGINT SIGTERM EXIT\n{} && roslaunch /home/{}/cps_rpi/launch/run_robot.launch"
  +:+ " dynamixel_settings:={} controller_settings:={} namespace:={}"
  +:+ " sensor_config_path:={} use_dynamixel:={} use_sensor:={} use_camera:={}"
  +:+ " & \nwait\n' > {}/run_robot.sh".

Definition settings_command_template : string :=
  "bash -lc " +:+ dq +:+ "mkdir -p {} && rm -f {} && ln -s {} {} && {}" +:+ dq.

Definition sensor_command_template : string :=
  "bash -lc " +:+ dq
  +:+ "{} && roslaunch sensor_pi sensor_pi.launch config_path:={} namespace:={}"
  +:+ dq.

Definition dynamixel_command_template : string :=
  "bash -lc " +:+ dq
  +:+ "{} && roslaunch dynamixel_irsl controllers.launch dynamixel_settings:={}"
  +:+ " controller_settings:={} namespace:={}" +:+ dq.

Definition proxy_url_template : string := "http://{}:{}@{}:9999/RPC2".

(** *** [__init__(self, robotname, ros_settings_path)] *)
Definition __init__ (robotname' ros_settings_path : string) : M unit :=
  setting ← load_yaml ros_settings_path;
  v ← setting_item setting "robot_ip_addr";
  modify_self (set_hostname (Some v)) ;;
  v ← setting_item setting "username";
  modify_self (set_username (Some v)) ;;
  v ← setting_item setting "password";
  modify_self (set_password (Some v)) ;;
  modify_self (set_robotname (Some robotname')) ;;
  has_master ← setting_has setting "rosmaster_ip_addr";
  master ← (if has_master : bool
            then setting_item setting "rosmaster_ip_addr"
            else setting_item setting "robot_ip_addr");
  uri ← fmt "http://{}:11311" [master];
  setenv "ROS_MASTER_URI" uri ;;
  v ← setting_item setting "host_ip_addr";
  setenv "ROS_IP" v ;;
  v ← setting_item setting "host_ip_addr";
  setenv "ROS_HOSTNAME" v ;;
  modify_self (set_client (Some tt)) ;;
  getattr "client" client ;;
  getattr "client" client ;;
  h ← getattr "hostname" hostname;
  u ← getattr "username" username;
  p ← getattr "password" password;
  ssh_connect h u p ;;
  u1 ← getattr "username" username;
  u2 ← getattr "username" username;
  sc ← fmt source_command_template [u1; u2];
  modify_self (set_source_command (Some sc)) ;;
  modify_self (set_ssh_stds (Some [])) ;;
  modify_self (set_sv_server (Some None)) ;;
  modify_self (set_sv_service_name (Some "run_robot")).

(** [RPIController(robotname, ros_settings_path)]: [__init__] on a new
    object.  When [__init__] raises, the object it was filling in is what
    [__del__] later receives. *)
Definition construct (robotname' ros_settings_path : string) (w : World)
  : outcome unit * State :=
  __init__ robotname' ros_settings_path (mkState blank w).

(** *** [send_settings] *)

(** The body of the loop over [send_files]. *)
Definition send_file (dist_dir sendfile : string) : M unit :=
  dest ← fmt "{}/{}" [dist_dir; basename sendfile];
  scp_put sendfile dest.

Definition send_settings (use_actuator use_sensor use_camera : bool)
    (sensor_config_path dynamimxel_config controller_config : option string)
    (send_files : list string) : M unit :=
  date_string ← strftime_now;
  u ← getattr "username" username;
  dist_dir ← fmt "/home/{}/cps_settings/{}" [u; date_string];
  u ← getattr "username" username;
  latest_dir ← fmt "/home/{}/cps_settings/latest_settings" [u];
  put_sensor_config_path ← fmt "{}/all_sensor.yaml" [dist_dir];
  put_dynamixel_config_path ← fmt "{}/config.yaml" [dist_dir];
  put_controller_config_path ← fmt "{}/controller_config.yaml" [dist_dir];
  load_sensor_config_path ← fmt "{}/all_sensor.yaml" [latest_dir];
  load_dynamixel_config_path ← fmt "{}/config.yaml" [latest_dir];
  load_controller_config_path ← fmt "{}/controller_config.yaml" [latest_dir];
  let use_dynamixel_str := if use_actuator then "true" else "false" in
  let use_sensor_str := if use_sensor then "true" else "false" in
  let use_camera_str := if use_camera then "true" else "false" in
  sc ← getattr "source_command" source_command;
  u ← getattr "username" username;
  rn ← getattr "robotname" robotname;
  make_shell ← fmt make_shell_template
    [sc; u; load_dynamixel_config_path; load_controller_config_path; rn;
     load_sensor_config_path; use_dynamixel_str; use_sensor_str;
     use_camera_str; dist_dir];
  command ← fmt settings_command_template
    [dist_dir; latest_dir; dist_dir; latest_dir; make_shell];
  getattr "client" client ;;
  stds ← exec_command command true;
  ssh_stds_setitem "operation" stds ;;
  sleep 2 ;;
  getattr "client" client ;;
  scp_enter ;;
  when_some sensor_config_path (λ p, scp_put p put_sensor_config_path) ;;
  when_some dynamimxel_config (λ p, scp_put p put_dynamixel_config_path) ;;
  when_some controller_config (λ p, scp_put p put_controller_config_path) ;;
  for_each send_files (send_file dist_dir).

(** *** [start_robot] and [stop_robot] *)
Definition start_robot : M unit :=
  u ← getattr "username" username;
  p ← getattr "password" password;
  h ← getattr "hostname" hostname;
  url ← fmt proxy_url_template [u; p; h];
  proxy ← new_ServerProxy url;
  modify_self (set_sv_server (Some (Some proxy))) ;;
  sv ← getattr "sv_server" sv_server;
  sup ← supervisor sv;
  name ← getattr "sv_service_name" sv_service_name;
  statename ← rpc_statename sup name;
  (if String.eqb statename "RUNNING" then
     sv ← getattr "sv_server" sv_server;
     sup ← supervisor sv;
     name ← getattr "sv_service_name" sv_service_name;
     rpc_command sup (stopProcess name true)
   else mret tt) ;;
  sv ← getattr "sv_server" sv_server;
  sup ← supervisor sv;
  name ← getattr "sv_service_name" sv_service_name;
  rpc_command sup (startProcess name true).

Definition stop_robot : M unit :=
  sv ← getattr "sv_server" sv_server;
  sup ← supervisor sv;
  name ← getattr "sv_service_name" sv_service_name;
  rpc_command sup (stopProcess name true).

(** *** Sensor and dynamixel sessions over ssh *)
Definition connect_sensor (sensor_config_path : string) : M unit :=
  let put_sensor_config_path := "/tmp/all_sensor.yaml" in
  getattr "client" client ;;
  scp_enter ;;
  scp_put sensor_config_path put_sensor_config_path ;;
  sc ← getattr "source_command" source_command;
  rn ← getattr "robotname" robotname;
  command ← fmt sensor_command_template [sc; put_sensor_config_path; rn];
  getattr "client" client ;;
  stds ← exec_command command true;
  ssh_stds_setitem "sensor" stds.

Definition disconnect_sensor : M unit :=
  present ← ssh_stds_contains "sensor";
  if present : bool then
    stds ← ssh_stds_getitem "sensor";
    print ETX (std_in stds) EmptyString ;;
    stds ← ssh_stds_getitem "sensor";
    file_close (std_in stds) ;;
    ssh_stds_pop "sensor" ;;
    mret tt
  else mret tt.

Definition connect_dynamixel (dynamimxel_config controller_config : string) : M unit :=
  let put_dynamixel_config_path := "/tmp/config.yaml" in
  let put_controller_config_path := "/tmp/controller_config.yaml" in
  getattr "client" client ;;
  scp_enter ;;
  scp_put dynamimxel_config put_dynamixel_config_path ;;
  scp_put controller_config put_controller_config_path ;;
  sc ← getattr "source_command" source_command;
  rn ← getattr "robotname" robotname;
  command ← fmt dynamixel_command_template
    [sc; put_dynamixel_config_path; put_controller_config_path; rn];
  getattr "client" client ;;
  stds ← exec_command command true;
  ssh_stds_setitem "dynamixel" stds.

Definition discnnet_dynamixel : M unit :=
  present ← ssh_stds_contains "dynamixel";
  if present : bool then
    stds ← ssh_stds_getitem "dynamixel";
    print ETX (std_in stds) EmptyString ;;
    stds ← ssh_stds_getitem "dynamixel";
    file_close (std_in stds) ;;
    ssh_stds_pop "dynamixel" ;;
    mret tt
  else mret tt.

(** *** Reading a session's output *)
Definition get_stdout (stdout : nat) : M string :=
  exited ← exit_status_ready stdout;
  if negb exited then
    ready ← recv_ready stdout;
    if ready : bool then
      rl ← select0 stdout;
      if (0 <? List.length rl)%nat then
        data ← recv stdout 2048;
        decode data
      else mret EmptyString
    else mret EmptyString
  else mret EmptyString.

Definition get_sensor_stdout : M string :=
  stds ← ssh_stds_getitem "sensor";
  get_stdout (std_out stds).

Definition get_dynaxmiel_stdout : M string :=
  stds ← ssh_stds_getitem "dynamixel";
  get_stdout (std_out stds).

(** *** The destructor *)

(** The body of the loop over [self.ssh_stds.items()]. *)
Definition interrupt (item : string * Stds) : M unit :=
  let stds := item.2 in
  closed ← channel_closed (std_in stds);
  if negb closed then
    print ETX (std_in stds) EmptyString ;;
    file_close (std_in stds)
  else mret tt.

Definition __del__ : M unit :=
  d ← getattr "ssh_stds" ssh_stds;
  for_each d interrupt ;;
  getattr "client" client ;;
  ssh_close ;;
  sv ← getattr "sv_server" sv_server;
  (match sv with
   | Some _ => stop_robot
   | None => mret tt
   end) ;;
  sleep 1.

End Ctl.

(* ===================================================================== *)
(** ** The life of a controller: the vocabulary of the properties         *)
(* ===================================================================== *)

Module Life.
Import Py Host Ctl.

(** What a controller looks like when [__init__] ran to its end. *)
Definition constructed (o : RPIController) : Prop :=
  ∃ h u p rn sc d sv,
    o = mkController (Some h) (Some u) (Some p) (Some rn) (Some tt) (Some sc)
          (Some d) (Some sv) (Some "run_robot").

(** The public methods, the destructor apart, which ends the life of the
    object. *)
Inductive call : Type :=
| call_send_settings (use_actuator use_sensor use_camera : bool)
    (sensor_config_path dynamimxel_config controller_config : option string)
    (send_files : list string)
| call_start_robot
| call_stop_robot
| call_connect_sensor (sensor_config_path : string)
| call_disconnect_sensor
| call_connect_dynamixel (dynamimxel_config controller_config : string)
| call_discnnet_dynamixel
| call_get_sensor_stdout
| call_get_dynaxmiel_stdout.

(** The state a call leaves, whether it returned or raised. *)
Definition perform (c : call) (s : State) : State :=
  match c with
  | call_send_settings a b c p1 p2 p3 fl => (send_settings a b c p1 p2 p3 fl s).2
  | call_start_robot => (start_robot s).2
  | call_stop_robot => (stop_robot s).2
  | call_connect_sensor p => (connect_sensor p s).2
  | call_disconnect_sensor => (disconnect_sensor s).2
  | call_connect_dynamixel p1 p2 => (connect_dynamixel p1 p2 s).2
  | call_discnnet_dynamixel => (discnnet_dynamixel s).2
  | call_get_sensor_stdout => (get_sensor_stdout s).2
  | call_get_dynaxmiel_stdout => (get_dynaxmiel_stdout s).2
  end.

(** The remote side may close channels, deliver output and exit codes, and
    drop the connection; files come and go and the clock moves.  It cannot
    touch what the local process keeps: which channels were opened and
    with what command, what was written to them, the closed flag of the
    local file objects, and the logs. *)
Record env_step (w w' : World) : Prop := mk_env_step {
  env_next_chan : next_chan w' = next_chan w;
  env_channels : ∀ n c, channels w !! n = Some c →
    ∃ c', channels w' !! n = Some c'
          ∧ ch_command c' = ch_command c ∧ ch_pty c' = ch_pty c
          ∧ ch_stdin_closed c' = ch_stdin_closed c ∧ ch_sent c' = ch_sent c;
  env_scp_log : scp_log w' = scp_log w;
  env_rpc_log : rpc_log w' = rpc_log w;
  env_proxies : proxies w' = proxies w;
  env_environ : environ w' = environ w
}.

(** The states of a controller: what construction leaves (also when it
    raised), and what calls and the remote side make of it. *)
Inductive reachable : State → Prop :=
| reach_construct rn path w :
    reachable (construct rn path w).2
| reach_call c s :
    reachable s → reachable (perform c s)
| reach_env s w' :
    reachable s → env_step (world s) w' → reachable (mkState (self s) w').

(** A registered session refers to a channel that [exec_command] opened
    and whose stdin file object is still open. *)
Definition session_ok (m : gmap nat Channel) (nc : nat) (stds : Stds) : Prop :=
  std_in stds < nc ∧ ∃ c, m !! std_in stds = Some c ∧ ch_stdin_closed c = false.

(** The registry has one entry per key, no channel twice, and only
    sessions that are as above. *)
Definition registry_ok (m : gmap nat Channel) (nc : nat) (d : dict Stds) : Prop :=
  NoDup (dict_keys d) ∧ NoDup (std_in <$> d.*2) ∧ Forall (λ kv, session_ok m nc kv.2) d.

(** The invariant of the registry, where the object has one. *)
Definition state_ok (s : State) : Prop :=
  ∀ d, ssh_stds (self s) = Some d →
       registry_ok (channels (world s)) (next_chan (world s)) d.

(** [state_ok] on the three fields it reads. *)
Definition fields_ok (sd : option (dict Stds)) (m : gmap nat Channel) (nc : nat) : Prop :=
  ∀ d, sd = Some d → registry_ok m nc d.

(** The three methods that start a remote command and store it in
    [ssh_stds], with the key each one stores it under. *)
Inductive launcher : Type :=
| launch_sensor (sensor_config_path : string)
| launch_dynamixel (dynamimxel_config controller_config : string)
| launch_settings (use_actuator use_sensor use_camera : bool)
    (sensor_config_path dynamimxel_config controller_config : option string)
    (send_files : list string).

(** The key a launcher stores its session under. *)
Definition launch_key (l : launcher) : string :=
  match l with
  | launch_sensor _ => "sensor"
  | launch_dynamixel _ _ => "dynamixel"
  | launch_settings _ _ _ _ _ _ _ => "operation"
  end.

(** The method behind a launcher. *)
Definition launch (l : launcher) : M unit :=
  match l with
  | launch_sensor p => connect_sensor p
  | launch_dynamixel p1 p2 => connect_dynamixel p1 p2
  | launch_settings a b c p1 p2 p3 fl => send_settings a b c p1 p2 p3 fl
  end.

(** The two keys that have a disconnect method. *)
Inductive session_key : Type := key_sensor | key_dynamixel.

Definition key_name (k : session_key) : string :=
  match k with key_sensor => "sensor" | key_dynamixel => "dynamixel" end.

(** [connect_sensor] or [connect_dynamixel], by key; the sensor takes the
    first path only. *)
Definition connect (k : session_key) (config1 config2 : string) : M unit :=
  match k with
  | key_sensor => connect_sensor config1
  | key_dynamixel => connect_dynamixel config1 config2
  end.

(** [disconnect_sensor] or [discnnet_dynamixel], by key. *)
Definition disconnect (k : session_key) : M unit :=
  match k with
  | key_sensor => disconnect_sensor
  | key_dynamixel => discnnet_dynamixel
  end.

Definition connect_launcher (k : session_key) (config1 config2 : string) : launcher :=
  match k with
  | key_sensor => launch_sensor config1
  | key_dynamixel => launch_dynamixel config1 config2
  end.


(** What the loop of [__del__] does to the channel of a session: nothing
    when the channel is closed already, ETX and the closing of its stdin
    otherwise. *)
Definition interrupted (c : Channel) : Channel :=
  if ch_closed c then c
  else set_ch_stdin_closed true (set_ch_sent (ch_sent c +:+ ETX) c).

(** [needle in text] *)
Definition contains (needle text : string) : Prop :=
  ∃ pre post, text = pre +:+ needle +:+ post.

(** [text.startswith(needle)] *)
Definition starts (needle text : string) : Prop :=
  ∃ post, text = needle +:+ post.

(** The dated directory and the link to the latest one, as
    [send_settings] formats them. *)
Definition dist_dir_of (user date : string) : string :=
  "/home/" +:+ user +:+ "/cps_settings/" +:+ date.

Definition latest_dir_of (user : string) : string :=
  "/home/" +:+ user +:+ "/cps_settings/latest_settings".

(** ['true' if b else 'false'] *)
Definition flag (b : bool) : string := if b then "true" else "false".

(** Where [send_file] puts a file. *)
Definition send_dest (dist sendfile : string) : string * string :=
  (sendfile, dist +:+ "/" +:+ basename sendfile).

(** The files [send_settings] copies, with their destinations, in the
    order of the copies. *)
Definition transfer_list (dist : string)
    (sensor_config_path dynamimxel_config controller_config : option string)
    (send_files : list string) : list (string * string) :=
  option_list ((λ p, (p, dist +:+ "/all_sensor.yaml")) <$> sensor_config_path)
  ++ option_list ((λ p, (p, dist +:+ "/config.yaml")) <$> dynamimxel_config)
  ++ option_list ((λ p, (p, dist +:+ "/controller_config.yaml")) <$> controller_config)
  ++ (send_dest dist <$> send_files).

(** One [scpc.put] after the other. *)
Definition put_all (batch : list (string * string)) : M unit :=
  for_each batch (λ x, scp_put x.1 x.2).

(** The launch arguments inside the command of [send_settings]. *)
Definition launch_flags (use_dynamixel use_sensor use_camera : string) : string :=
  "use_dynamixel:=" +:+ use_dynamixel +:+ " use_sensor:=" +:+ use_sensor
  +:+ " use_camera:=" +:+ use_camera.

(** *** Construction *)

(** The shell line [__init__] keeps in [source_command], for a user. *)
Definition source_command_of (user : string) : string :=
  "source /home/" +:+ user +:+ "/.ros_rc && source /home/" +:+ user
  +:+ "/catkin_ws/devel/setup.bash".

(** The value [__init__] gives [ROS_MASTER_URI]: the address under
    [rosmaster_ip_addr] when the settings have one, the robot's otherwise. *)
Definition master_uri_of (d : dict string) (robot_ip : string) : string :=
  "http://" +:+ default robot_ip (dict_get "rosmaster_ip_addr" d) +:+ ":11311".

(** [os.environ] after the three assignments of [__init__]. *)
Definition ros_environ (d : dict string) (robot_ip host_ip : string)
    (env : gmap string string) : gmap string string :=
  <["ROS_HOSTNAME" := host_ip]>
    (<["ROS_IP" := host_ip]>
       (<["ROS_MASTER_URI" := master_uri_of d robot_ip]> env)).

(** The keys [__init__] subscripts the settings with, in the order of the
    subscripts. *)
Definition required_keys : list string :=
  ["robot_ip_addr"; "username"; "password"; "host_ip_addr"].

(** The first of them that the settings do not have. *)
Definition first_missing (d : dict string) : option string :=
  List.find (λ k, negb (dict_mem k d)) required_keys.

(** *** Command lines *)

(** [text.endswith(needle)] *)
Definition ends (needle text : string) : Prop :=
  ∃ pre, text = pre +:+ needle.

(** The beginning of the command of [send_settings]: the dated directory
    is made and the link to the latest settings is turned to it before
    anything is written. *)
Definition settings_prologue (dist latest : string) : string :=
  "bash -lc " +:+ dq +:+ "mkdir -p " +:+ dist +:+ " && rm -f " +:+ latest
  +:+ " && ln -s " +:+ dist +:+ " " +:+ latest +:+ " && echo -e '".

(** The launch line of the script that the command writes. *)
Definition settings_launch_line (user latest robot : string) : string :=
  "roslaunch /home/" +:+ user +:+ "/cps_rpi/launch/run_robot.launch"
  +:+ " dynamixel_settings:=" +:+ latest +:+ "/config.yaml"
  +:+ " controller_settings:=" +:+ latest +:+ "/controller_config.yaml"
  +:+ " namespace:=" +:+ robot
  +:+ " sensor_config_path:=" +:+ latest +:+ "/all_sensor.yaml".

(** The end of the command: where the script goes. *)
Definition settings_epilogue (dist : string) : string :=
  "' > " +:+ dist +:+ "/run_robot.sh" +:+ dq.

(** The command lines of [connect_sensor] and [connect_dynamixel], for a
    shell line [sc] and a robot name. *)
Definition sensor_command_of (sc robot : string) : string :=
  "bash -lc " +:+ dq +:+ sc
  +:+ " && roslaunch sensor_pi sensor_pi.launch config_path:=/tmp/all_sensor.yaml"
  +:+ " namespace:=" +:+ robot +:+ dq.

Definition dynamixel_command_of (sc robot : string) : string :=
  "bash -lc " +:+ dq +:+ sc
  +:+ " && roslaunch dynamixel_irsl controllers.launch"
  +:+ " dynamixel_settings:=/tmp/config.yaml"
  +:+ " controller_settings:=/tmp/controller_config.yaml"
  +:+ " namespace:=" +:+ robot +:+ dq.

(** *** The registry and the calls *)

(** The key a call stores a session under, and the key a call removes. *)
Definition stores (c : call) : option string :=
  match c with
  | call_send_settings _ _ _ _ _ _ _ => Some "operation"
  | call_connect_sensor _ => Some "sensor"
  | call_connect_dynamixel _ _ => Some "dynamixel"
  | _ => None
  end.

Definition removes (c : call) : option string :=
  match c with
  | call_disconnect_sensor => Some "sensor"
  | call_discnnet_dynamixel => Some "dynamixel"
  | _ => None
  end.

(** The keys the methods use. *)
Definition registry_keys : list string := ["operation"; "sensor"; "dynamixel"].

(** Nothing has been written to the sessions of the registry. *)
Definition unwritten (m : gmap nat Channel) (d : dict Stds) : Prop :=
  Forall (λ kv : string * Stds, ch_sent (chan_of m (std_in kv.2)) = EmptyString) d.

(** The same on the two fields it reads, and on a state. *)
Definition sent_fields (sd : option (dict Stds)) (m : gmap nat Channel) : Prop :=
  ∀ d, sd = Some d → unwritten m d.

Definition sent_ok (s : State) : Prop :=
  sent_fields (ssh_stds (self s)) (channels (world s)).

(** *** The supervisor *)

(** The address [start_robot] makes its proxy for. *)
Definition proxy_url_of (user pass host : string) : string :=
  "http://" +:+ user +:+ ":" +:+ pass +:+ "@" +:+ host +:+ ":9999/RPC2".

(** The three requests the methods send to the supervisor. *)
Definition run_robot_calls : list RpcCall :=
  [getProcessInfo "run_robot"; stopProcess "run_robot" true;
   startProcess "run_robot" true].

(** *** Reading *)

(** Output that is ASCII only. *)
Definition ascii_only (data : list byte) : Prop :=
  Forall (λ b, (Byte.to_N b <= 127)%N) data.

(** [k] calls of [get_stdout] in a row on the same file object, with the
    texts they returned, in the order of the calls. *)
Fixpoint read_times (k : nat) (stdout : nat) : M (list string) :=
  match k with
  | 0 => mret []
  | S k' =>
      text ← get_stdout stdout;
      rest ← read_times k' stdout;
      mret (text :: rest)
  end.

(** The texts of several reads, put together. *)
Definition joined (texts : list string) : string :=
  foldr String.append EmptyString texts.

(** [get_sensor_stdout] or [get_dynaxmiel_stdout], by key. *)
Definition getter (k : session_key) : M string :=
  match k with
  | key_sensor => get_sensor_stdout
  | key_dynamixel => get_dynaxmiel_stdout
  end.

End Life.

(* ===================================================================== *)
(** ** A concrete host                                                    *)
(* ===================================================================== *)

Module Demo.
Import Py Host Ctl.

Definition settings : dict string :=
  [("robot_ip_addr", "192.168.0.10"); ("username", "pi");
   ("password", "raspberry"); ("host_ip_addr", "192.168.0.2")].

(** A host that accepts the connection, holds the configuration files
    locally, and whose supervisor answers [statename] and acknowledges
    start and stop requests as [ack] says. *)
Definition host (statename : string) (ack : RpcCall → bool) : World :=
  mkWorld
    {[ "ros_settings.yaml" := YamlMap settings;
       "all_sensor.yaml" := OtherFile;
       "config.yaml" := OtherFile;
       "controller_config.yaml" := OtherFile;
       "extra/first.txt" := OtherFile;
       "extra/third.txt" := OtherFile ]}
    ∅ (λ _ _ _, true) false ∅ 0 [] "20240101120000" 0 []
    (λ _, Some statename) (λ _ c, ack c) 0.

Definition ack_all (c : RpcCall) : bool := true.

(** The supervisor refuses to stop the service. *)
Definition ack_no_stop (c : RpcCall) : bool :=
  match c with stopProcess _ _ => false | _ => true end.

(** A host that refuses the SSH connection. *)
Definition unreachable_host : World :=
  mkWorld {[ "ros_settings.yaml" := YamlMap settings ]}
    ∅ (λ _ _ _, false) false ∅ 0 [] "20240101120000" 0 []
    (λ _, Some "STOPPED") (λ _ _, true) 0.

(** 2047 letters and then an e with acute accent (two bytes): well-formed
    UTF-8, one byte longer than what one [recv(2048)] takes. *)
Definition accented_output : list byte :=
  replicate 2047 "a"%byte ++ [xc3; xa9].

(** The remote side delivers [data] on channel [n]. *)
Definition deliver (n : nat) (data : list byte) (w : World) : World :=
  set_channels
    (<[n := set_ch_selectable true (set_ch_in_buffer data (chan w n))]> (channels w)) w.

(** A controller right after construction on the first host. *)
Definition fresh_controller : State :=
  (construct "robot1" "ros_settings.yaml" (host "RUNNING" ack_all)).2.

(** The remote side closes channel [n]. *)
Definition remote_close (n : nat) (w : World) : World :=
  set_channels (<[n := set_ch_closed true (chan w n)]> (channels w)) w.

(** The command of channel [n] prints [data] and exits. *)
Definition finish (n : nat) (data : list byte) (w : World) : World :=
  let c := chan w n in
  set_channels
    (<[n := mkChannel (ch_command c) (ch_pty c) (ch_closed c) (ch_stdin_closed c)
              (ch_sent c) true data true]> (channels w)) w.

(** A host whose supervisor does not answer the query for the state. *)
Definition silent_supervisor : World :=
  mkWorld {[ "ros_settings.yaml" := YamlMap settings ]}
    ∅ (λ _ _ _, true) false ∅ 0 [] "20240101120000" 0 []
    (λ _, None) (λ _ _, true) 0.

End Demo.

(* ===================================================================== *)
(** ** Properties                                                         *)
(* ===================================================================== *)

Module Props.
Import Py Host Ctl Life.

(** *** Dictionaries *)
Section DictFacts.
Context {V : Type}.
Implicit Types (d : dict V) (k : string) (v : V).

Lemma dict_get_split k d v :
  dict_get k d = Some v →
  ∃ d1 d2, d = d1 ++ ((k, v) :: d2) ∧ k ∉ dict_keys d1.
Proof.
  induction d as [|[k' v'] d IH]; cbn; [done|].
  destruct (String.eqb_spec k k') as [->|Hne].
  - intros [= Hv]. subst v'. exists [], d. split; [done|]. cbn. apply not_elem_of_nil.
  - intros (d1 & d2 & -> & Hk)%IH. exists ((k', v') :: d1), d2.
    split; [done|]. cbn. apply not_elem_of_cons. done.
Qed.


Lemma dict_get_app_notin k d1 d2 :
  k ∉ dict_keys d1 → dict_get k (d1 ++ d2) = dict_get k d2.
Proof.
  induction d1 as [|[k' v'] d1 IH]; cbn; [done|].
  rewrite not_elem_of_cons. intros [Hne Hk].
  destruct (String.eqb_spec k k'); [done | by apply IH].
Qed.

Lemma dict_get_here k v d : dict_get k ((k, v) :: d) = Some v.
Proof. cbn. by rewrite String.eqb_refl. Qed.

Lemma dict_set_cases k v d :
  (∃ d1 v0 d2, d = d1 ++ ((k, v0) :: d2) ∧ (k ∉ dict_keys d1)
               ∧ dict_set k v d = d1 ++ ((k, v) :: d2))
  ∨ ((k ∉ dict_keys d) ∧ dict_set k v d = d ++ [(k, v)]).
Proof.
  induction d as [|[k' v'] d IH]; cbn.
  - right. split; [apply not_elem_of_nil | done].
  - destruct (String.eqb_spec k k') as [->|Hne].
    + left. exists [], v', d. cbn. split_and!; [done| apply not_elem_of_nil |done].
    + destruct IH as [(d1 & v0 & d2 & -> & Hk & ->)|[Hk ->]].
      * left. exists ((k', v') :: d1), v0, d2. cbn.
        split_and!; [done| by apply not_elem_of_cons |done].
      * right. split; [by apply not_elem_of_cons | done].
Qed.

Lemma dict_pop_cases k d :
  (∃ d1 v0 d2, d = d1 ++ ((k, v0) :: d2) ∧ (k ∉ dict_keys d1)
               ∧ dict_pop k d = d1 ++ d2)
  ∨ ((k ∉ dict_keys d) ∧ dict_pop k d = d).
Proof.
  induction d as [|[k' v'] d IH]; cbn.
  - right. split; [apply not_elem_of_nil | done].
  - destruct (String.eqb_spec k k') as [->|Hne].
    + left. exists [], v', d. cbn. split_and!; [done| apply not_elem_of_nil |done].
    + destruct IH as [(d1 & v0 & d2 & -> & Hk & ->)|[Hk ->]].
      * left. exists ((k', v') :: d1), v0, d2. cbn.
        split_and!; [done| by apply not_elem_of_cons |done].
      * right. split; [by apply not_elem_of_cons | done].
Qed.

Lemma dict_pop_split k d1 v d2 :
  k ∉ dict_keys d1 → dict_pop k (d1 ++ (k, v) :: d2) = d1 ++ d2.
Proof.
  induction d1 as [|[k' v'] d1 IH]; cbn.
  - by rewrite String.eqb_refl.
  - rewrite not_elem_of_cons. intros [Hne Hk].
    destruct (String.eqb_spec k k'); [done|]. by rewrite IH.
Qed.


Lemma dict_get_set_eq k v d : dict_get k (dict_set k v d) = Some v.
Proof.
  destruct (dict_set_cases k v d) as [(d1 & v0 & d2 & _ & Hk & ->)|[Hk ->]];
    rewrite dict_get_app_notin by done; apply dict_get_here.
Qed.

Lemma dict_get_set_ne k k' v d :
  k ≠ k' → dict_get k' (dict_set k v d) = dict_get k' d.
Proof.
  intros Hne. induction d as [|[k0 v0] d IH]; cbn.
  - destruct (String.eqb_spec k' k); naive_solver.
  - destruct (String.eqb_spec k k0) as [->|Hk]; cbn.
    + destruct (String.eqb_spec k' k0); naive_solver.
    + destruct (String.eqb_spec k' k0); naive_solver.
Qed.


Lemma dict_keys_app d1 d2 : dict_keys (d1 ++ d2) = dict_keys d1 ++ dict_keys d2.
Proof. unfold dict_keys. apply fmap_app. Qed.

(** Assignment keeps the keys distinct: [d[k] = v] never makes a second
    entry for [k]. *)
Lemma dict_set_NoDup k v d :
  NoDup (dict_keys d) → NoDup (dict_keys (dict_set k v d)).
Proof.
  destruct (dict_set_cases k v d) as [(d1 & v0 & d2 & -> & Hk & ->)|[Hk ->]].
  - by rewrite !dict_keys_app.
  - rewrite dict_keys_app. intros Hd. apply NoDup_app. split_and!; [done| |].
    + cbn. intros x Hx ->%list_elem_of_singleton. done.
    + cbn. apply NoDup_singleton.
Qed.

Lemma dict_pop_NoDup k d :
  NoDup (dict_keys d) → NoDup (dict_keys (dict_pop k d)).
Proof.
  destruct (dict_pop_cases k d) as [(d1 & v0 & d2 & -> & Hk & ->)|[Hk ->]]; [|done].
  rewrite !dict_keys_app. cbn. rewrite !NoDup_app, NoDup_cons.
  intros (H1 & H2 & H3 & H4). split_and!; [done| |done].
  intros x Hx Hx2. apply (H2 x Hx). by right.
Qed.


Lemma dict_mem_true k d : dict_mem k d = true ↔ is_Some (dict_get k d).
Proof. unfold dict_mem. destruct (dict_get k d); split; (done || by eexists || by intros []). Qed.

Lemma dict_mem_false k d : dict_mem k d = false ↔ dict_get k d = None.
Proof. unfold dict_mem. by destruct (dict_get k d). Qed.
End DictFacts.

(** *** Running method bodies

    A method body is run from its head: [mred] evaluates one library call
    on a state given by its fields, [minv] walks through the binds of a
    hypothesis [H : body s = (r, s')] and splits on whatever the run waits
    for (an unset attribute, a missing file, the answer of the remote
    side), using the facts at hand where there are some. *)
Ltac destruct_state s :=
  let hn := fresh "hn" in let un := fresh "un" in let pw := fresh "pw" in
  let rn := fresh "rn" in let cl := fresh "cl" in let sc := fresh "sc" in
  let sd := fresh "sd" in let sv := fresh "sv" in let sn := fresh "sn" in
  let w := fresh "w" in
  destruct s as [[hn un pw rn cl sc sd sv sn] w].

Ltac destruct_world w :=
  let fs0 := fresh "fs0" in let env := fresh "env" in let ha := fresh "ha" in
  let tr := fresh "tr" in let ch := fresh "ch" in let nc := fresh "nc" in
  let sl := fresh "sl" in let nw := fresh "nw" in let slp := fresh "slp" in
  let rl := fresh "rl" in let svs := fresh "svs" in let ack := fresh "ack" in
  let px := fresh "px" in
  destruct w as [fs0 env ha tr ch nc sl nw slp rl svs ack px].

Ltac mred t :=
  eval cbv beta iota zeta delta
    [mbind M_bind mret M_ret raise block get_world modify_world modify_self
     getattr getitem fmt when_some load_yaml setting_item setting_has setenv
     sleep strftime_now ssh_connect exec_command ssh_close scp_enter scp_put
     update_chan file_write print file_close channel_closed exit_status_ready
     recv_ready select0 recv decode new_ServerProxy supervisor log_rpc
     rpc_statename rpc_command
     ssh_stds_setitem ssh_stds_getitem ssh_stds_pop ssh_stds_contains
     self world hostname username password robotname client source_command
     ssh_stds sv_server sv_service_name
     fs environ host_accepts transport channels next_chan scp_log now slept
     rpc_log sv_statename sv_ack proxies
     set_hostname set_username set_password set_robotname set_client
     set_source_command set_ssh_stds set_sv_server set_sv_service_name
     set_environ set_transport set_channels set_next_chan set_scp_log
     set_slept set_rpc_log set_proxies
     chan buffered std_in std_out std_err proxy_id proxy_url fst snd negb ETX] in t.

Ltac proj_simpl :=
  cbn [self world hostname username password robotname client source_command
       ssh_stds sv_server sv_service_name
       fs environ host_accepts transport channels next_chan scp_log now slept
       rpc_log sv_statename sv_ack proxies std_in std_out std_err proxy_id
       proxy_url fst snd] in *.

Lemma bind_run {A B} (m : M A) (f : A → M B) (s : State) :
  (m ≫= f) s =
  match m s with
  | (Ret a, s') => f a s'
  | (Raise e, s') => (Raise e, s')
  | (Block, s') => (Block, s')
  end.
Proof. reflexivity. Qed.

Lemma chan_of_insert_eq m n c : chan_of (<[n:=c]> m) n = c.
Proof. unfold chan_of. by rewrite lookup_insert_eq. Qed.

Lemma chan_of_insert_ne m n n' c : n ≠ n' → chan_of (<[n:=c]> m) n' = chan_of m n'.
Proof. intros. unfold chan_of. by rewrite lookup_insert_ne. Qed.

Lemma chan_of_lookup m n c : m !! n = Some c → chan_of m n = c.
Proof. intros H. unfold chan_of. by rewrite H. Qed.

Lemma chan_of_close_all m n c :
  m !! n = Some c → chan_of (set_ch_closed true <$> m) n = set_ch_closed true c.
Proof. intros H. unfold chan_of. by rewrite lookup_fmap, H. Qed.

(** The term the head of a stuck run waits for. *)
Ltac stuck_of t :=
  match t with
  | match ?y with _ => _ end => stuck_of y
  | ?f _ => app_stuck f
  | _ => t
  end
with app_stuck f :=
  match f with
  | match ?y with _ => _ end => stuck_of y
  | ?g _ => app_stuck g
  end.

(** One step at the head of [H : lhs = _]; [allow] may refuse the call
    the head is about to make. *)
Ltac mhead_guarded allow H :=
  lazymatch type of H with
  | ?lhs = _ =>
      lazymatch lhs with
      | @mbind _ _ ?A ?B ?f ?m ?s =>
          allow m;
          let r := mred (m s) in
          rewrite (@bind_run A B m f s) in H;
          change (m s) with r in H;
          cbv beta iota zeta in H
      | match _ with _ => _ end => fail
      | (_, _) => fail
      | _ =>
          let r := mred lhs in
          progress change lhs with r in H
      end
  end.

Ltac any_call m := idtac.

Ltac mhead H := mhead_guarded any_call H.

Ltac mstuck H :=
  lazymatch type of H with
  | ?lhs = _ =>
      let y := stuck_of lhs in
      tryif constr_eq y lhs then fail else
      first
        [ match goal with H' : y = _ |- _ => rewrite H' in H end
        | let y' := eval cbn [ch_command ch_pty ch_closed ch_stdin_closed ch_sent
                              ch_exit_ready ch_in_buffer ch_selectable
                              set_ch_closed set_ch_stdin_closed set_ch_sent
                              set_ch_in_buffer fresh_channel] in y in
          tryif constr_eq y y' then fail else change y with y' in H
        | let T := type of y in
          lazymatch T with
          | bool =>
              let y' := eval cbv in y in
              lazymatch y' with
              | true => change y with true in H
              | false => change y with false in H
              end
          end
        | is_var y; destruct y
        | destruct y eqn:? ];
      cbv beta iota zeta in H
  end.

Ltac minv H :=
  proj_simpl; simplify_eq;
  repeat first
    [ discriminate H
    | progress rewrite ?chan_of_insert_eq in H
    | mhead H
    | mstuck H ];
  simplify_eq.

(** The same, stopping where the body opens its scp session. *)
Ltac before_scp m :=
  lazymatch m with
  | scp_enter => fail
  | _ => idtac
  end.

Ltac minv_to_scp H :=
  proj_simpl; simplify_eq;
  repeat first
    [ discriminate H
    | progress rewrite ?chan_of_insert_eq in H
    | mhead_guarded before_scp H
    | mstuck H ].

(** *** The supervisor handle *)



(** *** Construction *)

Lemma construct_ret rn path w s :
  construct rn path w = (Ret tt, s) →
  ∃ h u p sc env,
    self s = mkController (Some h) (Some u) (Some p) (Some rn) (Some tt) (Some sc)
               (Some []) (Some None) (Some "run_robot")
    ∧ world s = set_transport true (set_environ env w).
Proof.
  unfold construct, __init__. intros H. destruct_world w.
  minv H; by eexists _, _, _, _, _.
Qed.

Lemma construct_constructed rn path w s :
  construct rn path w = (Ret tt, s) → constructed (self s).
Proof.
  intros (h & u & p & sc & env & -> & _)%construct_ret.
  by eexists _, _, _, _, _, _, _.
Qed.

(** For a controller given in full: read the attributes off the object. *)
Ltac constructed_by_computation :=
  lazymatch goal with
  | |- constructed ?o =>
      let o' := eval vm_compute in o in
      lazymatch o' with
      | mkController (Some ?h) (Some ?u) (Some ?p) (Some ?rn) (Some tt) (Some ?sc)
          (Some ?d) (Some ?sv) _ =>
          exists h, u, p, rn, sc, d, sv; vm_compute; reflexivity
      end
  end.

Lemma demo_constructed statename ack :
  constructed (self (construct "robot1" "ros_settings.yaml"
                       (Demo.host statename ack)).2).
Proof. do 7 eexists. reflexivity. Qed.

(** *** The registry invariant *)

Lemma registry_ok_nil m nc : registry_ok m nc [].
Proof. split_and!; constructor. Qed.

(** The worlds that keep every registered session as it is. *)
Lemma registry_ok_mono m nc m' nc' d :
  registry_ok m nc d →
  nc ≤ nc' →
  (∀ n c, m !! n = Some c → ch_stdin_closed c = false →
          ∃ c', m' !! n = Some c' ∧ ch_stdin_closed c' = false) →
  registry_ok m' nc' d.
Proof.
  intros (H1 & H2 & H3) Hnc Hm. split_and!; [done..|].
  eapply Forall_impl; [exact H3|]. intros [k stds] [Hlt (c & Hc & Hcl)]; cbn in *.
  split; [lia|]. by apply (Hm _ c).
Qed.

(** A new session on a channel just opened. *)
Lemma registry_ok_set m nc d k cmd pty :
  registry_ok m nc d →
  registry_ok (<[nc := fresh_channel cmd pty]> m) (S nc) (dict_set k (mkStds nc nc nc) d).
Proof.
  intros (H1 & H2 & H3).
  assert (Hfresh : nc ∉ std_in <$> d.*2).
  { intros (stds & Heq & ([k' stds'] & -> & Hin)%list_elem_of_fmap)%list_elem_of_fmap.
    rewrite Forall_forall in H3. destruct (H3 _ Hin) as [Hlt _]. cbn in *. lia. }
  assert (Hold : Forall (λ kv : string * Stds,
            session_ok (<[nc := fresh_channel cmd pty]> m) (S nc) kv.2) d).
  { eapply Forall_impl; [exact H3|]. intros [k' stds] [Hlt (c & Hc & Hcl)]; cbn in *.
    split; [lia|]. exists c. rewrite lookup_insert_ne by lia. done. }
  assert (Hnew : session_ok (<[nc := fresh_channel cmd pty]> m) (S nc) (mkStds nc nc nc)).
  { split; cbn; [lia|]. eexists. by rewrite lookup_insert_eq. }
  split_and!; [by apply dict_set_NoDup| |].
  - destruct (dict_set_cases k (mkStds nc nc nc) d)
      as [(d1 & v0 & d2 & -> & Hk & ->)|[Hk ->]].
    + revert H2 Hfresh. rewrite !fmap_app, !fmap_cons, !NoDup_app, !NoDup_cons. cbn.
      rewrite !not_elem_of_app, !not_elem_of_cons.
      intros (Ha & Hb & Hc & Hd) (He & Hf & Hg). split_and!; [done| |done..].
      intros x Hx [->|Hx2]%elem_of_cons; [done|]. apply (Hb x Hx). by right.
    + rewrite !fmap_app, NoDup_app. cbn. split_and!; [done| |apply NoDup_singleton].
      intros x Hx ->%list_elem_of_singleton. done.
  - destruct (dict_set_cases k (mkStds nc nc nc) d)
      as [(d1 & v0 & d2 & -> & Hk & ->)|[Hk ->]].
    + revert Hold. rewrite !Forall_app, !Forall_cons. intros (? & ? & ?). done.
    + rewrite Forall_app, Forall_singleton. done.
Qed.

(** Closing the stdin of a session and taking it out of the registry. *)
Lemma registry_ok_pop m nc d k stds c' :
  registry_ok m nc d →
  dict_get k d = Some stds →
  registry_ok (<[std_in stds := c']> m) nc (dict_pop k d).
Proof.
  intros (H1 & H2 & H3) Hget.
  destruct (dict_get_split _ _ _ Hget) as (d1 & d2 & -> & Hk).
  split_and!; [by apply dict_pop_NoDup| |]; rewrite dict_pop_split by done.
  - revert H2. rewrite !fmap_app, !fmap_cons, !NoDup_app, !NoDup_cons.
    intros (Ha & Hb & Hc & Hd). split_and!; [done| |done].
    intros x Hx Hx2. apply (Hb x Hx). by right.
  - revert H2 H3. rewrite !fmap_app, !fmap_cons, !NoDup_app, !NoDup_cons.
    rewrite !Forall_app, !Forall_cons. cbn.
    intros (Ha & Hb & Hc & Hd) (He & Hf & Hg).
    assert (Hkeep : ∀ l : dict Stds,
               (std_in stds ∉ std_in <$> l.*2) →
               Forall (λ kv : string * Stds, session_ok m nc kv.2) l →
               Forall (λ kv : string * Stds,
                         session_ok (<[std_in stds := c']> m) nc kv.2) l).
    { intros l Hl Hall. apply Forall_forall. intros kv Hin.
      rewrite Forall_forall in Hall. destruct (Hall _ Hin) as [Hlt (c & Hc' & Hcl)].
      split; [done|]. exists c. rewrite lookup_insert_ne; [done|].
      intros Heq. apply Hl. rewrite Heq.
      apply list_elem_of_fmap. exists kv.2. split; [done|].
      apply list_elem_of_fmap. by exists kv. }
    split; apply Hkeep; [|done|done..].
    intros Hin. apply (Hb _ Hin). by left.
Qed.

Lemma state_ok_fields o w :
  state_ok (mkState o w) ↔ fields_ok (ssh_stds o) (channels w) (next_chan w).
Proof. done. Qed.

Lemma fields_ok_unset m nc : fields_ok None m nc.
Proof. by intros d. Qed.

Lemma fields_ok_set d m nc k cmd pty :
  fields_ok (Some d) m nc →
  fields_ok (Some (dict_set k (mkStds nc nc nc) d))
    (<[nc := fresh_channel cmd pty]> m) (S nc).
Proof. intros H d' [= <-]. by apply registry_ok_set, H. Qed.

Lemma fields_ok_exec sd m nc cmd pty :
  fields_ok sd m nc → fields_ok sd (<[nc := fresh_channel cmd pty]> m) (S nc).
Proof.
  intros H d ->. eapply registry_ok_mono; [by apply H|lia|].
  intros n c Hc Hcl. destruct (decide (nc = n)) as [->|Hne].
  - eexists. by rewrite lookup_insert_eq.
  - exists c. by rewrite lookup_insert_ne.
Qed.

(** Updating a channel without touching the closed flag of its stdin. *)
Lemma fields_ok_update sd m nc n (f : Channel → Channel) :
  (∀ c, ch_stdin_closed (f c) = ch_stdin_closed c) →
  fields_ok sd m nc → fields_ok sd (<[n := f (chan_of m n)]> m) nc.
Proof.
  intros Hf H d ->. eapply registry_ok_mono; [by apply H|lia|].
  intros n' c Hc Hcl. destruct (decide (n = n')) as [->|Hne].
  - eexists. rewrite lookup_insert_eq. split; [done|].
    by rewrite Hf, (chan_of_lookup _ _ _ Hc).
  - exists c. by rewrite lookup_insert_ne.
Qed.

Lemma fields_ok_pop d m nc k stds n c1 c2 :
  fields_ok (Some d) m nc →
  dict_get k d = Some stds →
  std_in stds = n →
  fields_ok (Some (dict_pop k d)) (<[n := c2]> (<[n := c1]> m)) nc.
Proof.
  intros H Hget <- d' [= <-]. rewrite insert_insert_eq.
  by apply registry_ok_pop; [apply H|].
Qed.

(** The copy loop of [send_settings] only extends the scp log. *)
Lemma send_files_frame dist l s r s' :
  for_each l (send_file dist) s = (r, s') →
  ∃ log, s' = mkState (self s) (set_scp_log log (world s)).
Proof.
  revert s. induction l as [|f l IH]; intros s H.
  - destruct_state s. destruct_world w. cbn in H. minv H. by eexists.
  - cbn [for_each] in H. rewrite bind_run in H.
    destruct (send_file dist f s) as [r1 s1] eqn:H1.
    assert (∃ log, s1 = mkState (self s) (set_scp_log log (world s))) as [log1 ->].
    { unfold send_file in H1. destruct_state s. destruct_world w.
      minv H1; by eexists. }
    destruct r1; simplify_eq; [|by eexists..].
    apply IH in H as [log ->]. by eexists.
Qed.

(** What [send_settings] can leave behind: nothing (it raised before the
    remote command was started), the started command alone (there is no
    registry to store it in), or the started command in the registry, two
    seconds of sleep, and some files copied. *)
Lemma send_settings_shape a b c p1 p2 p3 fl s r s' :
  send_settings a b c p1 p2 p3 fl s = (r, s') →
  let n := next_chan (world s) in
  (s' = s ∧ ∃ e, r = Raise e)
  ∨ ∃ cmd,
      let w1 := set_next_chan (S n)
                  (set_channels (<[n := fresh_channel cmd true]> (channels (world s)))
                     (world s)) in
      (s' = mkState (self s) w1 ∧ ssh_stds (self s) = None ∧ ∃ e, r = Raise e)
      ∨ ∃ d log,
          ssh_stds (self s) = Some d
          ∧ s' = mkState
                   (set_ssh_stds (Some (dict_set "operation" (mkStds n n n) d)) (self s))
                   (set_scp_log log (set_slept (slept (world s) + 2) w1)).
Proof.
  intros H. destruct_state s. destruct_world w. unfold send_settings in H.
  cbn zeta.
  minv H;
    try match goal with
        | H : for_each _ _ _ = _ |- _ => apply send_files_frame in H as [log ->]
        end;
    first
      [ left; split; [reflexivity | by eexists]
      | right; eexists; left; split_and!; [reflexivity | reflexivity | by eexists]
      | right; eexists; right; eexists _, _; split; reflexivity ].
Qed.

Ltac solve_ok :=
  cbn [fst snd] in *; rewrite ?state_ok_fields in *; proj_simpl;
  first
    [ assumption
    | apply fields_ok_unset
    | by apply fields_ok_set
    | by apply fields_ok_exec
    | eapply fields_ok_pop; [eassumption | eassumption | reflexivity]
    | by apply (fields_ok_update _ _ _ _ (set_ch_in_buffer _))
    | by apply (fields_ok_update _ _ _ _ (λ c, set_ch_sent _ c)) ].

Lemma start_robot_ok s : state_ok s → state_ok (start_robot s).2.
Proof.
  intros Hok. destruct (start_robot s) as [r s'] eqn:H.
  destruct_state s. destruct_world w. unfold start_robot in H.
  minv H; solve_ok.
Qed.

Lemma stop_robot_ok s : state_ok s → state_ok (stop_robot s).2.
Proof.
  intros Hok. destruct (stop_robot s) as [r s'] eqn:H.
  destruct_state s. destruct_world w. unfold stop_robot in H.
  minv H; solve_ok.
Qed.

Lemma connect_sensor_ok p s : state_ok s → state_ok (connect_sensor p s).2.
Proof.
  intros Hok. destruct (connect_sensor p s) as [r s'] eqn:H.
  destruct_state s. destruct_world w. unfold connect_sensor in H.
  minv H; solve_ok.
Qed.

Lemma connect_dynamixel_ok p1 p2 s : state_ok s → state_ok (connect_dynamixel p1 p2 s).2.
Proof.
  intros Hok. destruct (connect_dynamixel p1 p2 s) as [r s'] eqn:H.
  destruct_state s. destruct_world w. unfold connect_dynamixel in H.
  minv H; solve_ok.
Qed.

Lemma disconnect_sensor_ok s : state_ok s → state_ok (disconnect_sensor s).2.
Proof.
  intros Hok. destruct (disconnect_sensor s) as [r s'] eqn:H.
  destruct_state s. destruct_world w. unfold disconnect_sensor in H.
  minv H; solve_ok.
Qed.

Lemma discnnet_dynamixel_ok s : state_ok s → state_ok (discnnet_dynamixel s).2.
Proof.
  intros Hok. destruct (discnnet_dynamixel s) as [r s'] eqn:H.
  destruct_state s. destruct_world w. unfold discnnet_dynamixel in H.
  minv H; solve_ok.
Qed.

Lemma get_stdout_ok n s : state_ok s → state_ok (get_stdout n s).2.
Proof.
  intros Hok. destruct (get_stdout n s) as [r s'] eqn:H.
  destruct_state s. destruct_world w. unfold get_stdout in H.
  minv H; solve_ok.
Qed.

Lemma get_sensor_stdout_ok s : state_ok s → state_ok (get_sensor_stdout s).2.
Proof.
  intros Hok. unfold get_sensor_stdout. rewrite bind_run.
  destruct (ssh_stds_getitem "sensor" s) as [r s'] eqn:H.
  assert (s' = s) as ->.
  { destruct_state s. destruct_world w. by minv H. }
  destruct r; [by apply get_stdout_ok|done..].
Qed.

Lemma get_dynaxmiel_stdout_ok s : state_ok s → state_ok (get_dynaxmiel_stdout s).2.
Proof.
  intros Hok. unfold get_dynaxmiel_stdout. rewrite bind_run.
  destruct (ssh_stds_getitem "dynamixel" s) as [r s'] eqn:H.
  assert (s' = s) as ->.
  { destruct_state s. destruct_world w. by minv H. }
  destruct r; [by apply get_stdout_ok|done..].
Qed.

Lemma send_settings_ok a b c p1 p2 p3 fl s :
  state_ok s → state_ok (send_settings a b c p1 p2 p3 fl s).2.
Proof.
  intros Hok. destruct (send_settings a b c p1 p2 p3 fl s) as [r s'] eqn:H.
  apply send_settings_shape in H. cbn zeta in H.
  destruct_state s. destruct_world w.
  destruct H as [[-> _]|(cmd & [(-> & Hd & _)|(d & log & Hd & ->)])];
    proj_simpl; simplify_eq; solve_ok.
Qed.

Lemma perform_ok c s : state_ok s → state_ok (perform c s).
Proof.
  destruct c; cbn [perform];
    eauto using send_settings_ok, start_robot_ok, stop_robot_ok, connect_sensor_ok,
      disconnect_sensor_ok, connect_dynamixel_ok, discnnet_dynamixel_ok,
      get_sensor_stdout_ok, get_dynaxmiel_stdout_ok.
Qed.

Lemma construct_ok rn path w : state_ok (construct rn path w).2.
Proof.
  destruct (construct rn path w) as [r s'] eqn:H.
  unfold construct, __init__, blank in H. destruct_world w.
  minv H; cbn [snd]; rewrite state_ok_fields; proj_simpl;
    first [apply fields_ok_unset | intros ? [= <-]; apply registry_ok_nil].
Qed.

Lemma env_step_ok o w w' :
  state_ok (mkState o w) → env_step w w' → state_ok (mkState o w').
Proof.
  rewrite !state_ok_fields. intros Hok [Hnc Hch _ _ _ _] d Hd.
  eapply registry_ok_mono; [by apply Hok|lia|].
  intros n c Hc Hcl. destruct (Hch _ _ Hc) as (c' & Hc' & _ & _ & Hcl' & _).
  exists c'. split; [done|congruence].
Qed.

(** Every state a controller gets into keeps the registry well formed. *)
Lemma reachable_ok s : reachable s → state_ok s.
Proof.
  induction 1 as [rn path w|c s _ IH|s w' _ IH Henv].
  - apply construct_ok.
  - by apply perform_ok.
  - destruct s as [o w]. by eapply env_step_ok.
Qed.

(** *** Launching sessions *)

(** A launch that returns has opened the next channel of the transport
    and stored its file objects under the launcher's key; nothing else
    happened to the channels. *)
Lemma launch_ret l s s1 :
  launch l s = (Ret tt, s1) →
  ∃ d cmd,
    let n := next_chan (world s) in
    ssh_stds (self s) = Some d
    ∧ ssh_stds (self s1) = Some (dict_set (launch_key l) (mkStds n n n) d)
    ∧ channels (world s1) = <[n := fresh_channel cmd true]> (channels (world s))
    ∧ next_chan (world s1) = S n.
Proof.
  intros H. destruct_state s. destruct_world w.
  destruct l; cbn [launch launch_key] in *.
  - unfold connect_sensor in H. minv H. by eexists _, _.
  - unfold connect_dynamixel in H. minv H. by eexists _, _.
  - apply send_settings_shape in H. cbn zeta in H.
    destruct H as [[_ [e [=]]]|(cmd & [(_ & _ & [e [=]])|(d & log & Hd & ->)])].
    proj_simpl. simplify_eq. by eexists _, _.
Qed.

(** *** Disconnecting *)

Lemma connect_launch k c1 c2 :
  connect k c1 c2 = launch (connect_launcher k c1 c2)
  ∧ key_name k = launch_key (connect_launcher k c1 c2).
Proof. by destruct k. Qed.

(** Disconnecting a key that is not in the registry does nothing at all. *)
Lemma disconnect_absent k s d :
  ssh_stds (self s) = Some d →
  dict_get (key_name k) d = None →
  disconnect k s = (Ret tt, s).
Proof.
  intros Hd Hk. destruct (disconnect k s) as [r s'] eqn:H.
  apply dict_mem_false in Hk.
  destruct_state s. destruct_world w.
  destruct k; cbn [disconnect key_name] in *;
    [unfold disconnect_sensor in H | unfold discnnet_dynamixel in H]; by minv H.
Qed.

(** Disconnecting a registered session whose channel is open: ETX goes
    into its stdin, the stdin file object is closed, the key is removed. *)
Lemma disconnect_active k s d stds c :
  ssh_stds (self s) = Some d →
  dict_get (key_name k) d = Some stds →
  channels (world s) !! std_in stds = Some c →
  ch_stdin_closed c = false →
  ch_closed c = false →
  disconnect k s =
  (Ret tt,
   mkState (set_ssh_stds (Some (dict_pop (key_name k) d)) (self s))
     (set_channels
        (<[std_in stds := set_ch_stdin_closed true (set_ch_sent (ch_sent c +:+ ETX) c)]>
           (channels (world s)))
        (world s))).
Proof.
  intros Hd Hk Hc Hcl1 Hcl2. destruct (disconnect k s) as [r s'] eqn:H.
  assert (Hmem : dict_mem (key_name k) d = true) by (apply dict_mem_true; eauto).
  apply chan_of_lookup in Hc.
  destruct_state s. destruct_world w. destruct stds as [n n1 n2].
  destruct k; cbn [disconnect key_name] in *;
    [unfold disconnect_sensor in H | unfold discnnet_dynamixel in H];
    minv H; by rewrite insert_insert_eq.
Qed.





(** C10. The two stdout getters look the session up with a plain
    subscript: when the key is not in the registry (before a connect, after
    a disconnect) they raise [KeyError] and change nothing; they do not
    return the empty string.  When the key is registered they are
    [get_stdout] on the stdout of that session. *)
Theorem stdout_getters_absent_key (s : State) (d : dict Stds) :
  ssh_stds (self s) = Some d →
  (dict_get "sensor" d = None →
     get_sensor_stdout s = (Raise (KeyError "sensor"), s))
  ∧ (dict_get "dynamixel" d = None →
     get_dynaxmiel_stdout s = (Raise (KeyError "dynamixel"), s))
  ∧ (∀ stds, dict_get "sensor" d = Some stds →
     get_sensor_stdout s = get_stdout (std_out stds) s)
  ∧ (∀ stds, dict_get "dynamixel" d = Some stds →
     get_dynaxmiel_stdout s = get_stdout (std_out stds) s).
Proof.
  intros Hd. destruct_state s. cbn in Hd. subst.
  unfold get_sensor_stdout, get_dynaxmiel_stdout.
  split_and!; [intros Hk | intros Hk | intros stds Hk | intros stds Hk];
    rewrite bind_run;
    match goal with
    | |- context [ssh_stds_getitem ?k ?st] =>
        let r := mred (ssh_stds_getitem k st) in change (ssh_stds_getitem k st) with r
    end;
    by rewrite Hk.
Qed.

Lemma stdout_getters_absent_key_witness :
  let s := Demo.fresh_controller in
  get_sensor_stdout s = (Raise (KeyError "sensor"), s)
  ∧ get_dynaxmiel_stdout s = (Raise (KeyError "dynamixel"), s).
Proof.
  pose proof (stdout_getters_absent_key Demo.fresh_controller [] eq_refl)
    as (H1 & H2 & _).
  split; [apply H1 | apply H2]; reflexivity.
Defined.

(** *** Reading output *)

Lemma deliver_env_step n data w : env_step w (Demo.deliver n data w).
Proof.
  split; try done. intros m c Hc. cbn.
  destruct (decide (n = m)) as [->|Hne].
  - rewrite lookup_insert_eq. eexists. split; [done|].
    unfold chan. by rewrite (chan_of_lookup _ _ _ Hc).
  - rewrite lookup_insert_ne by done. by exists c.
Qed.

(** C2, as the code has it.  [get_stdout] never waits.  When the command
    has not exited, output is buffered and [select] reports the channel,
    it takes the first 2048 bytes of the buffer (all of it when there is
    less) and decodes them as UTF-8: the text is returned when those bytes
    are well-formed UTF-8, and [UnicodeDecodeError] is raised when they are
    not.  In every other case it returns the empty string and changes
    nothing. *)
Theorem get_stdout_chunk (stdout : nat) (s : State) :
  let c := chan (world s) stdout in
  (ch_exit_ready c = false → buffered c = true → ch_selectable c = true →
     let chunk := take 2048 (ch_in_buffer c) in
     length chunk ≤ 2048
     ∧ get_stdout stdout s =
       (match decode_utf8 chunk with
        | Some text => Ret text
        | None => Raise UnicodeDecodeError
        end,
        mkState (self s)
          (set_channels
             (<[stdout := set_ch_in_buffer (drop 2048 (ch_in_buffer c)) c]>
                (channels (world s)))
             (world s))))
  ∧ (ch_exit_ready c = true ∨ buffered c = false ∨ ch_selectable c = false →
     get_stdout stdout s = (Ret EmptyString, s))
  ∧ (get_stdout stdout s).1 ≠ Block.
Proof.
  destruct (get_stdout stdout s) as [r s'] eqn:H.
  destruct_state s. destruct_world w. unfold get_stdout in H. cbn zeta.
  unfold chan, buffered; proj_simpl.
  destruct (ch_exit_ready (chan_of ch stdout)) eqn:Hexit;
    destruct (ch_in_buffer (chan_of ch stdout)) as [|b buf] eqn:Hbuf;
    destruct (ch_selectable (chan_of ch stdout)) eqn:Hsel;
    minv H;
    repeat match goal with
           | H1 : decode_utf8 ?x = _ |- context [decode_utf8 ?x] => rewrite H1
           end;
    (split; [|split];
     [ intros ? Hb ?; cbn [negb] in Hb;
       first [congruence | split; [rewrite length_take; lia | done]]
     | intros [Hc|[Hc|Hc]]; cbn [negb] in Hc; congruence
     | cbn; congruence ]).
Qed.

Lemma get_stdout_chunk_witness :
  let s := (connect_sensor "all_sensor.yaml" Demo.fresh_controller).2 in
  let s' := mkState (self s) (Demo.deliver 0 [x6f; x6b; x0a] (world s)) in
  (length (take 2048 [x6f; x6b; x0a]) ≤ 2048
   ∧ (get_stdout 0 s').1 = Ret (String "o" (String "k" (String "010" EmptyString))))
  ∧ get_stdout 0 s = (Ret EmptyString, s).
Proof.
  split.
  - destruct (proj1 (get_stdout_chunk 0
        (mkState (self (connect_sensor "all_sensor.yaml" Demo.fresh_controller).2)
           (Demo.deliver 0 [x6f; x6b; x0a]
              (world (connect_sensor "all_sensor.yaml" Demo.fresh_controller).2)))))
      as [Hlen Hrun]; [reflexivity..|].
    split; [exact Hlen|]. rewrite Hrun. reflexivity.
  - apply (proj1 (proj2 (get_stdout_chunk 0
        (connect_sensor "all_sensor.yaml" Demo.fresh_controller).2))).
    right. left. reflexivity.
Defined.

(** C2 as stated fails: the sensor session has printed 2047 letters and one
    accented letter, which is well-formed UTF-8; the read takes 2048 bytes,
    cutting the accented letter in two, and raises [UnicodeDecodeError]
    instead of returning a string. *)
Lemma get_stdout_split_character_raises :
  let s := (connect_sensor "all_sensor.yaml" Demo.fresh_controller).2 in
  let s' := mkState (self s) (Demo.deliver 0 Demo.accented_output (world s)) in
  reachable s'
  ∧ is_Some (decode_utf8 Demo.accented_output)
  ∧ (get_sensor_stdout s').1 = Raise UnicodeDecodeError.
Proof.
  split_and!.
  - apply reach_env; [|apply deliver_env_step].
    apply (reach_call (call_connect_sensor "all_sensor.yaml")), reach_construct.
  - vm_compute. by eexists.
  - vm_compute. reflexivity.
Qed.

(** *** The supervisor *)

(** The calls [start_robot] issues, given what the supervisor answers. *)
Lemma start_robot_run (s : State) (statename : string) :
  constructed (self s) →
  sv_statename (world s) (rpc_log (world s)) = Some statename →
  let id := proxies (world s) in
  let log := rpc_log (world s) in
  let query := (id, getProcessInfo "run_robot") in
  let stop := (id, stopProcess "run_robot" true) in
  let start := (id, startProcess "run_robot" true) in
  let r := (start_robot s).1 in
  let log' := rpc_log (world (start_robot s).2) in
  if String.eqb statename "RUNNING" then
    if sv_ack (world s) (log ++ [query]) (stopProcess "run_robot" true)
    then log' = log ++ [query; stop; start]
         ∧ r = (if sv_ack (world s) (log ++ [query; stop]) (startProcess "run_robot" true)
                then Ret tt else Raise Fault)
    else log' = log ++ [query; stop] ∧ r = Raise Fault
  else log' = log ++ [query; start]
       ∧ r = (if sv_ack (world s) (log ++ [query]) (startProcess "run_robot" true)
              then Ret tt else Raise Fault).
Proof.
  intros (h & u & p & rn & sc & d & sv & Hself) Hst.
  destruct (start_robot s) as [r s'] eqn:H.
  destruct s as [o w]. cbn in Hself. subst o. destruct_world w.
  cbn zeta. proj_simpl.
  destruct (String.eqb statename "RUNNING") eqn:Hrun.
  - destruct (ack (rl ++ [(px, getProcessInfo "run_robot")])
                (stopProcess "run_robot" true)) eqn:Hstop.
    + destruct (ack (rl ++ [(px, getProcessInfo "run_robot");
                            (px, stopProcess "run_robot" true)])
                  (startProcess "run_robot" true)) eqn:Hstart;
        unfold start_robot in H; minv H;
        proj_simpl; rewrite <- ?app_assoc in *; cbn [app] in *; split; congruence.
    + unfold start_robot in H; minv H;
        proj_simpl; rewrite <- ?app_assoc in *; cbn [app] in *; split; congruence.
  - destruct (ack (rl ++ [(px, getProcessInfo "run_robot")])
                (startProcess "run_robot" true)) eqn:Hstart;
      unfold start_robot in H; minv H;
      proj_simpl; rewrite <- ?app_assoc in *; cbn [app] in *; split; congruence.
Qed.

(** C3, as the code has it.  [start_robot] first asks for the state of
    "run_robot".  When the answer is RUNNING it issues one [stopProcess]
    and, once that call has returned, one [startProcess] after it; when
    the [stopProcess] faults, the fault goes to the caller and no
    [startProcess] is issued.  When the answer is anything else it issues
    the [startProcess] alone, with no [stopProcess]. *)
Theorem start_robot_stop_then_start (s : State) (statename : string) :
  constructed (self s) →
  sv_statename (world s) (rpc_log (world s)) = Some statename →
  let id := proxies (world s) in
  let log := rpc_log (world s) in
  let query := (id, getProcessInfo "run_robot") in
  let stop := (id, stopProcess "run_robot" true) in
  let start := (id, startProcess "run_robot" true) in
  let log' := rpc_log (world (start_robot s).2) in
  (statename = "RUNNING" →
     sv_ack (world s) (log ++ [query]) (stopProcess "run_robot" true) = true →
     log' = log ++ [query; stop; start])
  ∧ (statename = "RUNNING" →
     sv_ack (world s) (log ++ [query]) (stopProcess "run_robot" true) = false →
     log' = log ++ [query; stop] ∧ (start_robot s).1 = Raise Fault)
  ∧ (statename ≠ "RUNNING" → log' = log ++ [query; start]).
Proof.
  intros Hc Hst. pose proof (start_robot_run s statename Hc Hst) as H.
  cbn zeta in *. split_and!.
  - intros -> Hack. cbn in H. rewrite Hack in H. by destruct H.
  - intros -> Hack. cbn in H. by rewrite Hack in H.
  - intros Hne%String.eqb_neq. rewrite Hne in H. by destruct H.
Qed.

Lemma start_robot_stop_then_start_witness :
  let running := Demo.fresh_controller in
  let stopped :=
    (construct "robot1" "ros_settings.yaml" (Demo.host "STOPPED" Demo.ack_all)).2 in
  rpc_log (world (start_robot running).2)
  = [(0, getProcessInfo "run_robot"); (0, stopProcess "run_robot" true);
     (0, startProcess "run_robot" true)]
  ∧ rpc_log (world (start_robot stopped).2)
    = [(0, getProcessInfo "run_robot"); (0, startProcess "run_robot" true)].
Proof.
  split.
  - apply (proj1 (start_robot_stop_then_start Demo.fresh_controller "RUNNING"
                    (demo_constructed _ _) eq_refl));
      reflexivity.
  - apply (proj2 (proj2 (start_robot_stop_then_start
                    (construct "robot1" "ros_settings.yaml"
                       (Demo.host "STOPPED" Demo.ack_all)).2 "STOPPED"
                    (demo_constructed _ _) eq_refl))).
    discriminate.
Defined.

(** C3 as stated fails: the supervisor reports RUNNING and then refuses the
    stop; [start_robot] has issued the query and one [stopProcess], raises
    the fault, and issues no [startProcess]. *)
Lemma start_robot_stop_fault_no_start :
  let s := (construct "robot1" "ros_settings.yaml"
              (Demo.host "RUNNING" Demo.ack_no_stop)).2 in
  sv_statename (world s) (rpc_log (world s)) = Some "RUNNING"
  ∧ (start_robot s).1 = Raise Fault
  ∧ rpc_log (world (start_robot s).2)
    = [(0, getProcessInfo "run_robot"); (0, stopProcess "run_robot" true)].
Proof. vm_compute. done. Qed.

(** *** The supervisor handle over the life of the controller *)










(** *** Teardown *)

Lemma interrupt_run kv s c :
  channels (world s) !! std_in kv.2 = Some c →
  ch_stdin_closed c = false →
  interrupt kv s =
  (Ret tt,
   mkState (self s)
     (set_channels (<[std_in kv.2 := interrupted c]> (channels (world s))) (world s))).
Proof.
  intros Hc Hcl. destruct (interrupt kv s) as [r s'] eqn:H.
  pose proof (chan_of_lookup _ _ _ Hc) as Hch.
  destruct kv as [k [n n1 n2]]. destruct_state s. destruct_world w.
  unfold interrupt in H. unfold interrupted.
  destruct (ch_closed c) eqn:Hclosed; minv H.
  - by rewrite insert_id.
  - by rewrite insert_insert_eq.
Qed.

Lemma interrupt_all_run d : ∀ s,
  Forall (λ kv : string * Stds,
            ∃ c, channels (world s) !! std_in kv.2 = Some c
                 ∧ ch_stdin_closed c = false) d →
  NoDup (std_in <$> d.*2) →
  ∃ m',
    for_each d interrupt s = (Ret tt, mkState (self s) (set_channels m' (world s)))
    ∧ ∀ n, m' !! n =
           if bool_decide (n ∈ std_in <$> d.*2)
           then interrupted <$> channels (world s) !! n
           else channels (world s) !! n.
Proof.
  induction d as [|kv d IH]; intros s Hall Hnd.
  - exists (channels (world s)). split; [by destruct s as [o []]|].
    intros n. rewrite bool_decide_eq_false_2; [done|]. apply not_elem_of_nil.
  - apply Forall_cons in Hall as [(c & Hc & Hcl) Hall].
    rewrite !fmap_cons in Hnd. apply NoDup_cons in Hnd as [Hnotin Hnd].
    cbn [for_each]. rewrite bind_run, (interrupt_run kv s c Hc Hcl).
    set (s1 := mkState (self s)
                 (set_channels (<[std_in kv.2 := interrupted c]> (channels (world s)))
                    (world s))).
    destruct (IH s1) as (m' & Hrun & Hm'); [|done|].
    { rewrite Forall_forall in Hall. apply Forall_forall. intros kv' Hin.
      destruct (Hall kv' Hin) as (c' & Hc' & Hcl'). exists c'.
      split; [|done]. subst s1. cbn. rewrite lookup_insert_ne; [done|].
      intros Heq. apply Hnotin. rewrite Heq.
      apply list_elem_of_fmap. exists kv'.2. split; [done|].
      apply list_elem_of_fmap. by exists kv'. }
    exists m'. split.
    { rewrite Hrun. subst s1. by destruct s as [o []]. }
    intros n. rewrite Hm'. subst s1. cbn [world channels set_channels].
    rewrite !fmap_cons.
    destruct (decide (n = std_in kv.2)) as [->|Hne].
    + rewrite bool_decide_eq_false_2 by done.
      rewrite bool_decide_eq_true_2 by (by left).
      by rewrite lookup_insert_eq, Hc.
    + rewrite lookup_insert_ne by done.
      destruct (decide (n ∈ std_in <$> d.*2)) as [Hin|Hnin].
      * rewrite !bool_decide_eq_true_2; [done| by right |done].
      * rewrite !bool_decide_eq_false_2; [done| |done].
        by intros [?|?]%elem_of_cons.
Qed.

(** C6, as the code has it.  On a controller whose construction ran to
    its end, in any state it can reach, and whose supervisor handle is
    unbound or bound to a supervisor that accepts the stop: [__del__]
    returns without raising; it writes ETX to, and closes the stdin of,
    exactly the registered sessions whose channel is not closed already;
    it closes the connection (and with it every channel); and it issues
    one [stopProcess("run_robot", True)] when the handle is bound and no
    call at all when it is not. *)
Theorem teardown_of_constructed (s : State) (d : dict Stds) (sv : option ServerProxy) :
  reachable s →
  constructed (self s) →
  ssh_stds (self s) = Some d →
  sv_server (self s) = Some sv →
  (∀ p, sv = Some p →
        sv_ack (world s) (rpc_log (world s)) (stopProcess "run_robot" true) = true) →
  ∃ s',
    __del__ s = (Ret tt, s')
    ∧ self s' = self s
    ∧ transport (world s') = false
    ∧ (∀ n c, channels (world s) !! n = Some c →
         channels (world s') !! n
         = Some (set_ch_closed true
                   (if bool_decide (n ∈ std_in <$> d.*2) then interrupted c else c)))
    ∧ rpc_log (world s')
      = rpc_log (world s)
        ++ match sv with
           | Some p => [(proxy_id p, stopProcess "run_robot" true)]
           | None => []
           end.
Proof.
  intros Hreach (h & u & p & rn & sc & d' & sv' & Hself) Hd Hsv Hack.
  destruct (reachable_ok s Hreach d Hd) as (_ & Hnd & Hall).
  destruct (interrupt_all_run d s) as (m' & Hloop & Hm'); [|done|].
  { eapply Forall_impl; [exact Hall|]. intros kv [_ Hc]. exact Hc. }
  destruct (__del__ s) as [r s'] eqn:H.
  destruct s as [o w]. cbn in Hself. subst o. destruct_world w.
  proj_simpl. simplify_eq.
  unfold __del__, stop_robot in H.
  destruct sv as [p0|].
  - specialize (Hack p0 eq_refl). minv H.
    eexists. split_and!; [reflexivity..| |reflexivity].
    intros n c Hc. proj_simpl. rewrite lookup_fmap, Hm', Hc.
    by destruct (bool_decide _).
  - minv H.
    eexists. split_and!; [reflexivity..| |by rewrite app_nil_r].
    intros n c Hc. proj_simpl. rewrite lookup_fmap, Hm', Hc.
    by destruct (bool_decide _).
Qed.

Lemma teardown_of_constructed_witness :
  let s := (connect_sensor "all_sensor.yaml" Demo.fresh_controller).2 in
  ∃ s',
    __del__ s = (Ret tt, s')
    ∧ self s' = self s
    ∧ transport (world s') = false
    ∧ (∀ n c, channels (world s) !! n = Some c →
         channels (world s') !! n
         = Some (set_ch_closed true
                   (if bool_decide (n ∈ std_in <$> [("sensor", mkStds 0 0 0)].*2)
                    then interrupted c else c)))
    ∧ rpc_log (world s') = rpc_log (world s) ++ [].
Proof.
  apply (teardown_of_constructed
           (connect_sensor "all_sensor.yaml" Demo.fresh_controller).2
           [("sensor", mkStds 0 0 0)] None).
  - apply (reach_call (call_connect_sensor "all_sensor.yaml")), reach_construct.
  - constructed_by_computation.
  - vm_compute. reflexivity.
  - vm_compute. reflexivity.
  - discriminate.
Defined.

(** C6 as stated fails in two ways.  When the host refuses the connection,
    [__init__] raises before it has set [ssh_stds], and [__del__] on the
    object it leaves raises [AttributeError] at its first line, without
    closing anything.  And when a handle is bound and the supervisor faults
    on the stop, [__del__] raises that fault. *)
Lemma teardown_raises :
  let failed := construct "robot1" "ros_settings.yaml" Demo.unreachable_host in
  let bound :=
    (start_robot
       (construct "robot1" "ros_settings.yaml"
          (Demo.host "STOPPED" Demo.ack_no_stop)).2) in
  failed.1 = Raise SSHException
  ∧ client (self failed.2) = Some tt
  ∧ __del__ failed.2 = (Raise (AttributeError "ssh_stds"), failed.2)
  ∧ bound.1 = Ret tt
  ∧ (__del__ bound.2).1 = Raise Fault.
Proof. vm_compute. split_and!; reflexivity. Qed.

(** *** Strings *)

Lemma string_app_nil_r (s : string) : s +:+ EmptyString = s.
Proof.
  induction s as [|c s IH]; [done|].
  change (String c (s +:+ EmptyString) = String c s). by rewrite IH.
Qed.

Lemma string_app_assoc (s1 s2 s3 : string) : (s1 +:+ s2) +:+ s3 = s1 +:+ (s2 +:+ s3).
Proof.
  induction s1 as [|c s1 IH]; [done|].
  change (String c ((s1 +:+ s2) +:+ s3) = String c (s1 +:+ (s2 +:+ s3))).
  by rewrite IH.
Qed.

Lemma starts_nil text : starts EmptyString text.
Proof. by exists text. Qed.

Lemma starts_cons c needle text :
  starts needle text → starts (String c needle) (String c text).
Proof. intros [post ->]. by exists post. Qed.

Lemma starts_app a needle text :
  starts needle text → starts (a +:+ needle) (a +:+ text).
Proof. intros [post ->]. exists post. by rewrite string_app_assoc. Qed.

Lemma starts_prefix a text : starts a (a +:+ text).
Proof. by exists text. Qed.

Lemma string_app_cons c (s t : string) : String c s +:+ t = String c (s +:+ t).
Proof. reflexivity. Qed.

Lemma string_app_nil_l (t : string) : EmptyString +:+ t = t.
Proof. reflexivity. Qed.

Lemma contains_here needle text : starts needle text → contains needle text.
Proof. intros [post ->]. by exists EmptyString, post. Qed.

Lemma contains_cons c needle text :
  contains needle text → contains needle (String c text).
Proof. intros (pre & post & ->). by exists (String c pre), post. Qed.

Lemma contains_app a needle text :
  contains needle text → contains needle (a +:+ text).
Proof.
  intros (pre & post & ->). exists (a +:+ pre), post. by rewrite string_app_assoc.
Qed.

Lemma contains_app_l a needle text :
  contains needle a → contains needle (a +:+ text).
Proof.
  intros (pre & post & ->). exists pre, (post +:+ text).
  by rewrite !string_app_assoc.
Qed.

(** Walks along a text made of literal characters and unknown pieces. *)
Ltac find_substring :=
  repeat first
    [ apply contains_here;
      solve [repeat first [ apply starts_nil | apply starts_cons
                          | apply starts_prefix | apply starts_app ]]
    | apply contains_cons
    | apply contains_app ].

(** *** The paths and the files of [send_settings] *)

Lemma format_dist_dir u date :
  format "/home/{}/cps_settings/{}" [u; date] = Some (dist_dir_of u date).
Proof. cbn. by rewrite string_app_nil_r. Qed.

Lemma format_latest_dir u :
  format "/home/{}/cps_settings/latest_settings" [u] = Some (latest_dir_of u).
Proof. reflexivity. Qed.

Lemma format_all_sensor dir :
  format "{}/all_sensor.yaml" [dir] = Some (dir +:+ "/all_sensor.yaml").
Proof. reflexivity. Qed.

Lemma format_config dir :
  format "{}/config.yaml" [dir] = Some (dir +:+ "/config.yaml").
Proof. reflexivity. Qed.

Lemma format_controller_config dir :
  format "{}/controller_config.yaml" [dir] = Some (dir +:+ "/controller_config.yaml").
Proof. reflexivity. Qed.

Lemma format_dest dir name :
  format "{}/{}" [dir; name] = Some (dir +:+ "/" +:+ name).
Proof. cbn. by rewrite string_app_nil_r. Qed.

Lemma bind_ext {A B} (m : M A) (f g : A → M B) s :
  (∀ a s', f a s' = g a s') → (m ≫= f) s = (m ≫= g) s.
Proof. intros Hfg. rewrite !bind_run. destruct (m s) as [[a| |] s']; by rewrite ?Hfg. Qed.

Lemma send_file_run dist f s :
  send_file dist f s = scp_put f (dist +:+ "/" +:+ basename f) s.
Proof. unfold send_file, fmt. by rewrite format_dest. Qed.

Lemma send_loop_put_all dist fl s :
  for_each fl (send_file dist) s = put_all (send_dest dist <$> fl) s.
Proof.
  revert s. induction fl as [|f fl IH]; intros s; [done|].
  change ((send_file dist f ;; for_each fl (send_file dist)) s
          = (scp_put f (dist +:+ "/" +:+ basename f) ;;
             put_all (send_dest dist <$> fl)) s).
  rewrite !bind_run, send_file_run.
  destruct (scp_put f (dist +:+ "/" +:+ basename f) s) as [[[]| |] s']; [apply IH|done..].
Qed.

(** The copies of [send_settings], from the opening of the scp session
    on, are the copies of its transfer list. *)
Lemma transfers_put_all dist d1 d2 d3 p1 p2 p3 fl s :
  transport (world s) = true →
  (scp_enter ;;
   when_some p1 (λ p, scp_put p d1) ;;
   when_some p2 (λ p, scp_put p d2) ;;
   when_some p3 (λ p, scp_put p d3) ;;
   for_each fl (send_file dist)) s
  = put_all (option_list ((λ p, (p, d1)) <$> p1)
             ++ option_list ((λ p, (p, d2)) <$> p2)
             ++ option_list ((λ p, (p, d3)) <$> p3)
             ++ (send_dest dist <$> fl)) s.
Proof.
  intros Htr. rewrite bind_run.
  assert (scp_enter s = (Ret tt, s)) as ->.
  { destruct_state s. destruct_world w. cbn in Htr. subst. reflexivity. }
  destruct p1, p2, p3; cbn [when_some option_list fmap option_fmap option_map app
                             put_all for_each fst snd];
    repeat first [ apply send_loop_put_all
                 | apply bind_ext; intros ? ?
                 | rewrite bind_run; cbn [mret M_ret] ].
Qed.

Lemma scp_put_present l r f s :
  transport (world s) = true →
  fs (world s) !! l = Some f →
  scp_put l r s
  = (Ret tt, mkState (self s) (set_scp_log (scp_log (world s) ++ [(l, r)]) (world s))).
Proof.
  intros Htr Hf. destruct (scp_put l r s) as [o s'] eqn:H.
  destruct_state s. destruct_world w. unfold scp_put in H. by minv H.
Qed.

Lemma scp_put_missing l r s :
  transport (world s) = true →
  fs (world s) !! l = None →
  scp_put l r s = (Raise (FileNotFoundError l), s).
Proof.
  intros Htr Hf. destruct (scp_put l r s) as [o s'] eqn:H.
  destruct_state s. destruct_world w. unfold scp_put in H. by minv H.
Qed.

(** A batch of copies stops at the first file that is not there: the files
    before it have been copied, nothing is undone, nothing after it is
    tried. *)
Lemma put_all_stops pre x post : ∀ s,
  transport (world s) = true →
  Forall (λ y : string * string, is_Some (fs (world s) !! y.1)) pre →
  fs (world s) !! x.1 = None →
  put_all (pre ++ x :: post) s
  = (Raise (FileNotFoundError x.1),
     mkState (self s) (set_scp_log (scp_log (world s) ++ pre) (world s))).
Proof.
  induction pre as [|y pre IH]; intros s Htr Hpre Hx.
  - cbn [app put_all for_each]. rewrite bind_run, scp_put_missing by done.
    rewrite app_nil_r. by destruct s as [o []].
  - apply Forall_cons in Hpre as [[f Hy] Hpre].
    cbn [app put_all for_each]. rewrite bind_run, (scp_put_present _ _ f) by done.
    fold (put_all (pre ++ x :: post)).
    destruct s as [o w]. destruct_world w. destruct y as [y1 y2]. cbn in *.
    rewrite IH by (cbn; done). cbn. by rewrite <- app_assoc.
Qed.

Lemma put_all_frame batch : ∀ s r s',
  put_all batch s = (r, s') →
  ∃ log, s' = mkState (self s) (set_scp_log log (world s)).
Proof.
  induction batch as [|x batch IH]; intros s r s' H.
  - cbv [put_all for_each mret M_ret] in H. injection H as _ <-.
    exists (scp_log (world s)). by destruct s as [o []].
  - cbn [put_all for_each] in H. rewrite bind_run in H.
    destruct (scp_put x.1 x.2 s) as [r1 s1] eqn:H1.
    assert (∃ log, s1 = mkState (self s) (set_scp_log log (world s))) as [log1 ->].
    { destruct_state s. destruct_world w. unfold scp_put in H1. minv H1; by eexists. }
    destruct r1; simplify_eq; [|by eexists..].
    apply IH in H as [log ->]. by eexists.
Qed.

(** [send_settings] on a constructed controller with a live connection:
    the command it starts, and the copies that follow. *)
Lemma send_settings_run a b c p1 p2 p3 fl s u sc rn d :
  username (self s) = Some u →
  source_command (self s) = Some sc →
  robotname (self s) = Some rn →
  client (self s) = Some tt →
  ssh_stds (self s) = Some d →
  transport (world s) = true →
  let dist := dist_dir_of u (now (world s)) in
  let latest := latest_dir_of u in
  let n := next_chan (world s) in
  ∃ make_shell command,
    format make_shell_template
      [sc; u; latest +:+ "/config.yaml"; latest +:+ "/controller_config.yaml"; rn;
       latest +:+ "/all_sensor.yaml"; flag a; flag b; flag c; dist] = Some make_shell
    ∧ format settings_command_template [dist; latest; dist; latest; make_shell]
      = Some command
    ∧ send_settings a b c p1 p2 p3 fl s
      = put_all (transfer_list dist p1 p2 p3 fl)
          (mkState
             (set_ssh_stds (Some (dict_set "operation" (mkStds n n n) d)) (self s))
             (set_slept (slept (world s) + 2)
                (set_next_chan (S n)
                   (set_channels (<[n := fresh_channel command true]> (channels (world s)))
                      (world s))))).
Proof.
  intros Hu Hsc Hrn Hcl Hd Htr. cbn zeta.
  destruct (send_settings a b c p1 p2 p3 fl s) as [r s'] eqn:H.
  destruct_state s. destruct_world w. proj_simpl. simplify_eq.
  pose proof (format_dist_dir u nw) as F1.
  pose proof (format_latest_dir u) as F2.
  pose proof (format_all_sensor (dist_dir_of u nw)) as F3.
  pose proof (format_config (dist_dir_of u nw)) as F4.
  pose proof (format_controller_config (dist_dir_of u nw)) as F5.
  pose proof (format_all_sensor (latest_dir_of u)) as F6.
  pose proof (format_config (latest_dir_of u)) as F7.
  pose proof (format_controller_config (latest_dir_of u)) as F8.
  unfold send_settings in H. fold (flag a) (flag b) (flag c) in H.
  minv_to_scp H;
    try (exfalso;
         match goal with
         | Hf : format _ _ = None |- _ => vm_compute in Hf; discriminate Hf
         end).
  eexists _, _. split; [reflexivity|]. split; [eassumption|].
  rewrite <- H. rewrite transfers_put_all by done. reflexivity.
Qed.

Lemma command_flags x1 x2 x3 x4 x5 x6 A B C x10 y1 y2 y3 y4 make_shell command :
  format make_shell_template [x1; x2; x3; x4; x5; x6; A; B; C; x10] = Some make_shell →
  format settings_command_template [y1; y2; y3; y4; make_shell] = Some command →
  contains (launch_flags A B C) make_shell ∧ contains (launch_flags A B C) command.
Proof.
  intros H1 H2.
  assert (Hmk : contains (launch_flags A B C) make_shell).
  { let t := eval vm_compute in make_shell_template in
    change make_shell_template with t in H1.
    cbn in H1. injection H1 as <-.
    unfold launch_flags. rewrite ?string_app_cons, ?string_app_nil_l.
    find_substring. }
  split; [exact Hmk|].
  let t := eval vm_compute in settings_command_template in
  change settings_command_template with t in H2.
  cbn in H2. injection H2 as <-.
  repeat first
    [ solve [apply contains_app_l; exact Hmk]
    | apply contains_cons
    | apply contains_app ].
Qed.

(** C8. On a constructed controller with a live connection,
    [send_settings] starts (with a pty) a command that contains the launch
    arguments [use_dynamixel:=.. use_sensor:=.. use_camera:=..], each flag
    written as [true] or [false], [use_actuator] giving [use_dynamixel];
    this holds whatever happens to the copies that follow.  For
    [use_actuator=True, use_sensor=False, use_camera=False] the arguments
    read [use_dynamixel:=true use_sensor:=false use_camera:=false]. *)
Theorem send_settings_launch_flags (use_actuator use_sensor use_camera : bool)
    (p1 p2 p3 : option string) (fl : list string) (s : State) :
  constructed (self s) →
  transport (world s) = true →
  let started :=
    chan (world (send_settings use_actuator use_sensor use_camera p1 p2 p3 fl s).2)
      (next_chan (world s)) in
  contains (launch_flags (flag use_actuator) (flag use_sensor) (flag use_camera))
    (ch_command started)
  ∧ ch_pty started = true
  ∧ launch_flags (flag true) (flag false) (flag false)
    = "use_dynamixel:=true use_sensor:=false use_camera:=false".
Proof.
  intros (h & u & p & rn & sc & d & sv & Hself) Htr. cbn zeta.
  destruct s as [o w]. cbn in Hself. subst o.
  match goal with
  | |- context [send_settings _ _ _ _ _ _ _ ?st] =>
      pose proof (send_settings_run use_actuator use_sensor use_camera p1 p2 p3 fl st
                    u sc rn d eq_refl eq_refl eq_refl eq_refl eq_refl Htr) as Hr
  end.
  cbn zeta in Hr. destruct Hr as (mk & cmd & Hmk & Hcmd & Hrun).
  rewrite Hrun.
  match goal with
  | |- context [put_all ?b ?st] => destruct (put_all b st) as [r s'] eqn:Hput
  end.
  apply put_all_frame in Hput as [log ->].
  unfold chan. cbn. rewrite chan_of_insert_eq. cbn.
  split_and!; [|done..].
  by destruct (command_flags _ _ _ _ _ _ _ _ _ _ _ _ _ _ _ _ Hmk Hcmd).
Qed.

Lemma send_settings_launch_flags_witness :
  contains "use_dynamixel:=true use_sensor:=false use_camera:=false"
    (ch_command
       (chan (world (send_settings true false false None None None []
                       Demo.fresh_controller).2) 0)).
Proof.
  apply (send_settings_launch_flags true false false None None None []
           Demo.fresh_controller).
  - constructed_by_computation.
  - vm_compute. reflexivity.
Defined.

(** C9. The copies of [send_settings] are made one at a time, in the
    order of the transfer list (the three configuration files that were
    given, then [send_files] in list order).  When a file of that list is
    missing and all the files before it are there, the call raises for the
    missing file; the files before it have been copied and stay copied (the
    log of copies is the old log and those files, nothing else), and
    nothing more is run on the connection: no later file is tried and no
    command is started to take anything back. *)
Theorem send_settings_not_transactional (a b c : bool) (p1 p2 p3 : option string)
    (fl : list string) (s : State) (u : string)
    (pre : list (string * string)) (x : string * string) (post : list (string * string)) :
  constructed (self s) →
  username (self s) = Some u →
  transport (world s) = true →
  transfer_list (dist_dir_of u (now (world s))) p1 p2 p3 fl = pre ++ x :: post →
  Forall (λ y : string * string, is_Some (fs (world s) !! y.1)) pre →
  fs (world s) !! x.1 = None →
  ∃ s',
    send_settings a b c p1 p2 p3 fl s = (Raise (FileNotFoundError x.1), s')
    ∧ scp_log (world s') = scp_log (world s) ++ pre
    ∧ next_chan (world s') = S (next_chan (world s))
    ∧ fs (world s') = fs (world s).
Proof.
  intros (h & u' & p & rn & sc & d & sv & Hself) Hu Htr Hlist Hpre Hx.
  destruct s as [o w]. cbn in Hself. subst o. cbn in Hu. simplify_eq.
  match goal with
  | |- context [send_settings _ _ _ _ _ _ _ ?st] =>
      pose proof (send_settings_run a b c p1 p2 p3 fl st
                    u sc rn d eq_refl eq_refl eq_refl eq_refl eq_refl Htr) as Hr
  end.
  cbn zeta in Hr. destruct Hr as (mk & cmd & _ & _ & Hrun).
  rewrite Hrun. cbn [world] in Hlist |- *. rewrite Hlist.
  destruct_world w. cbn in Htr, Hpre, Hx.
  rewrite put_all_stops by done.
  eexists. split; [reflexivity|]. by cbn.
Qed.

Lemma send_settings_not_transactional_witness :
  let dist := "/home/pi/cps_settings/20240101120000" in
  ∃ s',
    send_settings true true false None None None
      ["extra/first.txt"; "extra/second.txt"; "extra/third.txt"] Demo.fresh_controller
    = (Raise (FileNotFoundError "extra/second.txt"), s')
    ∧ scp_log (world s')
      = scp_log (world Demo.fresh_controller)
        ++ [("extra/first.txt", dist +:+ "/first.txt")]
    ∧ next_chan (world s') = S (next_chan (world Demo.fresh_controller))
    ∧ fs (world s') = fs (world Demo.fresh_controller).
Proof.
  apply (send_settings_not_transactional true true false None None None
           ["extra/first.txt"; "extra/second.txt"; "extra/third.txt"]
           Demo.fresh_controller "pi"
           [("extra/first.txt", "/home/pi/cps_settings/20240101120000/first.txt")]
           ("extra/second.txt", "/home/pi/cps_settings/20240101120000/second.txt")
           [("extra/third.txt", "/home/pi/cps_settings/20240101120000/third.txt")]).
  - constructed_by_computation.
  - vm_compute. reflexivity.
  - vm_compute. reflexivity.
  - vm_compute. reflexivity.
  - repeat constructor. vm_compute. by eexists.
  - vm_compute. reflexivity.
Defined.

(** *** Construction from a settings file *)

Lemma format_master m : format "http://{}:11311" [m] = Some ("http://" +:+ m +:+ ":11311").
Proof. reflexivity. Qed.

Lemma format_source_command u :
  format source_command_template [u; u] = Some (source_command_of u).
Proof. reflexivity. Qed.

(** The two ways the test on [rosmaster_ip_addr] can go, with the address
    that ends up in [ROS_MASTER_URI]. *)
Lemma master_cases d h :
  ∃ m, default h (dict_get "rosmaster_ip_addr" d) = m
       ∧ format "http://{}:11311" [m] = Some ("http://" +:+ m +:+ ":11311")
       ∧ ((dict_mem "rosmaster_ip_addr" d = true ∧ dict_get "rosmaster_ip_addr" d = Some m)
          ∨ (dict_mem "rosmaster_ip_addr" d = false ∧ m = h)).
Proof.
  destruct (dict_get "rosmaster_ip_addr" d) as [m|] eqn:Hm.
  - exists m. split_and!; [done..|]. left. split; [|done]. apply dict_mem_true; eauto.
  - exists h. split_and!; [done..|]. right. split; [|done]. by apply dict_mem_false.
Qed.

(** X1. Construction on a settings file that holds the four keys and a
    host that accepts the credentials returns.  The connection is asked for
    with the robot's address, the user name and the password of the file;
    the object keeps them, the robot name, the shell line that sources the
    user's ROS set-up, an empty registry, no supervisor handle and the
    service name [run_robot]; the three ROS variables are in the
    environment; nothing else in the world has changed (no channel, no
    copy, no call to the supervisor). *)
Theorem construct_from_settings (rn path : string) (w : World) (d : dict string)
    (h u p ip : string) :
  fs w !! path = Some (YamlMap d) →
  dict_get "robot_ip_addr" d = Some h →
  dict_get "username" d = Some u →
  dict_get "password" d = Some p →
  dict_get "host_ip_addr" d = Some ip →
  host_accepts w h u p = true →
  construct rn path w
  = (Ret tt,
     mkState
       (mkController (Some h) (Some u) (Some p) (Some rn) (Some tt)
          (Some (source_command_of u)) (Some []) (Some None) (Some "run_robot"))
       (set_transport true (set_environ (ros_environ d h ip (environ w)) w))).
Proof.
  intros Hfs Hh Hu Hp Hip Hacc.
  destruct (construct rn path w) as [r s'] eqn:H.
  unfold construct, __init__, blank in H. destruct_world w.
  pose proof (format_source_command u) as Hsc.
  unfold ros_environ, master_uri_of.
  destruct (master_cases d h) as (m & -> & Hf & [[Hmem Hm]|[Hmem ->]]); by minv H.
Qed.

Lemma construct_from_settings_witness :
  construct "robot1" "ros_settings.yaml" (Demo.host "STOPPED" Demo.ack_all)
  = (Ret tt,
     mkState
       (mkController (Some "192.168.0.10") (Some "pi") (Some "raspberry")
          (Some "robot1") (Some tt) (Some (source_command_of "pi")) (Some [])
          (Some None) (Some "run_robot"))
       (set_transport true
          (set_environ
             (ros_environ Demo.settings "192.168.0.10" "192.168.0.2" ∅)
             (Demo.host "STOPPED" Demo.ack_all)))).
Proof.
  apply (construct_from_settings "robot1" "ros_settings.yaml"
           (Demo.host "STOPPED" Demo.ack_all) Demo.settings
           "192.168.0.10" "pi" "raspberry" "192.168.0.2");
    vm_compute; reflexivity.
Defined.

(** X2. When the host refuses the connection, construction raises the
    connection error after it has changed the environment of the process:
    the three ROS variables are set.  The object is left with the address,
    the credentials, the robot name and the client, and without shell
    line, registry, supervisor handle and service name; no connection is
    open. *)
Theorem construct_refused (rn path : string) (w : World) (d : dict string)
    (h u p ip : string) :
  fs w !! path = Some (YamlMap d) →
  dict_get "robot_ip_addr" d = Some h →
  dict_get "username" d = Some u →
  dict_get "password" d = Some p →
  dict_get "host_ip_addr" d = Some ip →
  host_accepts w h u p = false →
  construct rn path w
  = (Raise SSHException,
     mkState
       (mkController (Some h) (Some u) (Some p) (Some rn) (Some tt)
          None None None None)
       (set_environ (ros_environ d h ip (environ w)) w)).
Proof.
  intros Hfs Hh Hu Hp Hip Hacc.
  destruct (construct rn path w) as [r s'] eqn:H.
  unfold construct, __init__, blank in H. destruct_world w.
  unfold ros_environ, master_uri_of.
  destruct (master_cases d h) as (m & -> & Hf & [[Hmem Hm]|[Hmem ->]]); by minv H.
Qed.

Lemma construct_refused_witness :
  construct "robot1" "ros_settings.yaml" Demo.unreachable_host
  = (Raise SSHException,
     mkState
       (mkController (Some "192.168.0.10") (Some "pi") (Some "raspberry")
          (Some "robot1") (Some tt) None None None None)
       (set_environ (ros_environ Demo.settings "192.168.0.10" "192.168.0.2" ∅)
          Demo.unreachable_host)).
Proof.
  apply (construct_refused "robot1" "ros_settings.yaml" Demo.unreachable_host
           Demo.settings "192.168.0.10" "pi" "raspberry" "192.168.0.2");
    vm_compute; reflexivity.
Defined.

(** X3. A settings file that lacks one of the keys the constructor
    subscripts makes it raise [KeyError] for the first such key, in the
    order robot address, user name, password, host address.  No SSH client
    has been made and no connection asked for.  When the key is one of the
    first three the world is untouched; when it is the host address,
    [ROS_MASTER_URI] has been set already. *)
Theorem construct_missing_key (rn path : string) (w : World) (d : dict string)
    (k : string) :
  fs w !! path = Some (YamlMap d) →
  first_missing d = Some k →
  let r := construct rn path w in
  r.1 = Raise (KeyError k)
  ∧ client (self r.2) = None
  ∧ transport (world r.2) = transport w
  ∧ (k ≠ "host_ip_addr" → world r.2 = w)
  ∧ (k = "host_ip_addr" →
     ∃ h, dict_get "robot_ip_addr" d = Some h
          ∧ world r.2
            = set_environ (<["ROS_MASTER_URI" := master_uri_of d h]> (environ w)) w).
Proof.
  intros Hfs Hk. cbn zeta.
  destruct (construct rn path w) as [r s'] eqn:H.
  unfold construct, __init__, blank in H. destruct_world w.
  unfold first_missing, required_keys, dict_mem in Hk. cbn [List.find] in Hk.
  unfold master_uri_of.
  destruct (dict_get "robot_ip_addr" d) as [h|] eqn:Hh; cbn [negb] in Hk.
  2: { minv H. split_and!; try done. }
  destruct (dict_get "username" d) as [u|] eqn:Hu; cbn [negb] in Hk.
  2: { minv H. split_and!; try done. }
  destruct (dict_get "password" d) as [p|] eqn:Hp; cbn [negb] in Hk.
  2: { minv H. split_and!; try done. }
  destruct (dict_get "host_ip_addr" d) as [ip|] eqn:Hip; cbn [negb] in Hk; [done|].
  destruct (master_cases d h) as (m & Hdef & Hf & [[Hmem Hm]|[Hmem ->]]);
    minv H;
    (split_and!; try done; intros _; exists h; split; [reflexivity|];
     cbn [snd world]; by rewrite ?Hdef).
Qed.

Lemma construct_missing_key_witness :
  let w := mkWorld {[ "s.yaml" := YamlMap [("robot_ip_addr", "10.0.0.1"); ("username", "pi");
                                           ("password", "pw")] ]}
             ∅ (λ _ _ _, true) false ∅ 0 [] "20240101120000" 0 []
             (λ _, Some "STOPPED") (λ _ _, true) 0 in
  let r := construct "robot1" "s.yaml" w in
  r.1 = Raise (KeyError "host_ip_addr")
  ∧ client (self r.2) = None
  ∧ transport (world r.2) = false.
Proof.
  intros w r.
  destruct (construct_missing_key "robot1" "s.yaml" w
              [("robot_ip_addr", "10.0.0.1"); ("username", "pi"); ("password", "pw")]
              "host_ip_addr") as (H1 & H2 & H3 & _);
    [vm_compute; reflexivity..|].
  split_and!; [exact H1 | exact H2 | exact H3].
Defined.



(** *** [send_settings]: the copies and the command *)

(** A batch of copies whose files are all there copies them all, in
    order. *)
Lemma put_all_present batch : ∀ s,
  transport (world s) = true →
  Forall (λ y : string * string, is_Some (fs (world s) !! y.1)) batch →
  put_all batch s
  = (Ret tt, mkState (self s) (set_scp_log (scp_log (world s) ++ batch) (world s))).
Proof.
  induction batch as [|y batch IH]; intros s Htr Hall.
  - cbn [put_all for_each]. rewrite app_nil_r. by destruct s as [o []].
  - apply Forall_cons in Hall as [[f Hy] Hall].
    cbn [put_all for_each]. rewrite bind_run, (scp_put_present _ _ f) by done.
    fold (put_all batch).
    destruct s as [o w]. destruct_world w. destruct y as [y1 y2]. cbn in *.
    rewrite IH by (cbn; done). cbn. by rewrite <- app_assoc.
Qed.

(** X5. On a constructed controller with a live connection and all the
    files of the transfer list in place, [send_settings] returns (a copy
    fails, in this model, for a connection that is down or a local file
    that is missing, and for nothing else).  It has started one command
    (on the next channel of the transport, with a pty), stored it under
    [operation], slept two seconds, and then copied the files of the
    transfer list, each to its destination, in the order of the list:
    sensor, dynamixel and controller configuration where given, then the
    files of [send_files].  Nothing was written to any channel and the
    supervisor was not called. *)
Theorem send_settings_copies_all (a b c : bool) (p1 p2 p3 : option string)
    (fl : list string) (s : State) (u : string) (d : dict Stds) :
  constructed (self s) →
  username (self s) = Some u →
  ssh_stds (self s) = Some d →
  transport (world s) = true →
  let batch := transfer_list (dist_dir_of u (now (world s))) p1 p2 p3 fl in
  let n := next_chan (world s) in
  Forall (λ y : string * string, is_Some (fs (world s) !! y.1)) batch →
  ∃ command,
    send_settings a b c p1 p2 p3 fl s
    = (Ret tt,
       mkState (set_ssh_stds (Some (dict_set "operation" (mkStds n n n) d)) (self s))
         (set_scp_log (scp_log (world s) ++ batch)
            (set_slept (slept (world s) + 2)
               (set_next_chan (S n)
                  (set_channels
                     (<[n := fresh_channel command true]> (channels (world s)))
                     (world s)))))).
Proof.
  intros (h & u' & p & rn & sc & d' & sv & Hself) Hu Hd Htr batch n Hall.
  destruct s as [o w]. cbn in Hself. subst o. cbn in Hu, Hd. simplify_eq.
  match goal with
  | |- context [send_settings _ _ _ _ _ _ _ ?st] =>
      pose proof (send_settings_run a b c p1 p2 p3 fl st
                    u sc rn d eq_refl eq_refl eq_refl eq_refl eq_refl Htr) as Hr
  end.
  cbn zeta in Hr. destruct Hr as (mk & cmd & _ & _ & Hrun).
  exists cmd. rewrite Hrun. subst batch n. cbn [world] in *.
  destruct_world w. cbn in Htr, Hall.
  rewrite put_all_present by done. reflexivity.
Qed.

Lemma send_settings_copies_all_witness :
  let s := Demo.fresh_controller in
  ∃ command,
    send_settings true true false (Some "all_sensor.yaml") None
      (Some "controller_config.yaml") ["extra/first.txt"] s
    = (Ret tt,
       mkState (set_ssh_stds (Some (dict_set "operation" (mkStds 0 0 0) [])) (self s))
         (set_scp_log
            (scp_log (world s)
             ++ [("all_sensor.yaml", "/home/pi/cps_settings/20240101120000/all_sensor.yaml");
                 ("controller_config.yaml",
                  "/home/pi/cps_settings/20240101120000/controller_config.yaml");
                 ("extra/first.txt", "/home/pi/cps_settings/20240101120000/first.txt")])
            (set_slept (slept (world s) + 2)
               (set_next_chan 1
                  (set_channels (<[0 := fresh_channel command true]> (channels (world s)))
                     (world s)))))).
Proof.
  apply (send_settings_copies_all true true false (Some "all_sensor.yaml") None
           (Some "controller_config.yaml") ["extra/first.txt"]
           Demo.fresh_controller "pi" []).
  - constructed_by_computation.
  - vm_compute. reflexivity.
  - vm_compute. reflexivity.
  - vm_compute. reflexivity.
  - repeat constructor; vm_compute; by eexists.
Defined.

Lemma ends_refl needle : ends needle needle.
Proof. by exists EmptyString. Qed.

Lemma ends_cons c needle text : ends needle text → ends needle (String c text).
Proof. intros [pre ->]. by exists (String c pre). Qed.

Lemma ends_app a needle text : ends needle text → ends needle (a +:+ text).
Proof. intros [pre ->]. exists (a +:+ pre). by rewrite string_app_assoc. Qed.

(** Brings the head of a text made of literal characters and unknown
    pieces into the form [String c _] or [x +:+ _] with [x] unknown. *)
Ltac string_head :=
  match goal with
  | |- ?P ?needle (String ?c ?s +:+ ?t) =>
      change (P needle (String c (s +:+ t)))
  | |- ?P ?needle (EmptyString +:+ ?t) =>
      change (P needle t)
  | |- ?P ?needle ((?x +:+ ?y) +:+ ?t) =>
      rewrite (string_app_assoc x y t)
  end.

Ltac walk_starts :=
  repeat first [ string_head | apply starts_nil | apply starts_cons | apply starts_app ].

Ltac walk_contains :=
  repeat first
    [ string_head
    | apply contains_here; solve [walk_starts]
    | apply contains_cons
    | apply contains_app ].

Ltac walk_ends :=
  repeat first [ string_head | apply ends_refl | apply ends_cons | apply ends_app ].

(** The text of the command of [send_settings], from the two templates. *)
Lemma command_text sc u rn A B C dist latest make_shell command :
  format make_shell_template
    [sc; u; latest +:+ "/config.yaml"; latest +:+ "/controller_config.yaml"; rn;
     latest +:+ "/all_sensor.yaml"; A; B; C; dist] = Some make_shell →
  format settings_command_template [dist; latest; dist; latest; make_shell]
  = Some command →
  starts (settings_prologue dist latest) command
  ∧ contains (settings_launch_line u latest rn) command
  ∧ ends (settings_epilogue dist) command.
Proof.
  intros H1 H2.
  let t := eval vm_compute in make_shell_template in
  change make_shell_template with t in H1.
  cbn in H1. injection H1 as <-.
  let t := eval vm_compute in settings_command_template in
  change settings_command_template with t in H2.
  cbn in H2. injection H2 as <-.
  unfold settings_prologue, settings_launch_line, settings_epilogue, dq.
  repeat first [ rewrite string_app_cons | rewrite string_app_nil_l
               | rewrite string_app_assoc ].
  split_and!.
  - walk_starts.
  - walk_contains.
  - walk_ends.
Qed.

(** X6. The command that [send_settings] starts on a constructed
    controller with a live connection, whatever becomes of the copies
    after it.  It begins by making the dated directory
    [/home/<user>/cps_settings/<timestamp>] and turning the link
    [latest_settings] to it; the script it then writes launches
    [run_robot.launch] with the three configuration files read through
    that link (also for a file that was not passed) and the robot name as
    namespace; and the script goes to [run_robot.sh] in the dated
    directory. *)
Theorem send_settings_command_text (a b c : bool) (p1 p2 p3 : option string)
    (fl : list string) (s : State) (u rn : string) :
  constructed (self s) →
  username (self s) = Some u →
  robotname (self s) = Some rn →
  transport (world s) = true →
  let dist := dist_dir_of u (now (world s)) in
  let latest := latest_dir_of u in
  let command :=
    ch_command (chan (world (send_settings a b c p1 p2 p3 fl s).2)
                  (next_chan (world s))) in
  starts (settings_prologue dist latest) command
  ∧ contains (settings_launch_line u latest rn) command
  ∧ ends (settings_epilogue dist) command.
Proof.
  intros (h & u' & p & rn' & sc & d & sv & Hself) Hu Hrn Htr. cbn zeta.
  destruct s as [o w]. cbn in Hself. subst o. cbn in Hu, Hrn. simplify_eq.
  match goal with
  | |- context [send_settings _ _ _ _ _ _ _ ?st] =>
      pose proof (send_settings_run a b c p1 p2 p3 fl st
                    u sc rn d eq_refl eq_refl eq_refl eq_refl eq_refl Htr) as Hr
  end.
  cbn zeta in Hr. destruct Hr as (mk & cmd & Hmk & Hcmd & Hrun).
  rewrite Hrun.
  match goal with
  | |- context [put_all ?b ?st] => destruct (put_all b st) as [r s'] eqn:Hput
  end.
  apply put_all_frame in Hput as [log ->].
  unfold chan. cbn [snd world channels set_scp_log set_slept set_next_chan set_channels
                    next_chan].
  rewrite chan_of_insert_eq. cbn [ch_command fresh_channel].
  exact (command_text _ _ _ _ _ _ _ _ _ _ Hmk Hcmd).
Qed.

Lemma send_settings_command_text_witness :
  let command :=
    ch_command (chan (world (send_settings true true false None None None []
                               Demo.fresh_controller).2) 0) in
  starts (settings_prologue "/home/pi/cps_settings/20240101120000"
            "/home/pi/cps_settings/latest_settings") command
  ∧ contains (settings_launch_line "pi" "/home/pi/cps_settings/latest_settings" "robot1")
      command
  ∧ ends (settings_epilogue "/home/pi/cps_settings/20240101120000") command.
Proof.
  apply (send_settings_command_text true true false None None None []
           Demo.fresh_controller "pi" "robot1").
  - constructed_by_computation.
  - vm_compute. reflexivity.
  - vm_compute. reflexivity.
  - vm_compute. reflexivity.
Defined.

(** *** The connection *)

(** X7. On a constructed controller whose connection has dropped, each
    of the three launchers ([connect_sensor], [connect_dynamixel],
    [send_settings]) raises the SSH library's error and leaves everything
    as it was: no command is started, nothing is stored in the registry,
    nothing is copied, and [send_settings] does not sleep. *)
Theorem launch_without_connection (l : launcher) (s : State) :
  constructed (self s) →
  transport (world s) = false →
  launch l s = (Raise SSHException, s).
Proof.
  intros (h & u & p & rn & sc & d & sv & Hself) Htr.
  destruct (launch l s) as [r s'] eqn:H.
  destruct s as [o w]. cbn in Hself. subst o. destruct_world w.
  cbn in Htr. subst tr.
  destruct l; cbn [launch] in H.
  - unfold connect_sensor in H. by minv H.
  - unfold connect_dynamixel in H. by minv H.
  - unfold send_settings in H.
    minv H;
      try (exfalso;
           match goal with
           | Hf : format _ _ = None |- _ => vm_compute in Hf; discriminate Hf
           end).
    all: done.
Qed.

Lemma launch_without_connection_witness :
  let s := mkState (self Demo.fresh_controller)
             (set_transport false (world Demo.fresh_controller)) in
  connect_sensor "all_sensor.yaml" s = (Raise SSHException, s).
Proof.
  apply (launch_without_connection (launch_sensor "all_sensor.yaml")
           (mkState (self Demo.fresh_controller)
              (set_transport false (world Demo.fresh_controller)))).
  - constructed_by_computation.
  - vm_compute. reflexivity.
Defined.

(** *** [connect_sensor] and [connect_dynamixel] *)

Ltac string_norm :=
  repeat first [ rewrite string_app_cons | rewrite string_app_nil_l
               | rewrite string_app_assoc ].

Lemma format_sensor_command sc rn :
  format sensor_command_template [sc; "/tmp/all_sensor.yaml"; rn]
  = Some (sensor_command_of sc rn).
Proof.
  let t := eval vm_compute in sensor_command_template in
  change sensor_command_template with t.
  cbn. unfold sensor_command_of, dq. first [reflexivity | f_equal; by string_norm].
Qed.

Lemma format_dynamixel_command sc rn :
  format dynamixel_command_template
    [sc; "/tmp/config.yaml"; "/tmp/controller_config.yaml"; rn]
  = Some (dynamixel_command_of sc rn).
Proof.
  let t := eval vm_compute in dynamixel_command_template in
  change dynamixel_command_template with t.
  cbn. unfold dynamixel_command_of, dq. first [reflexivity | f_equal; by string_norm].
Qed.

(** X8. [connect_sensor] on a constructed controller with a live
    connection and the configuration file in place returns: the file has
    been copied to [/tmp/all_sensor.yaml], then the [sensor_pi] launch has
    been started through [bash -lc] with a pty, with that path and the
    robot name as namespace, on the next channel of the transport, and
    stored under [sensor].  Nothing else has changed. *)
Theorem connect_sensor_run (path : string) (s : State) (sc rn : string)
    (d : dict Stds) (f : file) :
  constructed (self s) →
  source_command (self s) = Some sc →
  robotname (self s) = Some rn →
  ssh_stds (self s) = Some d →
  transport (world s) = true →
  fs (world s) !! path = Some f →
  let n := next_chan (world s) in
  connect_sensor path s
  = (Ret tt,
     mkState (set_ssh_stds (Some (dict_set "sensor" (mkStds n n n) d)) (self s))
       (set_next_chan (S n)
          (set_channels
             (<[n := fresh_channel (sensor_command_of sc rn) true]> (channels (world s)))
             (set_scp_log (scp_log (world s) ++ [(path, "/tmp/all_sensor.yaml")])
                (world s))))).
Proof.
  intros (h & u & p & rn' & sc' & d' & sv & Hself) Hsc Hrn Hd Htr Hf. cbn zeta.
  destruct (connect_sensor path s) as [r s'] eqn:H.
  destruct s as [o w]. cbn in Hself. subst o. destruct_world w.
  cbn in Hsc, Hrn, Hd, Htr, Hf. simplify_eq.
  pose proof (format_sensor_command sc rn) as Hfmt.
  unfold connect_sensor in H. by minv H.
Qed.

Lemma connect_sensor_run_witness :
  let s := Demo.fresh_controller in
  connect_sensor "all_sensor.yaml" s
  = (Ret tt,
     mkState (set_ssh_stds (Some (dict_set "sensor" (mkStds 0 0 0) [])) (self s))
       (set_next_chan 1
          (set_channels
             (<[0 := fresh_channel
                       (sensor_command_of (source_command_of "pi") "robot1") true]>
                (channels (world s)))
             (set_scp_log (scp_log (world s) ++ [("all_sensor.yaml", "/tmp/all_sensor.yaml")])
                (world s))))).
Proof.
  apply (connect_sensor_run "all_sensor.yaml" Demo.fresh_controller
           (source_command_of "pi") "robot1" [] OtherFile).
  - constructed_by_computation.
  - vm_compute. reflexivity.
  - vm_compute. reflexivity.
  - vm_compute. reflexivity.
  - vm_compute. reflexivity.
  - vm_compute. reflexivity.
Defined.

(** X9. [connect_dynamixel] on a constructed controller with a live
    connection and both files in place returns: the two files have been
    copied, in the order dynamixel, controller, to [/tmp/config.yaml] and
    [/tmp/controller_config.yaml]; then the [dynamixel_irsl] launch has
    been started through [bash -lc] with a pty, with those paths and the
    robot name as namespace, and stored under [dynamixel]. *)
Theorem connect_dynamixel_run (path1 path2 : string) (s : State) (sc rn : string)
    (d : dict Stds) (f1 f2 : file) :
  constructed (self s) →
  source_command (self s) = Some sc →
  robotname (self s) = Some rn →
  ssh_stds (self s) = Some d →
  transport (world s) = true →
  fs (world s) !! path1 = Some f1 →
  fs (world s) !! path2 = Some f2 →
  let n := next_chan (world s) in
  connect_dynamixel path1 path2 s
  = (Ret tt,
     mkState (set_ssh_stds (Some (dict_set "dynamixel" (mkStds n n n) d)) (self s))
       (set_next_chan (S n)
          (set_channels
             (<[n := fresh_channel (dynamixel_command_of sc rn) true]>
                (channels (world s)))
             (set_scp_log
                (scp_log (world s)
                 ++ [(path1, "/tmp/config.yaml"); (path2, "/tmp/controller_config.yaml")])
                (world s))))).
Proof.
  intros (h & u & p & rn' & sc' & d' & sv & Hself) Hsc Hrn Hd Htr Hf1 Hf2. cbn zeta.
  destruct (connect_dynamixel path1 path2 s) as [r s'] eqn:H.
  destruct s as [o w]. cbn in Hself. subst o. destruct_world w.
  cbn in Hsc, Hrn, Hd, Htr, Hf1, Hf2. simplify_eq.
  pose proof (format_dynamixel_command sc rn) as Hfmt.
  unfold connect_dynamixel in H. minv H. by rewrite <- app_assoc.
Qed.

Lemma connect_dynamixel_run_witness :
  let s := Demo.fresh_controller in
  connect_dynamixel "config.yaml" "controller_config.yaml" s
  = (Ret tt,
     mkState (set_ssh_stds (Some (dict_set "dynamixel" (mkStds 0 0 0) [])) (self s))
       (set_next_chan 1
          (set_channels
             (<[0 := fresh_channel
                       (dynamixel_command_of (source_command_of "pi") "robot1") true]>
                (channels (world s)))
             (set_scp_log
                (scp_log (world s)
                 ++ [("config.yaml", "/tmp/config.yaml");
                     ("controller_config.yaml", "/tmp/controller_config.yaml")])
                (world s))))).
Proof.
  apply (connect_dynamixel_run "config.yaml" "controller_config.yaml"
           Demo.fresh_controller (source_command_of "pi") "robot1" [] OtherFile OtherFile).
  - constructed_by_computation.
  - vm_compute. reflexivity.
  - vm_compute. reflexivity.
  - vm_compute. reflexivity.
  - vm_compute. reflexivity.
  - vm_compute. reflexivity.
  - vm_compute. reflexivity.
Defined.

(** X10. The two connect methods copy before they start anything.  With a
    live connection, a missing configuration file makes them raise for
    that file without a command having been started and without a change
    to the registry.  [connect_sensor], and [connect_dynamixel] on a
    missing first file, leave everything as it was; [connect_dynamixel]
    on a missing second file has copied the first one, which stays
    copied. *)
Theorem connect_missing_file (s : State) :
  constructed (self s) →
  transport (world s) = true →
  (∀ path, fs (world s) !! path = None →
     connect_sensor path s = (Raise (FileNotFoundError path), s))
  ∧ (∀ path1 path2, fs (world s) !! path1 = None →
     connect_dynamixel path1 path2 s = (Raise (FileNotFoundError path1), s))
  ∧ (∀ path1 path2 f, fs (world s) !! path1 = Some f → fs (world s) !! path2 = None →
     connect_dynamixel path1 path2 s
     = (Raise (FileNotFoundError path2),
        mkState (self s)
          (set_scp_log (scp_log (world s) ++ [(path1, "/tmp/config.yaml")]) (world s)))).
Proof.
  intros (h & u & p & rn & sc & d & sv & Hself) Htr.
  destruct s as [o w]. cbn in Hself. subst o. destruct_world w.
  cbn in Htr. subst tr. split_and!.
  - intros path Hf. cbn in Hf.
    match goal with |- ?m = _ => destruct m as [r s'] eqn:H end.
    unfold connect_sensor in H. by minv H.
  - intros path1 path2 Hf. cbn in Hf.
    match goal with |- ?m = _ => destruct m as [r s'] eqn:H end.
    unfold connect_dynamixel in H. by minv H.
  - intros path1 path2 f Hf1 Hf2. cbn in Hf1, Hf2.
    match goal with |- ?m = _ => destruct m as [r s'] eqn:H end.
    unfold connect_dynamixel in H. by minv H.
Qed.

Lemma connect_missing_file_witness :
  let s := Demo.fresh_controller in
  connect_sensor "nowhere.yaml" s = (Raise (FileNotFoundError "nowhere.yaml"), s)
  ∧ connect_dynamixel "config.yaml" "nowhere.yaml" s
    = (Raise (FileNotFoundError "nowhere.yaml"),
       mkState (self s)
         (set_scp_log (scp_log (world s) ++ [("config.yaml", "/tmp/config.yaml")])
            (world s))).
Proof.
  destruct (connect_missing_file Demo.fresh_controller) as (H1 & _ & H3).
  - constructed_by_computation.
  - vm_compute. reflexivity.
  - split.
    + apply H1. vm_compute. reflexivity.
    + apply (H3 "config.yaml" "nowhere.yaml" OtherFile); vm_compute; reflexivity.
Defined.

(** *** Disconnecting, in every case *)

Lemma remote_close_env_step n w : env_step w (Demo.remote_close n w).
Proof.
  split; try done. intros m c Hc. cbn.
  destruct (decide (n = m)) as [->|Hne].
  - rewrite lookup_insert_eq. eexists. split; [done|].
    unfold chan. by rewrite (chan_of_lookup _ _ _ Hc).
  - rewrite lookup_insert_ne by done. by exists c.
Qed.

(** Disconnecting a registered session whose channel is closed: the write
    of ETX is refused, and nothing has changed. *)
Lemma disconnect_closed k s d stds c :
  ssh_stds (self s) = Some d →
  dict_get (key_name k) d = Some stds →
  channels (world s) !! std_in stds = Some c →
  ch_stdin_closed c = false →
  ch_closed c = true →
  disconnect k s = (Raise SocketClosed, s).
Proof.
  intros Hd Hk Hc Hcl1 Hcl2. destruct (disconnect k s) as [r s'] eqn:H.
  assert (Hmem : dict_mem (key_name k) d = true) by (apply dict_mem_true; eauto).
  apply chan_of_lookup in Hc.
  destruct_state s. destruct_world w. destruct stds as [n n1 n2].
  destruct k; cbn [disconnect key_name] in *;
    [unfold disconnect_sensor in H | unfold discnnet_dynamixel in H];
    by minv H.
Qed.

(** X11. What a disconnect does, in every state a controller can be in.
    Without a registry (construction failed) it raises [AttributeError].
    With the key absent it returns and changes nothing.  With the key
    registered, the stdin of the session is open; when the channel is open
    too, ETX is written, the stdin is closed and the key is removed; when
    the channel has been closed (the remote command is gone), the write of
    ETX is refused, the disconnect raises, and the key stays in the
    registry, so that the next disconnect raises again. *)
Theorem disconnect_outcomes (k : session_key) (s : State) :
  reachable s →
  (ssh_stds (self s) = None →
     disconnect k s = (Raise (AttributeError "ssh_stds"), s))
  ∧ (∀ d, ssh_stds (self s) = Some d → dict_get (key_name k) d = None →
     disconnect k s = (Ret tt, s))
  ∧ (∀ d stds, ssh_stds (self s) = Some d → dict_get (key_name k) d = Some stds →
     let c := chan (world s) (std_in stds) in
     ch_stdin_closed c = false
     ∧ (ch_closed c = true → disconnect k s = (Raise SocketClosed, s))
     ∧ (ch_closed c = false →
        disconnect k s
        = (Ret tt,
           mkState (set_ssh_stds (Some (dict_pop (key_name k) d)) (self s))
             (set_channels
                (<[std_in stds :=
                     set_ch_stdin_closed true (set_ch_sent (ch_sent c +:+ ETX) c)]>
                   (channels (world s)))
                (world s))))).
Proof.
  intros Hreach. split_and!.
  - intros Hd. destruct (disconnect k s) as [r s'] eqn:H.
    destruct_state s. destruct_world w. cbn in Hd. subst.
    destruct k; cbn [disconnect] in H;
      [unfold disconnect_sensor in H | unfold discnnet_dynamixel in H]; by minv H.
  - intros d Hd Hk. by eapply disconnect_absent.
  - intros d stds Hd Hk. cbn zeta.
    destruct (reachable_ok s Hreach d Hd) as (_ & _ & Hall).
    destruct (dict_get_split _ _ _ Hk) as (d1 & d2 & Hsplit & _).
    rewrite Forall_forall in Hall.
    destruct (Hall (key_name k, stds)) as [_ (c & Hc & Hcl)].
    { rewrite Hsplit. apply elem_of_app. right. by left. }
    cbn in Hc. unfold chan. rewrite (chan_of_lookup _ _ _ Hc).
    split_and!; [done| |].
    + intros Hclosed. by eapply disconnect_closed.
    + intros Hopen. by eapply disconnect_active.
Qed.

Lemma disconnect_outcomes_witness :
  let s := (connect_sensor "all_sensor.yaml" Demo.fresh_controller).2 in
  let s' := mkState (self s) (Demo.remote_close 0 (world s)) in
  disconnect_sensor s' = (Raise SocketClosed, s')
  ∧ discnnet_dynamixel s' = (Ret tt, s').
Proof.
  intros s s'.
  assert (Hreach : reachable s').
  { apply reach_env; [|apply remote_close_env_step].
    apply (reach_call (call_connect_sensor "all_sensor.yaml")), reach_construct. }
  split.
  - destruct (disconnect_outcomes key_sensor s' Hreach) as (_ & _ & H).
    destruct (H [("sensor", mkStds 0 0 0)] (mkStds 0 0 0)) as (_ & Hclosed & _);
      [vm_compute; reflexivity..|].
    apply Hclosed. vm_compute. reflexivity.
  - destruct (disconnect_outcomes key_dynamixel s' Hreach) as (_ & H & _).
    apply (H [("sensor", mkStds 0 0 0)]); vm_compute; reflexivity.
Defined.

(** *** The registry over the life of the controller *)

Section DictMore.
Context {V : Type}.
Implicit Types (d : dict V) (k : string) (v : V).

Lemma dict_get_pop_ne k k' d : k ≠ k' → dict_get k' (dict_pop k d) = dict_get k' d.
Proof.
  intros Hne. induction d as [|[k0 v0] d IH]; [done|]. cbn.
  destruct (String.eqb_spec k k0) as [->|Hk].
  - destruct (String.eqb_spec k' k0) as [->|]; done.
  - cbn. by rewrite IH.
Qed.

Lemma dict_keys_set k v d x : x ∈ dict_keys (dict_set k v d) → x = k ∨ x ∈ dict_keys d.
Proof.
  induction d as [|[k0 v0] d IH]; cbn.
  - intros ?%list_elem_of_singleton. by left.
  - destruct (String.eqb_spec k k0) as [->|Hk]; cbn.
    + by right.
    + intros [->|Hin]%elem_of_cons.
      * right. by left.
      * destruct (IH Hin) as [->|?]; [by left|]. right. by right.
Qed.

Lemma dict_keys_pop k d x : x ∈ dict_keys (dict_pop k d) → x ∈ dict_keys d.
Proof.
  induction d as [|[k0 v0] d IH]; cbn; [done|].
  destruct (String.eqb_spec k k0) as [->|Hk]; cbn.
  - by right.
  - intros [->|Hin]%elem_of_cons; [by left|]. right. by apply IH.
Qed.
End DictMore.

(** What a call can do to the registry: nothing, store a session under
    the key of the call, or remove the key of the call. *)
Lemma perform_registry c s :
  ssh_stds (self (perform c s)) = ssh_stds (self s)
  ∨ ∃ d, ssh_stds (self s) = Some d
         ∧ ((∃ k v, stores c = Some k
                    ∧ ssh_stds (self (perform c s)) = Some (dict_set k v d))
            ∨ (∃ k, removes c = Some k
                    ∧ ssh_stds (self (perform c s)) = Some (dict_pop k d))).
Proof.
  destruct c; cbn [perform stores removes];
    match goal with
    | |- context [(?m s).2] => destruct (m s) as [r s'] eqn:H
    end;
    destruct_state s; destruct_world w.
  - apply send_settings_shape in H. cbn zeta in H.
    destruct H as [[-> _]|(cmd & [(-> & _ & _)|(d & log & Hd & ->)])];
      [by left..|].
    cbn in Hd. subst. right. eexists. split; [done|]. left. by eexists _, _.
  - unfold start_robot in H. minv H; by left.
  - unfold stop_robot in H. minv H; by left.
  - unfold connect_sensor in H.
    minv H; first [by left | right; eexists; split; [done|]; left; by eexists _, _].
  - unfold disconnect_sensor in H.
    minv H; first [by left | right; eexists; split; [done|]; right; by eexists].
  - unfold connect_dynamixel in H.
    minv H; first [by left | right; eexists; split; [done|]; left; by eexists _, _].
  - unfold discnnet_dynamixel in H.
    minv H; first [by left | right; eexists; split; [done|]; right; by eexists].
  - unfold get_sensor_stdout, get_stdout in H. minv H; by left.
  - unfold get_dynaxmiel_stdout, get_stdout in H. minv H; by left.
Qed.

Lemma stores_registry_key c k : stores c = Some k → k ∈ registry_keys.
Proof. destruct c; intros [= <-]; unfold registry_keys; set_solver. Qed.

Lemma reachable_registry_keys s :
  reachable s →
  ∀ d, ssh_stds (self s) = Some d → ∀ k, k ∈ dict_keys d → k ∈ registry_keys.
Proof.
  induction 1 as [rn path w|c s _ IH|s w' _ IH Henv]; intros d Hd k Hk.
  - destruct (construct rn path w) as [r s'] eqn:H.
    unfold construct, __init__, blank in H. destruct_world w.
    minv H; cbn in Hd; simplify_eq; by apply elem_of_nil in Hk.
  - destruct (perform_registry c s)
      as [Heq|(d0 & Hd0 & [(k0 & v & Hst & Hset)|(k0 & Hrm & Hpop)])].
    + rewrite Heq in Hd. by eapply IH.
    + rewrite Hset in Hd. simplify_eq.
      apply dict_keys_set in Hk as [->|Hk]; [by eapply stores_registry_key|by eapply IH].
    + rewrite Hpop in Hd. simplify_eq. apply dict_keys_pop in Hk. by eapply IH.
  - by eapply IH.
Qed.

(** X12. In every state a controller can be in, the registry holds no
    key other than [operation], [sensor] and [dynamixel], and so at most
    three sessions, however many commands have been started. *)
Theorem registry_keys_bounded (s : State) (d : dict Stds) :
  reachable s →
  ssh_stds (self s) = Some d →
  (∀ k, k ∈ dict_keys d → k ∈ registry_keys) ∧ length d ≤ 3.
Proof.
  intros Hreach Hd.
  pose proof (reachable_registry_keys s Hreach d Hd) as Hkeys.
  split; [exact Hkeys|].
  destruct (reachable_ok s Hreach d Hd) as (Hnd & _ & _).
  assert (Hsub : dict_keys d ⊆+ registry_keys) by by apply NoDup_submseteq.
  apply submseteq_length in Hsub. unfold dict_keys in Hsub.
  by rewrite length_fmap in Hsub.
Qed.

Lemma registry_keys_bounded_witness :
  let s := (connect_dynamixel "config.yaml" "controller_config.yaml"
              (connect_sensor "all_sensor.yaml" Demo.fresh_controller).2).2 in
  let d := [("sensor", mkStds 0 0 0); ("dynamixel", mkStds 1 1 1)] in
  (∀ k, k ∈ dict_keys d → k ∈ registry_keys) ∧ length d ≤ 3.
Proof.
  apply (registry_keys_bounded
           (connect_dynamixel "config.yaml" "controller_config.yaml"
              (connect_sensor "all_sensor.yaml" Demo.fresh_controller).2).2).
  - apply (reach_call (call_connect_dynamixel "config.yaml" "controller_config.yaml")),
      (reach_call (call_connect_sensor "all_sensor.yaml")), reach_construct.
  - vm_compute. reflexivity.
Defined.

(** X13. A session leaves the registry through the disconnect method of
    its own key and in no other way: after any other call, a key that was
    registered is still registered (a connect or [send_settings] may have
    put a new session under it).  In particular no call removes
    [operation], the session of [send_settings]. *)
Theorem registry_entry_stays (c : call) (k : string) (s : State) (d : dict Stds) :
  ssh_stds (self s) = Some d →
  dict_mem k d = true →
  removes c ≠ Some k →
  ∃ d', ssh_stds (self (perform c s)) = Some d' ∧ dict_mem k d' = true.
Proof.
  intros Hd Hk Hc.
  destruct (perform_registry c s)
    as [Heq|(d0 & Hd0 & [(k0 & v & Hst & Hset)|(k0 & Hrm & Hpop)])].
  - exists d. by rewrite Heq.
  - simplify_eq. eexists. split; [exact Hset|].
    apply dict_mem_true. destruct (decide (k0 = k)) as [->|Hne].
    + rewrite dict_get_set_eq. by eexists.
    + rewrite dict_get_set_ne by done. by apply dict_mem_true.
  - simplify_eq. eexists. split; [exact Hpop|].
    apply dict_mem_true. rewrite dict_get_pop_ne by congruence. by apply dict_mem_true.
Qed.

Lemma registry_entry_stays_witness :
  let s := (send_settings true true false None None None [] Demo.fresh_controller).2 in
  ∃ d', ssh_stds (self (perform call_disconnect_sensor s)) = Some d'
        ∧ dict_mem "operation" d' = true.
Proof.
  apply (registry_entry_stays call_disconnect_sensor "operation"
           (send_settings true true false None None None [] Demo.fresh_controller).2
           [("operation", mkStds 0 0 0)]).
  - vm_compute. reflexivity.
  - vm_compute. reflexivity.
  - discriminate.
Defined.

(** *** The supervisor side *)




(** X15. When the query for the state of the service faults,
    [start_robot] raises that fault: it has sent the query and nothing
    else (no stop, no start), and it leaves the new proxy bound, since the
    handle is assigned before the query. *)
Theorem start_robot_query_fault (s : State) :
  constructed (self s) →
  sv_statename (world s) (rpc_log (world s)) = None →
  (start_robot s).1 = Raise Fault
  ∧ rpc_log (world (start_robot s).2)
    = rpc_log (world s) ++ [(proxies (world s), getProcessInfo "run_robot")]
  ∧ ∃ url, sv_server (self (start_robot s).2)
           = Some (Some (mkProxy (proxies (world s)) url)).
Proof.
  intros (h & u & p & rn & sc & d & sv & Hself) Hst.
  destruct (start_robot s) as [r s'] eqn:H.
  destruct s as [o w]. cbn in Hself. subst o. destruct_world w.
  cbn in Hst.
  unfold start_robot in H. minv H; (split_and!; [done..|by eexists]).
Qed.

Lemma start_robot_query_fault_witness :
  let s := (construct "robot1" "ros_settings.yaml" Demo.silent_supervisor).2 in
  (start_robot s).1 = Raise Fault
  ∧ rpc_log (world (start_robot s).2)
    = rpc_log (world s) ++ [(proxies (world s), getProcessInfo "run_robot")]
  ∧ ∃ url, sv_server (self (start_robot s).2)
           = Some (Some (mkProxy (proxies (world s)) url)).
Proof.
  apply (start_robot_query_fault
           (construct "robot1" "ros_settings.yaml" Demo.silent_supervisor).2).
  - constructed_by_computation.
  - vm_compute. reflexivity.
Defined.

(** X16. The requests a constructed controller sends to the supervisor:
    a call adds to the log of requests and never takes from it; what it
    adds are requests about the service [run_robot] only (its state, a
    stop that waits, a start that waits); and only [start_robot] and
    [stop_robot] add anything. *)
Theorem supervisor_requests (c : call) (s : State) :
  constructed (self s) →
  ∃ l, rpc_log (world (perform c s)) = rpc_log (world s) ++ l
       ∧ Forall (λ x : nat * RpcCall, x.2 ∈ run_robot_calls) l
       ∧ (c ≠ call_start_robot → c ≠ call_stop_robot → l = []).
Proof.
  intros (h & u & p & rn & sc & d & sv & Hself).
  destruct s as [o w]. cbn in Hself. subst o.
  destruct c; cbn [perform];
    match goal with
    | |- context [(?m ?st).2] => destruct (m st) as [r s'] eqn:H
    end;
    destruct_world w.
  - apply send_settings_shape in H. cbn zeta in H.
    exists []. rewrite app_nil_r.
    by destruct H as [[-> _]|(cmd & [(-> & _ & _)|(d0 & log & _ & ->)])].
  - unfold start_robot in H.
    minv H; cbn [snd world rpc_log];
      first
        [ exists []; rewrite app_nil_r; split; [reflexivity|]; split; [constructor|done]
        | rewrite <- ?app_assoc; eexists; split; [reflexivity|]; split; [|done];
          repeat constructor; unfold run_robot_calls; cbn; set_solver ].
  - unfold stop_robot in H.
    minv H; cbn [snd world rpc_log];
      first
        [ exists []; rewrite app_nil_r; split; [reflexivity|]; split; [constructor|done]
        | rewrite <- ?app_assoc; eexists; split; [reflexivity|]; split; [|done];
          repeat constructor; unfold run_robot_calls; cbn; set_solver ].
  - unfold connect_sensor in H. minv H; exists []; by rewrite app_nil_r.
  - unfold disconnect_sensor in H. minv H; exists []; by rewrite app_nil_r.
  - unfold connect_dynamixel in H. minv H; exists []; by rewrite app_nil_r.
  - unfold discnnet_dynamixel in H. minv H; exists []; by rewrite app_nil_r.
  - unfold get_sensor_stdout, get_stdout in H. minv H; exists []; by rewrite app_nil_r.
  - unfold get_dynaxmiel_stdout, get_stdout in H. minv H; exists []; by rewrite app_nil_r.
Qed.

Lemma supervisor_requests_witness :
  ∃ l, rpc_log (world (perform call_start_robot Demo.fresh_controller))
       = rpc_log (world Demo.fresh_controller) ++ l
       ∧ Forall (λ x : nat * RpcCall, x.2 ∈ run_robot_calls) l.
Proof.
  destruct (supervisor_requests call_start_robot Demo.fresh_controller)
    as (l & H1 & H2 & _).
  - constructed_by_computation.
  - exists l. split; [exact H1 | exact H2].
Defined.

(** *** Reading ASCII output *)

Lemma utf8_valid_ascii (l : list N) :
  Forall (λ b, (b <= 127)%N) l → utf8_valid l = true.
Proof.
  induction 1 as [|b l Hb _ IH]; [done|].
  cbn [utf8_valid]. by destruct (N.leb_spec b 127); [|lia].
Qed.

Lemma decode_utf8_ascii (data : list byte) :
  ascii_only data → decode_utf8 data = Some (string_of_list_byte data).
Proof.
  intros Hdata. unfold decode_utf8. rewrite utf8_valid_ascii; [done|].
  by apply Forall_fmap.
Qed.

Lemma string_of_list_byte_app (a b : list byte) :
  string_of_list_byte (a ++ b) = string_of_list_byte a +:+ string_of_list_byte b.
Proof.
  induction a as [|x a IH]; [done|].
  change (String (ascii_of_byte x) (string_of_list_byte (a ++ b))
          = String (ascii_of_byte x) (string_of_list_byte a +:+ string_of_list_byte b)).
  by rewrite IH.
Qed.

Lemma string_of_list_byte_length (a : list byte) :
  String.length (string_of_list_byte a) = length a.
Proof. induction a as [|x a IH]; [done|]. cbn. f_equal. exact IH. Qed.

(** One read of a channel that has output, when the command has not
    exited and [select] reports the channel. *)
Lemma get_stdout_read (stdout : nat) (s : State) :
  let c := chan (world s) stdout in
  ch_exit_ready c = false → buffered c = true → ch_selectable c = true →
  get_stdout stdout s
  = (match decode_utf8 (take 2048 (ch_in_buffer c)) with
     | Some text => Ret text
     | None => Raise UnicodeDecodeError
     end,
     mkState (self s)
       (set_channels
          (<[stdout := set_ch_in_buffer (drop 2048 (ch_in_buffer c)) c]>
             (channels (world s)))
          (world s))).
Proof.
  cbn zeta. intros Hexit Hbuf Hsel.
  destruct (get_stdout stdout s) as [r s'] eqn:H.
  destruct_state s. destruct_world w. unfold get_stdout in H.
  unfold chan, buffered in *; proj_simpl.
  destruct (ch_in_buffer (chan_of ch stdout)) as [|b buf] eqn:Hb; [done|].
  minv H;
    repeat match goal with
           | H1 : decode_utf8 ?x = _ |- context [decode_utf8 ?x] => rewrite H1
           end; done.
Qed.

(** A read of a channel with nothing buffered. *)
Lemma get_stdout_idle (stdout : nat) (s : State) :
  buffered (chan (world s) stdout) = false →
  get_stdout stdout s = (Ret EmptyString, s).
Proof.
  intros Hbuf. destruct (get_stdout stdout s) as [r s'] eqn:H.
  destruct_state s. destruct_world w. unfold get_stdout in H.
  unfold chan, buffered in *; proj_simpl.
  destruct (ch_in_buffer (chan_of ch stdout)) as [|b buf] eqn:Hb; [|done].
  by minv H.
Qed.

(** X17. Reads of ASCII output lose nothing and repeat nothing.  While
    the command has not exited and [select] reports its channel, [k] reads
    in a row, with no new output in between, all return; each text is at
    most 2048 characters long; put together in the order of the reads they
    are the first [2048 * k] bytes of what was buffered, and the rest is
    still buffered.  A read that finds nothing buffered returns the empty
    string. *)
Theorem get_stdout_ascii_in_order (k stdout : nat) (s : State) :
  let c := chan (world s) stdout in
  ch_exit_ready c = false →
  ch_selectable c = true →
  ascii_only (ch_in_buffer c) →
  ∃ texts s',
    read_times k stdout s = (Ret texts, s')
    ∧ length texts = k
    ∧ Forall (λ t, String.length t ≤ 2048) texts
    ∧ joined texts = string_of_list_byte (take (2048 * k) (ch_in_buffer c))
    ∧ ch_in_buffer (chan (world s') stdout) = drop (2048 * k) (ch_in_buffer c).
Proof.
  cbn zeta. revert s. induction k as [|k IH]; intros s Hexit Hsel Hascii.
  - exists [], s. rewrite Nat.mul_0_r, take_0, drop_0. by split_and!.
  - set (c := chan (world s) stdout) in *.
    replace (2048 * S k) with (2048 + 2048 * k) by lia.
    cbn [read_times]. rewrite bind_run.
    destruct (ch_in_buffer c) as [|b buf] eqn:Hbuf.
    + rewrite get_stdout_idle by (unfold buffered; fold c; by rewrite Hbuf).
      rewrite bind_run.
      destruct (IH s) as (texts & s' & Hrun & Hlen & Hall & Hjoin & Hrest); [done..| |].
      { fold c. rewrite Hbuf. constructor. }
      fold c in Hjoin, Hrest. rewrite Hbuf in Hjoin, Hrest.
      rewrite Hrun. exists (EmptyString :: texts), s'.
      rewrite take_nil, drop_nil in *.
      split_and!; [done|by cbn; rewrite Hlen| |done|done].
      constructor; [cbn; lia|done].
    + rewrite get_stdout_read by (unfold buffered; fold c; by rewrite ?Hbuf).
      fold c. rewrite Hbuf.
      assert (Hchunk : ascii_only (take 2048 (b :: buf))) by by apply Forall_take.
      rewrite (decode_utf8_ascii _ Hchunk).
      set (s1 := mkState (self s) _).
      assert (Hc1 : chan (world s1) stdout = set_ch_in_buffer (drop 2048 (b :: buf)) c).
      { subst s1. unfold chan. cbn [world channels set_channels].
        by rewrite chan_of_insert_eq. }
      rewrite bind_run.
      destruct (IH s1) as (texts & s' & Hrun & Hlen & Hall & Hjoin & Hrest).
      { by rewrite Hc1. }
      { by rewrite Hc1. }
      { rewrite Hc1. cbn [ch_in_buffer set_ch_in_buffer]. by apply Forall_drop. }
      rewrite Hc1 in Hjoin, Hrest. cbn [ch_in_buffer set_ch_in_buffer] in Hjoin, Hrest.
      rewrite Hrun. eexists (_ :: texts), s'.
      split_and!; [done|by cbn; rewrite Hlen| | |].
      * constructor; [|done].
        rewrite string_of_list_byte_length, length_take. lia.
      * cbn [joined foldr]. fold (joined texts). rewrite Hjoin.
        by rewrite <- string_of_list_byte_app, take_take_drop.
      * by rewrite Hrest, drop_drop.
Qed.

Lemma get_stdout_ascii_in_order_witness :
  let s := (connect_sensor "all_sensor.yaml" Demo.fresh_controller).2 in
  let s1 := mkState (self s) (Demo.deliver 0 [x6f; x6b; x0a] (world s)) in
  let c := chan (world s1) 0 in
  ∃ texts s',
    read_times 2 0 s1 = (Ret texts, s')
    ∧ length texts = 2
    ∧ Forall (λ t, String.length t ≤ 2048) texts
    ∧ joined texts = string_of_list_byte (take (2048 * 2) (ch_in_buffer c))
    ∧ ch_in_buffer (chan (world s') 0) = drop (2048 * 2) (ch_in_buffer c).
Proof.
  apply (get_stdout_ascii_in_order 2 0
           (mkState (self (connect_sensor "all_sensor.yaml" Demo.fresh_controller).2)
              (Demo.deliver 0 [x6f; x6b; x0a]
                 (world (connect_sensor "all_sensor.yaml" Demo.fresh_controller).2)))).
  - vm_compute. reflexivity.
  - vm_compute. reflexivity.
  - unfold ascii_only.
    match goal with
    | |- Forall _ ?b => let b' := eval vm_compute in b in change b with b'
    end.
    repeat constructor; vm_compute; discriminate.
Defined.

(** *** Teardown when the supervisor refuses the stop *)

(** X18. [__del__] deals with the SSH side first and with the supervisor
    after it.  On a constructed controller with a handle bound, when the
    supervisor faults on the stop, [__del__] raises that fault; by then
    every registered session with an open channel has been sent ETX and
    had its stdin closed, and the connection and all its channels have
    been closed; the stop request has been sent once; and the final sleep
    of one second has not taken place. *)
Theorem teardown_stop_fault (s : State) (d : dict Stds) (p : ServerProxy) :
  reachable s →
  constructed (self s) →
  ssh_stds (self s) = Some d →
  sv_server (self s) = Some (Some p) →
  sv_ack (world s) (rpc_log (world s)) (stopProcess "run_robot" true) = false →
  ∃ s',
    __del__ s = (Raise Fault, s')
    ∧ self s' = self s
    ∧ transport (world s') = false
    ∧ (∀ n c, channels (world s) !! n = Some c →
         channels (world s') !! n
         = Some (set_ch_closed true
                   (if bool_decide (n ∈ std_in <$> d.*2) then interrupted c else c)))
    ∧ rpc_log (world s')
      = rpc_log (world s) ++ [(proxy_id p, stopProcess "run_robot" true)]
    ∧ slept (world s') = slept (world s).
Proof.
  intros Hreach (h & u & p' & rn & sc & d' & sv' & Hself) Hd Hsv Hack.
  destruct (reachable_ok s Hreach d Hd) as (_ & Hnd & Hall).
  destruct (interrupt_all_run d s) as (m' & Hloop & Hm'); [|done|].
  { eapply Forall_impl; [exact Hall|]. intros kv [_ Hc]. exact Hc. }
  destruct (__del__ s) as [r s'] eqn:H.
  destruct s as [o w]. cbn in Hself. subst o. destruct_world w.
  proj_simpl. simplify_eq.
  unfold __del__, stop_robot in H. minv H.
  eexists. split_and!; [reflexivity..| |reflexivity|reflexivity].
  intros n c Hc. proj_simpl. rewrite lookup_fmap, Hm', Hc.
  by destruct (bool_decide _).
Qed.

Lemma teardown_stop_fault_witness :
  let s := (start_robot
              (construct "robot1" "ros_settings.yaml"
                 (Demo.host "STOPPED" Demo.ack_no_stop)).2).2 in
  ∃ s',
    __del__ s = (Raise Fault, s')
    ∧ self s' = self s
    ∧ transport (world s') = false
    ∧ (∀ n c, channels (world s) !! n = Some c →
         channels (world s') !! n
         = Some (set_ch_closed true
                   (if bool_decide (n ∈ std_in <$> ([] : dict Stds).*2)
                    then interrupted c else c)))
    ∧ rpc_log (world s')
      = rpc_log (world s)
        ++ [(proxy_id (mkProxy 0 (proxy_url_of "pi" "raspberry" "192.168.0.10")),
             stopProcess "run_robot" true)]
    ∧ slept (world s') = slept (world s).
Proof.
  apply (teardown_stop_fault
           (start_robot
              (construct "robot1" "ros_settings.yaml"
                 (Demo.host "STOPPED" Demo.ack_no_stop)).2).2
           [] (mkProxy 0 (proxy_url_of "pi" "raspberry" "192.168.0.10"))).
  - apply (reach_call call_start_robot), reach_construct.
  - constructed_by_computation.
  - vm_compute. reflexivity.
  - vm_compute. reflexivity.
  - vm_compute. reflexivity.
Defined.

(** *** What the calls leave alone *)

Ltac world_simpl :=
  cbn [transport channels next_chan scp_log slept rpc_log proxies environ
       set_environ set_transport set_channels set_next_chan set_scp_log set_slept
       set_rpc_log set_proxies].




(** *** The commands that are started *)





(** *** Where the files of [send_files] go *)

Lemma basename_no_slash (p : string) : has_slash p = false → basename p = p.
Proof. destruct p as [|c r]; [done|]. intros Hp. cbn [basename]. by rewrite Hp. Qed.

Lemma has_slash_app (a b : string) : has_slash b = true → has_slash (a +:+ b) = true.
Proof.
  intros Hb. induction a as [|c a IH]; [done|].
  change (has_slash (String c (a +:+ b)) = true). cbn [has_slash].
  by destruct (Ascii.eqb c "/").
Qed.

Lemma basename_under (dir name : string) :
  has_slash name = false → basename (dir +:+ "/" +:+ name) = name.
Proof.
  intros Hname. induction dir as [|c dir IH].
  - change (basename (String "/" name) = name). cbn [basename has_slash Ascii.eqb].
    cbn. by apply basename_no_slash.
  - change (basename (String c (dir +:+ "/" +:+ name)) = name).
    cbn [basename]. rewrite IH.
    assert (has_slash (String c (dir +:+ "/" +:+ name)) = true) as ->; [|done].
    cbn [has_slash]. destruct (Ascii.eqb c "/"); [done|].
    by apply has_slash_app.
Qed.

(** X21. A file of [send_files] is copied into the dated directory
    itself, under its last path component: the directories of the local
    path are dropped.  So two files of the same name from different
    directories are copied to the same remote path, one after the other.
    A path without a slash keeps its whole name. *)
Theorem send_file_flattens (dist dir name : string) (s : State) :
  has_slash name = false →
  send_file dist (dir +:+ "/" +:+ name) s
  = scp_put (dir +:+ "/" +:+ name) (dist +:+ "/" +:+ name) s
  ∧ send_file dist name s = scp_put name (dist +:+ "/" +:+ name) s.
Proof.
  intros Hname. rewrite !send_file_run.
  by rewrite basename_under, basename_no_slash.
Qed.

Lemma send_file_flattens_witness :
  let s := (send_settings true true false None None None [] Demo.fresh_controller).2 in
  send_file "/home/pi/cps_settings/20240101120000" ("extra" +:+ "/" +:+ "first.txt") s
  = scp_put ("extra" +:+ "/" +:+ "first.txt")
      ("/home/pi/cps_settings/20240101120000" +:+ "/" +:+ "first.txt") s
  ∧ send_file "/home/pi/cps_settings/20240101120000" "first.txt" s
    = scp_put "first.txt" ("/home/pi/cps_settings/20240101120000" +:+ "/" +:+ "first.txt") s.
Proof.
  apply (send_file_flattens "/home/pi/cps_settings/20240101120000" "extra" "first.txt").
  reflexivity.
Defined.

(** *** The sessions of the registry *)

(** X22. In every state a controller can be in, each session of the
    registry is on a channel that [exec_command] opened, and the stdin of
    that channel is still open; and the sessions of two different keys
    are on two different channels. *)
Theorem registered_sessions_live (s : State) (d : dict Stds) :
  reachable s →
  ssh_stds (self s) = Some d →
  (∀ k stds, dict_get k d = Some stds →
     std_in stds < next_chan (world s)
     ∧ ∃ c, channels (world s) !! std_in stds = Some c ∧ ch_stdin_closed c = false)
  ∧ (∀ k1 k2 stds1 stds2, k1 ≠ k2 →
       dict_get k1 d = Some stds1 → dict_get k2 d = Some stds2 →
       std_in stds1 ≠ std_in stds2).
Proof.
  intros Hreach Hd.
  destruct (reachable_ok s Hreach d Hd) as (_ & Hnd & Hall).
  assert (Hin : ∀ k stds, dict_get k d = Some stds → (k, stds) ∈ d).
  { intros k stds Hk. destruct (dict_get_split _ _ _ Hk) as (d1 & d2 & -> & _).
    apply elem_of_app. right. by left. }
  split.
  - intros k stds Hk. rewrite Forall_forall in Hall.
    exact (Hall _ (Hin _ _ Hk)).
  - intros k1 k2 stds1 stds2 Hne Hk1 Hk2 Heq.
    apply Hin in Hk1, Hk2.
    apply list_elem_of_lookup in Hk1 as [i Hi], Hk2 as [j Hj].
    assert (i = j) as ->.
    { apply (NoDup_lookup _ i j (std_in stds1) Hnd).
      - by rewrite !list_lookup_fmap, Hi.
      - rewrite !list_lookup_fmap, Hj. cbn. by rewrite Heq. }
    congruence.
Qed.

Lemma registered_sessions_live_witness :
  let s := (connect_dynamixel "config.yaml" "controller_config.yaml"
              (connect_sensor "all_sensor.yaml" Demo.fresh_controller).2).2 in
  let d := [("sensor", mkStds 0 0 0); ("dynamixel", mkStds 1 1 1)] in
  (∀ k stds, dict_get k d = Some stds →
     std_in stds < next_chan (world s)
     ∧ ∃ c, channels (world s) !! std_in stds = Some c ∧ ch_stdin_closed c = false)
  ∧ (∀ k1 k2 stds1 stds2, k1 ≠ k2 →
       dict_get k1 d = Some stds1 → dict_get k2 d = Some stds2 →
       std_in stds1 ≠ std_in stds2).
Proof.
  apply (registered_sessions_live
           (connect_dynamixel "config.yaml" "controller_config.yaml"
              (connect_sensor "all_sensor.yaml" Demo.fresh_controller).2).2).
  - apply (reach_call (call_connect_dynamixel "config.yaml" "controller_config.yaml")),
      (reach_call (call_connect_sensor "all_sensor.yaml")), reach_construct.
  - vm_compute. reflexivity.
Defined.

(** *** Reading after the command has exited *)

Lemma get_stdout_exited (stdout : nat) (s : State) :
  ch_exit_ready (chan (world s) stdout) = true →
  get_stdout stdout s = (Ret EmptyString, s).
Proof.
  intros Hexit. destruct (get_stdout stdout s) as [r s'] eqn:H.
  destruct_state s. destruct_world w. unfold get_stdout in H.
  unfold chan in *; proj_simpl. by minv H.
Qed.

(** X23. Once the exit status of the command has arrived, [get_stdout]
    returns the empty string however often it is called, and takes
    nothing from the channel: output that was still buffered at that
    moment is never returned. *)
Theorem get_stdout_after_exit (k stdout : nat) (s : State) :
  ch_exit_ready (chan (world s) stdout) = true →
  read_times k stdout s = (Ret (replicate k EmptyString), s).
Proof.
  intros Hexit. induction k as [|k IH]; [done|].
  cbn [read_times replicate].
  by rewrite bind_run, get_stdout_exited, bind_run, IH.
Qed.

Lemma get_stdout_after_exit_witness :
  let s := (connect_sensor "all_sensor.yaml" Demo.fresh_controller).2 in
  let s1 := mkState (self s) (Demo.finish 0 [x6f; x6b; x0a] (world s)) in
  buffered (chan (world s1) 0) = true
  ∧ read_times 3 0 s1 = (Ret (replicate 3 EmptyString), s1).
Proof.
  split; [vm_compute; reflexivity|].
  apply (get_stdout_after_exit 3 0
           (mkState (self (connect_sensor "all_sensor.yaml" Demo.fresh_controller).2)
              (Demo.finish 0 [x6f; x6b; x0a]
                 (world (connect_sensor "all_sensor.yaml" Demo.fresh_controller).2)))).
  vm_compute. reflexivity.
Defined.

(** *** Reading the session of a key *)

Lemma getter_registered k s d stds :
  ssh_stds (self s) = Some d →
  dict_get (key_name k) d = Some stds →
  getter k s = get_stdout (std_out stds) s.
Proof.
  intros Hd Hk. destruct_state s. cbn in Hd. subst.
  destruct k; cbn [getter key_name] in *;
    unfold get_sensor_stdout, get_dynaxmiel_stdout;
    rewrite bind_run;
    match goal with
    | |- context [ssh_stds_getitem ?k ?st] =>
        let r := mred (ssh_stds_getitem k st) in change (ssh_stds_getitem k st) with r
    end;
    by rewrite Hk.
Qed.

(** X24. After a connect that returns, the stdout getter of that key
    reads the channel that this connect opened, whatever has happened on
    the remote side since, and whichever session was registered under the
    key before: the output of a session that was replaced cannot be read
    any more. *)
Theorem getter_reads_latest (k : session_key) (config1 config2 : string)
    (s s1 : State) (w' : World) :
  connect k config1 config2 s = (Ret tt, s1) →
  getter k (mkState (self s1) w')
  = get_stdout (next_chan (world s)) (mkState (self s1) w').
Proof.
  intros Hconn.
  destruct (connect_launch k config1 config2) as [Hl Hkey].
  rewrite Hl in Hconn. apply launch_ret in Hconn as (d & cmd & _ & Hd1 & _ & _).
  cbn zeta in Hd1. rewrite <- Hkey in Hd1.
  set (n := next_chan (world s)) in *.
  apply (getter_registered k (mkState (self s1) w')
           (dict_set (key_name k) (mkStds n n n) d) (mkStds n n n)).
  - exact Hd1.
  - apply dict_get_set_eq.
Qed.

Lemma getter_reads_latest_witness :
  let s := (connect_sensor "all_sensor.yaml" Demo.fresh_controller).2 in
  let s1 := (connect_sensor "all_sensor.yaml" s).2 in
  let w' := Demo.deliver 1 [x6f; x6b; x0a] (Demo.deliver 0 [x6e; x6f; x0a] (world s1)) in
  get_sensor_stdout (mkState (self s1) w')
  = get_stdout (next_chan (world s)) (mkState (self s1) w').
Proof.
  intros s s1 w'.
  apply (getter_reads_latest key_sensor "all_sensor.yaml" EmptyString s s1 w').
  vm_compute. reflexivity.
Defined.

(** *** What is written to the sessions *)

Lemma sent_unset m : sent_fields None m.
Proof. by intros d. Qed.

Lemma unwritten_keep m m' d :
  unwritten m d →
  (∀ kv, kv ∈ d → ch_sent (chan_of m' (std_in kv.2)) = ch_sent (chan_of m (std_in kv.2))) →
  unwritten m' d.
Proof.
  intros Hd Hm. apply Forall_forall. intros kv Hin.
  rewrite Hm by done. unfold unwritten in Hd. rewrite Forall_forall in Hd. by apply Hd.
Qed.

Lemma sent_exec sd m nc cmd pty :
  fields_ok sd m nc → sent_fields sd m →
  sent_fields sd (<[nc := fresh_channel cmd pty]> m).
Proof.
  intros Hok Hs d ->. eapply unwritten_keep; [by apply Hs|].
  intros kv Hin. destruct (Hok d eq_refl) as (_ & _ & Hall).
  rewrite Forall_forall in Hall. destruct (Hall _ Hin) as [Hlt _].
  rewrite chan_of_insert_ne; [done|lia].
Qed.

Lemma sent_set d m nc k cmd pty :
  fields_ok (Some d) m nc → sent_fields (Some d) m →
  sent_fields (Some (dict_set k (mkStds nc nc nc) d)) (<[nc := fresh_channel cmd pty]> m).
Proof.
  intros Hok Hs d' [= <-].
  pose proof (sent_exec _ _ _ cmd pty Hok Hs d eq_refl) as Hold.
  assert (Hnew : ch_sent (chan_of (<[nc := fresh_channel cmd pty]> m) nc) = EmptyString)
    by by rewrite chan_of_insert_eq.
  unfold unwritten in *.
  destruct (dict_set_cases k (mkStds nc nc nc) d)
    as [(d1 & v0 & d2 & -> & Hk & ->)|[Hk ->]].
  - revert Hold. rewrite !Forall_app, !Forall_cons. intros (? & ? & ?). done.
  - rewrite Forall_app, Forall_singleton. done.
Qed.

Lemma sent_update sd m n (f : Channel → Channel) :
  (∀ c, ch_sent (f c) = ch_sent c) →
  sent_fields sd m → sent_fields sd (<[n := f (chan_of m n)]> m).
Proof.
  intros Hf Hs d ->. eapply unwritten_keep; [by apply Hs|].
  intros kv _. destruct (decide (n = std_in kv.2)) as [->|Hne].
  - by rewrite chan_of_insert_eq, Hf.
  - by rewrite chan_of_insert_ne.
Qed.

Lemma sent_pop d m nc k stds n c1 c2 :
  fields_ok (Some d) m nc → sent_fields (Some d) m →
  dict_get k d = Some stds →
  std_in stds = n →
  sent_fields (Some (dict_pop k d)) (<[n := c2]> (<[n := c1]> m)).
Proof.
  intros Hok Hs Hget <- d' [= <-].
  destruct (Hok d eq_refl) as (_ & Hnd & _). specialize (Hs d eq_refl).
  destruct (dict_get_split _ _ _ Hget) as (d1 & d2 & -> & Hk).
  rewrite dict_pop_split by done. unfold unwritten in *.
  revert Hnd Hs. rewrite !fmap_app, !fmap_cons, !NoDup_app, !NoDup_cons.
  rewrite !Forall_app, !Forall_cons. cbn.
  intros (Ha & Hb & Hc & Hd) (He & Hf & Hg).
  assert (Hkeep : ∀ l : dict Stds,
             (std_in stds ∉ std_in <$> l.*2) →
             Forall (λ kv : string * Stds,
                       ch_sent (chan_of m (std_in kv.2)) = EmptyString) l →
             Forall (λ kv : string * Stds,
                       ch_sent (chan_of (<[std_in stds := c2]> (<[std_in stds := c1]> m))
                                  (std_in kv.2)) = EmptyString) l).
  { intros l Hl Hall. apply Forall_forall. intros kv Hin.
    rewrite Forall_forall in Hall. rewrite !chan_of_insert_ne; [by apply Hall|..];
      intros Heq; apply Hl; rewrite Heq;
      apply list_elem_of_fmap; exists kv.2; (split; [done|]);
      apply list_elem_of_fmap; by exists kv. }
  split; apply Hkeep; [|done|done..].
  intros Hin. apply (Hb _ Hin). by left.
Qed.

Lemma sent_ok_fields o w :
  sent_ok (mkState o w) ↔ sent_fields (ssh_stds o) (channels w).
Proof. done. Qed.

Ltac solve_sent :=
  cbn [fst snd] in *; rewrite ?state_ok_fields, ?sent_ok_fields in *; proj_simpl;
  first
    [ assumption
    | apply sent_unset
    | eapply sent_set; eassumption
    | eapply sent_exec; eassumption
    | eapply sent_pop; [eassumption | eassumption | eassumption | reflexivity]
    | by apply (sent_update _ _ _ (set_ch_in_buffer _))
    | exfalso;
      match goal with
      | H1 : dict_mem ?k ?d = true, H2 : dict_get ?k ?d = None |- _ =>
          unfold dict_mem in H1; rewrite H2 in H1; discriminate H1
      end ].

Lemma start_robot_sent s : state_ok s → sent_ok s → sent_ok (start_robot s).2.
Proof.
  intros Hok Hs. destruct (start_robot s) as [r s'] eqn:H.
  destruct_state s. destruct_world w. unfold start_robot in H.
  minv H; solve_sent.
Qed.

Lemma stop_robot_sent s : state_ok s → sent_ok s → sent_ok (stop_robot s).2.
Proof.
  intros Hok Hs. destruct (stop_robot s) as [r s'] eqn:H.
  destruct_state s. destruct_world w. unfold stop_robot in H.
  minv H; solve_sent.
Qed.

Lemma connect_sensor_sent p s : state_ok s → sent_ok s → sent_ok (connect_sensor p s).2.
Proof.
  intros Hok Hs. destruct (connect_sensor p s) as [r s'] eqn:H.
  destruct_state s. destruct_world w. unfold connect_sensor in H.
  minv H; solve_sent.
Qed.

Lemma connect_dynamixel_sent p1 p2 s :
  state_ok s → sent_ok s → sent_ok (connect_dynamixel p1 p2 s).2.
Proof.
  intros Hok Hs. destruct (connect_dynamixel p1 p2 s) as [r s'] eqn:H.
  destruct_state s. destruct_world w. unfold connect_dynamixel in H.
  minv H; solve_sent.
Qed.

Lemma disconnect_sensor_sent s : state_ok s → sent_ok s → sent_ok (disconnect_sensor s).2.
Proof.
  intros Hok Hs. destruct (disconnect_sensor s) as [r s'] eqn:H.
  destruct_state s. destruct_world w. unfold disconnect_sensor in H.
  minv H; solve_sent.
Qed.

Lemma discnnet_dynamixel_sent s : state_ok s → sent_ok s → sent_ok (discnnet_dynamixel s).2.
Proof.
  intros Hok Hs. destruct (discnnet_dynamixel s) as [r s'] eqn:H.
  destruct_state s. destruct_world w. unfold discnnet_dynamixel in H.
  minv H; solve_sent.
Qed.

Lemma get_stdout_sent n s : state_ok s → sent_ok s → sent_ok (get_stdout n s).2.
Proof.
  intros Hok Hs. destruct (get_stdout n s) as [r s'] eqn:H.
  destruct_state s. destruct_world w. unfold get_stdout in H.
  minv H; solve_sent.
Qed.

Lemma get_sensor_stdout_sent s : state_ok s → sent_ok s → sent_ok (get_sensor_stdout s).2.
Proof.
  intros Hok Hs. unfold get_sensor_stdout. rewrite bind_run.
  destruct (ssh_stds_getitem "sensor" s) as [r s'] eqn:H.
  assert (s' = s) as ->.
  { destruct_state s. destruct_world w. by minv H. }
  destruct r; [by apply get_stdout_sent|done..].
Qed.

Lemma get_dynaxmiel_stdout_sent s :
  state_ok s → sent_ok s → sent_ok (get_dynaxmiel_stdout s).2.
Proof.
  intros Hok Hs. unfold get_dynaxmiel_stdout. rewrite bind_run.
  destruct (ssh_stds_getitem "dynamixel" s) as [r s'] eqn:H.
  assert (s' = s) as ->.
  { destruct_state s. destruct_world w. by minv H. }
  destruct r; [by apply get_stdout_sent|done..].
Qed.

Lemma send_settings_sent a b c p1 p2 p3 fl s :
  state_ok s → sent_ok s → sent_ok (send_settings a b c p1 p2 p3 fl s).2.
Proof.
  intros Hok Hs. destruct (send_settings a b c p1 p2 p3 fl s) as [r s'] eqn:H.
  apply send_settings_shape in H. cbn zeta in H.
  destruct_state s. destruct_world w.
  destruct H as [[-> _]|(cmd & [(-> & Hd & _)|(d & log & Hd & ->)])];
    proj_simpl; simplify_eq; solve_sent.
Qed.

Lemma perform_sent c s : state_ok s → sent_ok s → sent_ok (perform c s).
Proof.
  destruct c; cbn [perform];
    eauto using send_settings_sent, start_robot_sent, stop_robot_sent,
      connect_sensor_sent, disconnect_sensor_sent, connect_dynamixel_sent,
      discnnet_dynamixel_sent, get_sensor_stdout_sent, get_dynaxmiel_stdout_sent.
Qed.

Lemma construct_sent rn path w : sent_ok (construct rn path w).2.
Proof.
  destruct (construct rn path w) as [r s'] eqn:H.
  unfold construct, __init__, blank in H. destruct_world w.
  minv H; cbn [snd]; rewrite sent_ok_fields; proj_simpl;
    first [apply sent_unset | intros ? [= <-]; constructor].
Qed.

Lemma env_step_sent o w w' :
  state_ok (mkState o w) → sent_ok (mkState o w) → env_step w w' →
  sent_ok (mkState o w').
Proof.
  rewrite state_ok_fields, !sent_ok_fields. intros Hok Hs [_ Hch _ _ _ _] d Hd.
  eapply unwritten_keep; [by apply Hs|].
  intros kv Hin. destruct (Hok d Hd) as (_ & _ & Hall).
  rewrite Forall_forall in Hall. destruct (Hall _ Hin) as [_ (c & Hc & _)].
  destruct (Hch _ _ Hc) as (c' & Hc' & _ & _ & _ & Hsent).
  by rewrite (chan_of_lookup _ _ _ Hc), (chan_of_lookup _ _ _ Hc').
Qed.

Lemma reachable_sent s : reachable s → sent_ok s.
Proof.
  induction 1 as [rn path w|c s Hr IH|s w' Hr IH Henv].
  - apply construct_sent.
  - apply perform_sent; [by apply reachable_ok|done].
  - destruct s as [o w]. eapply env_step_sent; [by apply (reachable_ok _ Hr)|done..].
Qed.

(** X25. The controller writes nothing to a session as long as it is in
    the registry: in every state a controller can be in, no byte has been
    sent to the stdin of a registered session.  The one thing the methods
    ever write is the ETX of a disconnect, and that session leaves the
    registry in the same call. *)
Theorem registered_sessions_unwritten (s : State) (d : dict Stds) :
  reachable s →
  ssh_stds (self s) = Some d →
  ∀ k stds, dict_get k d = Some stds →
    ch_sent (chan (world s) (std_in stds)) = EmptyString.
Proof.
  intros Hreach Hd k stds Hk.
  pose proof (reachable_sent s Hreach d Hd) as Hall.
  unfold unwritten in Hall. rewrite Forall_forall in Hall.
  destruct (dict_get_split _ _ _ Hk) as (d1 & d2 & -> & _).
  apply (Hall (k, stds)). apply elem_of_app. right. by left.
Qed.

Lemma registered_sessions_unwritten_witness :
  let s := (disconnect_sensor
              (connect_dynamixel "config.yaml" "controller_config.yaml"
                 (connect_sensor "all_sensor.yaml" Demo.fresh_controller).2).2).2 in
  ch_sent (chan (world s) 0) = ETX
  ∧ ch_sent (chan (world s) (std_in (mkStds 1 1 1))) = EmptyString.
Proof.
  split; [vm_compute; reflexivity|].
  apply (registered_sessions_unwritten
           (disconnect_sensor
              (connect_dynamixel "config.yaml" "controller_config.yaml"
                 (connect_sensor "all_sensor.yaml" Demo.fresh_controller).2).2).2
           [("dynamixel", mkStds 1 1 1)]) with (k := "dynamixel").
  - apply (reach_call call_disconnect_sensor),
      (reach_call (call_connect_dynamixel "config.yaml" "controller_config.yaml")),
      (reach_call (call_connect_sensor "all_sensor.yaml")), reach_construct.
  - vm_compute. reflexivity.
  - vm_compute. reflexivity.
Defined.

(** *** Sessions that are out of the registry *)

Ltac solve_untouched Hnot :=
  cbn [snd]; proj_simpl; world_simpl;
  repeat match goal with
         | |- context [<[?k := _]> _ !! ?n] =>
             rewrite (lookup_insert_ne _ k n)
               by first
                    [ lia
                    | match goal with
                      | Hg : dict_get _ _ = Some ?stds |- _ =>
                          let H1 := fresh in let H2 := fresh in
                          destruct (Hnot _ _ Hg) as [H1 H2];
                          first [exact H1 | exact H2]
                      end ]
         end;
  assumption.

(** X26. A channel that no session of the registry refers to is out of
    the reach of every public method: no call reads from it, writes to
    it, or closes its stdin; it is after the call exactly what it was
    before.  This is the lot of a session that was replaced in the
    registry by a later launch under its key. *)
Theorem unregistered_untouched (c : call) (s : State) (d : dict Stds) (n : nat)
    (ch : Channel) :
  ssh_stds (self s) = Some d →
  (∀ k stds, dict_get k d = Some stds → std_in stds ≠ n ∧ std_out stds ≠ n) →
  n < next_chan (world s) →
  channels (world s) !! n = Some ch →
  channels (world (perform c s)) !! n = Some ch.
Proof.
  intros Hd Hnot Hlt Hch.
  destruct c; cbn [perform];
    match goal with
    | |- context [(?m s).2] => destruct (m s) as [r s'] eqn:H
    end;
    destruct_state s; destruct_world w; cbn in Hd, Hlt, Hch; subst.
  - apply send_settings_shape in H. cbn zeta in H.
    destruct H as [[-> _]|(cmd & [(-> & _ & _)|(d0 & log & _ & ->)])];
      solve_untouched Hnot.
  - unfold start_robot in H. minv H; solve_untouched Hnot.
  - unfold stop_robot in H. minv H; solve_untouched Hnot.
  - unfold connect_sensor in H. minv H; solve_untouched Hnot.
  - unfold disconnect_sensor in H. minv H; solve_untouched Hnot.
  - unfold connect_dynamixel in H. minv H; solve_untouched Hnot.
  - unfold discnnet_dynamixel in H. minv H; solve_untouched Hnot.
  - unfold get_sensor_stdout, get_stdout in H. minv H; solve_untouched Hnot.
  - unfold get_dynaxmiel_stdout, get_stdout in H. minv H; solve_untouched Hnot.
Qed.

Lemma unregistered_untouched_witness :
  let s := (connect_sensor "all_sensor.yaml"
              (connect_sensor "all_sensor.yaml" Demo.fresh_controller).2).2 in
  let ch := fresh_channel (sensor_command_of (source_command_of "pi") "robot1") true in
  channels (world (perform call_disconnect_sensor s)) !! 0 = Some ch.
Proof.
  apply (unregistered_untouched call_disconnect_sensor
           (connect_sensor "all_sensor.yaml"
              (connect_sensor "all_sensor.yaml" Demo.fresh_controller).2).2
           [("sensor", mkStds 1 1 1)]).
  - vm_compute. reflexivity.
  - intros k stds Hk. cbn in Hk.
    destruct (String.eqb k "sensor"); [|discriminate Hk].
    injection Hk as <-. cbn. split; discriminate.
  - vm_compute. lia.
  - vm_compute. reflexivity.
Defined.

End Props.
